(** * STET client: a shallow embedding of [client/client.go]

    The development embeds the orchestration code of the Split-Trust
    Encryption Tool client.  Two revisions of the client are present in the
    sources: the streaming client ([client/client.go], module [Streaming])
    and the older whole-buffer client (module [Legacy]).

    Calls that leave the client (Cloud KMS, the external key manager, RSA
    key files, the input and output streams, the logger, randomness) are
    events of a small free monad; a run of a program against an arbitrary
    environment yields the value returned, the final environment state and
    the trace of calls with their answers. *)

From Stdlib Require Import ZArith List String Ascii Bool Arith Lia.
From Stdlib Require Import Strings.Byte.
Import ListNotations.

Local Open Scope list_scope.
Local Open Scope string_scope.

(** ** Byte strings and Go strings *)

Definition bytes := list byte.

(** [strings.HasPrefix(s, p)]. *)
Definition HasPrefix (s p : string) : bool := String.prefix p s.

(** [strings.TrimPrefix(s, p)]. *)
Definition TrimPrefix (s p : string) : string :=
  if HasPrefix s p
  then substring (String.length p) (String.length s - String.length p) s
  else s.

(** ** CRC32C, as [hash/crc32] computes it for the Castagnoli table *)

Module crc32.

Local Open Scope Z_scope.

(** The reversed Castagnoli polynomial. *)
Definition Castagnoli : Z := 0x82f63b78.

Definition uint32_not (x : Z) : Z := Z.lxor x 0xffffffff.

(** One table entry: eight shift-and-conditionally-xor rounds. *)
Fixpoint populate (rounds : nat) (poly crc : Z) : Z :=
  match rounds with
  | O => crc
  | S r =>
      populate r poly
        (if Z.testbit crc 0
         then Z.lxor (Z.shiftr crc 1) poly
         else Z.shiftr crc 1)
  end.

Definition MakeTable (poly : Z) : Z -> Z := fun i => populate 8 poly i.

Definition update (crc : Z) (tab : Z -> Z) (p : bytes) : Z :=
  uint32_not
    (fold_left
       (fun crc v =>
          Z.lxor (tab (Z.land (Z.lxor crc (Z.of_N (Byte.to_N v))) 0xff))
                 (Z.shiftr crc 8))
       p (uint32_not crc)).

Definition Checksum (data : bytes) (tab : Z -> Z) : Z := update 0 tab data.

End crc32.

(** [crc32c] of the client: the checksum under the Castagnoli table. *)
Definition crc32c (data : bytes) : Z :=
  let t := crc32.MakeTable crc32.Castagnoli in
  crc32.Checksum data t.

(** ** Cloud KMS and configuration messages *)

Inductive ProtectionLevel :=
| PROTECTION_LEVEL_UNSPECIFIED
| SOFTWARE
| HSM
| EXTERNAL
| ProtectionLevel_other (n : Z).   (* any further value of the open enum *)

Inductive CryptoKeyVersionState :=
| CRYPTO_KEY_VERSION_STATE_UNSPECIFIED
| PENDING_GENERATION
| ENABLED
| DISABLED
| DESTROYED
| DESTROY_SCHEDULED
| PENDING_IMPORT
| IMPORT_FAILED.

Record ExternalProtectionLevelOptions := {
  ExternalKeyUri : string
}.

Record CryptoKeyVersion := {
  State : CryptoKeyVersionState;
  ProtectionLevel_ : ProtectionLevel;
  ExternalProtectionLevelOptions_ : option ExternalProtectionLevelOptions
}.

Record CryptoKey := {
  Primary : option CryptoKeyVersion
}.

(** The nil-safe getters generated for the messages. *)
Definition GetPrimary (k : CryptoKey) : option CryptoKeyVersion := Primary k.

Definition GetState (v : option CryptoKeyVersion) : CryptoKeyVersionState :=
  match v with
  | Some v => State v
  | None => CRYPTO_KEY_VERSION_STATE_UNSPECIFIED
  end.

Definition GetProtectionLevel (v : option CryptoKeyVersion) : ProtectionLevel :=
  match v with
  | Some v => ProtectionLevel_ v
  | None => PROTECTION_LEVEL_UNSPECIFIED
  end.

Definition GetExternalProtectionLevelOptions (v : option CryptoKeyVersion)
  : option ExternalProtectionLevelOptions :=
  match v with
  | Some v => ExternalProtectionLevelOptions_ v
  | None => None
  end.

Definition GetExternalKeyUri (o : option ExternalProtectionLevelOptions) : string :=
  match o with
  | Some o => ExternalKeyUri o
  | None => ""
  end.

Record EncryptRequest := {
  EncryptRequest_Name : string;
  EncryptRequest_Plaintext : bytes;
  EncryptRequest_PlaintextCrc32C : Z
}.

(** [CiphertextCrc32C] is a pointer to a wrapper message: [None] is nil. *)
Record EncryptResponse := {
  EncryptResponse_Ciphertext : bytes;
  EncryptResponse_CiphertextCrc32C : option Z;
  EncryptResponse_VerifiedPlaintextCrc32C : bool
}.

Record DecryptRequest := {
  DecryptRequest_Name : string;
  DecryptRequest_Ciphertext : bytes;
  DecryptRequest_CiphertextCrc32C : Z
}.

Record DecryptResponse := {
  DecryptResponse_Plaintext : bytes;
  DecryptResponse_PlaintextCrc32C : option Z
}.

(** The [kek_type] oneof of a KekInfo. *)
Inductive KekType :=
| KekType_unset
| KekInfo_RsaFingerprint (fingerprint : string)
| KekInfo_KekUri (uri : string).

Record KekInfo := {
  KekType_ : KekType
}.

Definition GetKekUri (k : KekInfo) : string :=
  match KekType_ k with
  | KekInfo_KekUri uri => uri
  | _ => ""
  end.

Definition GetRsaFingerprint (k : KekInfo) : string :=
  match KekType_ k with
  | KekInfo_RsaFingerprint f => f
  | _ => ""
  end.

Record ShamirConfig := {
  Threshold : Z;   (* int64 *)
  Shares_ : Z      (* int64 *)
}.

(** The [key_splitting_algorithm] oneof of a KeyConfig. *)
Inductive KeySplittingAlgorithm :=
| KeySplitting_unset
| KeyConfig_NoSplit (no_split : bool)
| KeyConfig_Shamir (shamir : ShamirConfig).

Record KeyConfig := {
  KekInfos : list KekInfo;
  KeySplittingAlgorithm_ : KeySplittingAlgorithm
}.

(** [keyCfg.GetKekInfos()] on a possibly nil KeyConfig. *)
Definition GetKekInfos (k : option KeyConfig) : list KekInfo :=
  match k with
  | Some k => KekInfos k
  | None => []
  end.

Record EncryptConfig := {
  EncryptConfig_KeyConfig : option KeyConfig
}.

Record DecryptConfig := {
  KeyConfigs : list KeyConfig
}.

Record AsymmetricKeys := {
  PublicKeyFiles : list string;
  PrivateKeyFiles : list string
}.

Record WrappedShare := {
  Share : bytes;
  Hash : bytes
}.

Record Metadata := {
  BlobId : string;
  Metadata_KeyConfig : option KeyConfig;
  Metadata_Shares : list WrappedShare
}.

(** Decidable equality of KeyConfigs: what [proto.Equal] decides on two
    messages of known fields. *)
Definition KekType_eq_dec (a b : KekType) : {a = b} + {a <> b}.
Proof. decide equality; apply string_dec. Defined.

Definition KekInfo_eq_dec (a b : KekInfo) : {a = b} + {a <> b}.
Proof. decide equality; apply KekType_eq_dec. Defined.

Definition ShamirConfig_eq_dec (a b : ShamirConfig) : {a = b} + {a <> b}.
Proof. decide equality; apply Z.eq_dec. Defined.

Definition KeySplittingAlgorithm_eq_dec (a b : KeySplittingAlgorithm)
  : {a = b} + {a <> b}.
Proof. decide equality; [apply bool_dec | apply ShamirConfig_eq_dec]. Defined.

Definition KeyConfig_eq_dec (a b : KeyConfig) : {a = b} + {a <> b}.
Proof.
  decide equality;
    [apply KeySplittingAlgorithm_eq_dec | apply list_eq_dec, KekInfo_eq_dec].
Defined.

(** [proto.Equal(keyCfg, metadata.GetKeyConfig())]: a configured KeyConfig
    is never equal to an absent one. *)
Definition proto_Equal (keyCfg : KeyConfig) (other : option KeyConfig) : bool :=
  match other with
  | Some k => if KeyConfig_eq_dec keyCfg k then true else false
  | None => false
  end.

(** ** Errors

    An error built by [fmt.Errorf] keeps its format string and its
    arguments; an error argument is the underlying error. *)

Inductive error :=
| Errorf (format : string) (args : list fmtarg)
with fmtarg :=
| AString (s : string)
| AInt (n : Z)
| AError (e : error)
| ALevel (pl : ProtectionLevel)
| AKekType (k : KekType)
| ANil.

Inductive result (A : Type) :=
| Ok (a : A)
| Err (e : error).
Arguments Ok {A} a.
Arguments Err {A} e.

Definition is_Ok {A} (r : result A) : bool :=
  match r with Ok _ => true | Err _ => false end.

(** ** Handles, keys and values passed across the client's boundary *)

(** The value held by the [kmsClient] interface field once it is not nil.
    [NilKeyManagementClient] is the nil pointer that
    [kms.NewKeyManagementClient] returns together with an error: stored in
    the interface field it makes the field compare unequal to nil. *)
Inductive cloudKMSClient :=
| KMSClient (id : nat)
| NilKeyManagementClient.

Inductive secureSessionClient :=
| SecureSession (id : nat).

Inductive ClientOption :=
| WithUserAgent (ua : string).

Inductive SessionOption :=
| SkipTLSVerify (skip : bool).

Inductive rsa_PublicKey := PublicKey (der : bytes).
Inductive rsa_PrivateKey := PrivateKey (der : bytes).

(** The 32-byte array type of a data encryption key. *)
Definition DEK := bytes.
Definition DEKBytes : nat := 32.

(** [shares.UnwrappedShare]. *)
Record UnwrappedShare := {
  UnwrappedShare_Share : bytes;
  URI : string
}.

(** The fields of a parsed [url.URL] that the client reads. *)
Record URL := {
  Scheme : string;
  Hostname : string;
  Host : string
}.

(** A decoded PEM block. *)
Record pem_Block := {
  pem_Type : string;
  pem_Bytes : bytes
}.

(** [EncryptedData] of the whole-buffer client. *)
Record EncryptedData := {
  EncryptedData_Ciphertext : bytes;
  EncryptedData_Metadata : option Metadata
}.

(** ** Calls that leave the client *)

Inductive Event : Type -> Type :=
(* Cloud KMS *)
| NewKeyManagementClient (opts : list ClientOption) : Event (result cloudKMSClient)
| GetCryptoKey (cl : cloudKMSClient) (name : string) : Event (result CryptoKey)
| KmsEncrypt (cl : cloudKMSClient) (req : EncryptRequest) : Event (result EncryptResponse)
| KmsDecrypt (cl : cloudKMSClient) (req : DecryptRequest) : Event (result DecryptResponse)
| KmsClose (cl : cloudKMSClient) : Event (option error)
(* external key manager *)
| GenerateTokenWithAudience (audience : string) : Event (result string)
| GenerateJWT (audience : string) : Event (result string)
| EstablishSecureSession (addr authToken : string) (opts : list SessionOption)
    : Event (result secureSessionClient)
| ConfidentialWrap (cl : secureSessionClient) (keyPath resourceName : string)
    (plaintext : bytes) : Event (result bytes)
| ConfidentialUnwrap (cl : secureSessionClient) (keyPath resourceName : string)
    (wrappedBlob : bytes) : Event (result bytes)
| EndSession (cl : secureSessionClient) : Event (option error)
(* local RSA keys *)
| PublicKeyForRSAFingerprint (kek : KekInfo) (keys : AsymmetricKeys)
    : Event (result rsa_PublicKey)
| PrivateKeyForRSAFingerprint (kek : KekInfo) (keys : AsymmetricKeys)
    : Event (result rsa_PrivateKey)
| os_ReadFile (path : string) : Event (result bytes)
| rsa_EncryptOAEP (pub : rsa_PublicKey) (msg : bytes) : Event (result bytes)
| rsa_DecryptOAEP (priv : rsa_PrivateKey) (ciphertext : bytes) : Event (result bytes)
(* logging *)
| glog_Infof (format : string) (args : list fmtarg) : Event unit
| glog_Warningf (format : string) (args : list fmtarg) : Event unit
(* randomness *)
| NewDEK : Event DEK
| uuid_NewString : Event string
| rand_Read (n : nat) : Event bytes
| CreateDEKShares (dek : DEK) (keyCfg : option KeyConfig) : Event (result (list bytes))
(* the input and output streams of the streaming client *)
| ReadMetadata : Event (result Metadata)
| WriteSTETHeader (metadataLen : nat) : Event (option error)
| output_Write (p : bytes) : Event (option error)
| AeadEncrypt (key : DEK) (aad : bytes) : Event (option error)
| AeadDecrypt (key : DEK) (aad : bytes) : Event (option error)
(* authenticated encryption of the whole-buffer client *)
| aeadEncrypt (key : DEK) (plaintext aad : bytes) : Event (result bytes).

(** The calls that read the input stream and those that write the output
    stream. *)
Definition reads_input {X} (e : Event X) : bool :=
  match e with
  | ReadMetadata | AeadEncrypt _ _ | AeadDecrypt _ _ => true
  | _ => false
  end.

Definition writes_output {X} (e : Event X) : bool :=
  match e with
  | WriteSTETHeader _ | output_Write _ | AeadEncrypt _ _ | AeadDecrypt _ _ => true
  | _ => false
  end.

Definition is_EndSession {X} (e : Event X) : bool :=
  match e with
  | EndSession _ => true
  | _ => false
  end.

Definition is_Warningf {X} (e : Event X) : bool :=
  match e with
  | glog_Warningf _ _ => true
  | _ => false
  end.

(** ** Programs: a free monad over the calls, with Go panics *)

Inductive prog (R : Type) : Type :=
| Ret (r : R)
| Panic (msg : string)
| Vis (X : Type) (e : Event X) (k : X -> prog R).
Arguments Ret {R} r.
Arguments Panic {R} msg.
Arguments Vis {R X} e k.

Fixpoint bind {A B} (p : prog A) (f : A -> prog B) : prog B :=
  match p with
  | Ret a => f a
  | Panic m => Panic m
  | Vis e k => Vis e (fun x => bind (k x) f)
  end.

Definition call {X} (e : Event X) : prog X := Vis e Ret.

Declare Scope prog_scope.
Delimit Scope prog_scope with prog.
Notation "x <- p ;; q" := (bind p (fun x => q))
  (at level 100, p at next level, right associativity) : prog_scope.
Notation "' pat <- p ;; q" := (bind p (fun x => match x with pat => q end))
  (at level 100, pat pattern, p at next level, right associativity) : prog_scope.
Notation "p ;;; q" := (bind p (fun _ => q))
  (at level 100, right associativity) : prog_scope.

(** ** Running a program against an environment *)

Inductive outcome (R : Type) :=
| Returned (r : R)
| Panicked (msg : string).
Arguments Returned {R} r.
Arguments Panicked {R} msg.

(** One call of a trace, with the answer it received. *)
Record Call := mkCall {
  call_type : Type;
  call_event : Event call_type;
  call_answer : call_type
}.
Arguments mkCall {call_type} call_event call_answer.

Definition Trace := list Call.

(** An environment answers each call and moves to its next state. *)
Definition Handler (S : Type) := forall X, Event X -> S -> X * S.

Fixpoint run {S R} (h : Handler S) (p : prog R) (s : S) : outcome R * S * Trace :=
  match p with
  | Ret r => (Returned r, s, [])
  | Panic m => (Panicked m, s, [])
  | Vis e k =>
      let (x, s1) := h _ e s in
      let '(o, s2, tr) := run h (k x) s1 in
      (o, s2, mkCall e x :: tr)
  end.

Definition trace_of {S R} (h : Handler S) (p : prog R) (s : S) : Trace :=
  snd (run h p s).

Definition outcome_of {S R} (h : Handler S) (p : prog R) (s : S) : outcome R :=
  fst (fst (run h p s)).

Definition count_calls (f : forall X, Event X -> bool) (tr : Trace) : nat :=
  List.length (filter (fun c => f _ (call_event c)) tr).

Definition no_calls (f : forall X, Event X -> bool) (tr : Trace) : Prop :=
  Forall (fun c => f _ (call_event c) = false) tr.

(** ** Library functions the client calls

    Pure functions of the Go standard library and of the sibling packages
    of the client ([shares], the metadata serialisation) whose sources are
    not part of the development are taken as parameters. *)

Class GoLib := {
  url_Parse : string -> result URL;
  path_Base : string -> string;
  HashShare : bytes -> bytes;
  ValidateShare : bytes -> bytes -> bool;
  CombineUnwrappedShares : KeyConfig -> list UnwrappedShare -> result bytes;
  CombineShares : list bytes -> result bytes;
  MetadataToAAD : Metadata -> result bytes;
  proto_Marshal : Metadata -> result bytes;
  pem_Decode : bytes -> option pem_Block;
  x509_ParsePKIXPublicKey : bytes -> result (option rsa_PublicKey);
  x509_ParsePKCS1PrivateKey : bytes -> result rsa_PrivateKey;
  x509_MarshalPKIXPublicKey : rsa_PrivateKey -> result bytes;
  sha256_Sum256 : bytes -> bytes;
  base64_EncodeToString : bytes -> string;
  aeadDecrypt : DEK -> bytes -> bytes -> result bytes;
  gf256_mul : byte -> byte -> byte
}.

(** A method call on an interface value: calling through nil panics. *)
Definition nil_dereference : string :=
  "invalid memory address or nil pointer dereference".

Definition kms_method {X} (cl : option cloudKMSClient)
  (m : cloudKMSClient -> Event X) : prog X :=
  match cl with
  | Some cl => call (m cl)
  | None => Panic nil_dereference
  end.

(** Deferred [c.kmsClient.Close()] calls, most recent first. *)
Fixpoint run_deferred (defers : list (option cloudKMSClient)) : prog unit :=
  match defers with
  | [] => Ret tt
  | d :: rest => bind (kms_method d KmsClose) (fun _ => run_deferred rest)
  end.

(** Identifier for GCP KMS used in KEK URIs. *)
Definition gcpKeyPrefix : string := "gcp-kms://".

Record kekMetadata := {
  protectionLevel : ProtectionLevel;
  uri : string;
  resourceName : string
}.

(** How one iteration of the unwrap loop ends: [continue], the share is
    appended, or the whole function returns an error. *)
Inductive step (A : Type) :=
| Continue
| Retain (a : A)
| Abort (e : error).
Arguments Continue {A}.
Arguments Retain {A} a.
Arguments Abort {A} e.

(** [copy(combinedDEK[:], combinedShares)] into a zeroed 32-byte array. *)
Definition copy_DEK (combinedShares : bytes) : DEK :=
  (firstn DEKBytes combinedShares
     ++ repeat x00 (DEKBytes - List.length combinedShares))%list.

(** * The streaming client, [client/client.go] *)

Module Streaming.
Section WithLib.
Context {lib : GoLib}.
Local Open Scope prog_scope.

Record StetMetadata := {
  KeyUris : list string;
  BlobID : string
}.

Record StetClient := {
  kmsClient : option cloudKMSClient;
  fakeSecureSessionClient : option secureSessionClient;
  InsecureSkipVerify : bool;
  Version : string
}.

Definition set_kmsClient (c : StetClient) (k : option cloudKMSClient) : StetClient :=
  {| kmsClient := k;
     fakeSecureSessionClient := fakeSecureSessionClient c;
     InsecureSkipVerify := InsecureSkipVerify c;
     Version := Version c |}.

Definition initializeKMSClient (c : StetClient) : prog (StetClient * option error) :=
  match kmsClient c with
  | Some _ => Ret (c, None)
  | None =>
      let ua := "STET/" in
      let ua := if String.eqb (Version c) "" then ua ++ "dev" else ua ++ Version c in
      r <- call (NewKeyManagementClient [WithUserAgent ua]) ;;
      match r with
      | Ok cl => Ret (set_kmsClient c (Some cl), None)
      | Err err =>
          Ret (set_kmsClient c (Some NilKeyManagementClient),
               Some (Errorf "error creating KMS client: %v" [AError err]))
      end
  end.

Definition parseEKMKeyURI (keyURI : string) : result (string * string) :=
  match url_Parse keyURI with
  | Err err => Err (Errorf "could not parse: %v" [AError err])
  | Ok u => Ok (Scheme u ++ "://" ++ Hostname u, path_Base keyURI)
  end.

(** The secure-session client of a wrap or unwrap: the injected fake, or
    a session established with a fresh token. *)
Definition obtain_ekmClient (c : StetClient) (addr : string) (md : kekMetadata)
  : prog (result secureSessionClient) :=
  match fakeSecureSessionClient c with
  | Some fake => Ret (Ok fake)
  | None =>
      t <- call (GenerateTokenWithAudience addr) ;;
      match t with
      | Err err => Ret (Err err)
      | Ok authToken =>
          s <- call (EstablishSecureSession (uri md) authToken
                       [SkipTLSVerify (InsecureSkipVerify c)]) ;;
          match s with
          | Err err =>
              Ret (Err (Errorf "error establishing secure session: %v" [AError err]))
          | Ok ekmClient => Ret (Ok ekmClient)
          end
      end
  end.

Definition ekmSecureSessionWrap (c : StetClient) (unwrappedShare : bytes)
  (md : kekMetadata) : prog (result bytes) :=
  match parseEKMKeyURI (uri md) with
  | Err err => Ret (Err err)
  | Ok (addr, keyPath) =>
      cl <- obtain_ekmClient c addr md ;;
      match cl with
      | Err err => Ret (Err err)
      | Ok ekmClient =>
          w <- call (ConfidentialWrap ekmClient keyPath (resourceName md) unwrappedShare) ;;
          match w with
          | Err err =>
              Ret (Err (Errorf "error wrapping with secure session: %v" [AError err]))
          | Ok wrappedBlob =>
              e <- call (EndSession ekmClient) ;;
              match e with
              | Some err =>
                  Ret (Err (Errorf "error ending secure session: %v" [AError err]))
              | None => Ret (Ok wrappedBlob)
              end
          end
      end
  end.

Definition ekmSecureSessionUnwrap (c : StetClient) (wrappedShare : bytes)
  (md : kekMetadata) : prog (result bytes) :=
  match parseEKMKeyURI (uri md) with
  | Err err => Ret (Err err)
  | Ok (addr, keyPath) =>
      cl <- obtain_ekmClient c addr md ;;
      match cl with
      | Err err => Ret (Err err)
      | Ok ekmClient =>
          w <- call (ConfidentialUnwrap ekmClient keyPath (resourceName md) wrappedShare) ;;
          match w with
          | Err err =>
              Ret (Err (Errorf "error unwrapping with secure session: %v" [AError err]))
          | Ok unwrappedBlob =>
              e <- call (EndSession ekmClient) ;;
              match e with
              | Some err =>
                  Ret (Err (Errorf "error ending secure session: %v" [AError err]))
              | None => Ret (Ok unwrappedBlob)
              end
          end
      end
  end.

Definition wrapKMSShare (c : StetClient) (share : bytes) (keyName : string)
  : prog (result bytes) :=
  let req := {| EncryptRequest_Name := keyName;
                EncryptRequest_Plaintext := share;
                EncryptRequest_PlaintextCrc32C := crc32c share |} in
  r <- kms_method (kmsClient c) (fun cl => KmsEncrypt cl req) ;;
  match r with
  | Err err => Ret (Err (Errorf "failed to encrypt: %v" [AError err]))
  | Ok result =>
      if negb (EncryptResponse_VerifiedPlaintextCrc32C result)
      then Ret (Err (Errorf "Encrypt: request corrupted in-transit" []))
      else
        match EncryptResponse_CiphertextCrc32C result with
        | None => Panic nil_dereference
        | Some declared =>
            if negb (Z.eqb (crc32c (EncryptResponse_Ciphertext result)) declared)
            then Ret (Err (Errorf "Encrypt: response corrupted in-transit" []))
            else Ret (Ok (EncryptResponse_Ciphertext result))
        end
  end.

Definition getKekURIMetadata (kmsClient : option cloudKMSClient) (kekInfo : KekInfo)
  : prog (result kekMetadata) :=
  match KekType_ kekInfo with
  | KekInfo_KekUri _ =>
      let uri := GetKekUri kekInfo in
      if negb (HasPrefix uri gcpKeyPrefix)
      then Ret (Err (Errorf "%v does not have the expected URI prefix, want %v"
                       [AString uri; AString gcpKeyPrefix]))
      else
        r <- kms_method kmsClient
               (fun cl => GetCryptoKey cl (TrimPrefix uri gcpKeyPrefix)) ;;
        match r with
        | Err err => Ret (Err (Errorf "error retrieving key metadata: %v" [AError err]))
        | Ok cryptoKey =>
            let cryptoKeyVer := GetPrimary cryptoKey in
            match GetState cryptoKeyVer with
            | ENABLED =>
                match cryptoKeyVer with
                | None => Panic nil_dereference
                | Some ver =>
                    match ProtectionLevel_ ver with
                    | PROTECTION_LEVEL_UNSPECIFIED =>
                        Ret (Err (Errorf "unspecified protection level %v"
                                    [ALevel (GetProtectionLevel cryptoKeyVer)]))
                    | EXTERNAL =>
                        match ExternalProtectionLevelOptions_ ver with
                        | None =>
                            Ret (Err (Errorf "CryptoKeyVersion for KEK %s does not have external protection level options despite being EXTERNAL protection level"
                                        [AString uri]))
                        | Some _ =>
                            Ret (Ok {| protectionLevel := GetProtectionLevel cryptoKeyVer;
                                       uri := GetExternalKeyUri
                                                (GetExternalProtectionLevelOptions cryptoKeyVer);
                                       resourceName := TrimPrefix uri gcpKeyPrefix |})
                        end
                    | _ =>
                        Ret (Ok {| protectionLevel := GetProtectionLevel cryptoKeyVer;
                                   uri := uri;
                                   resourceName := TrimPrefix uri gcpKeyPrefix |})
                    end
                end
            | _ => Ret (Err (Errorf "CryptoKeyVersion for %v is not enabled" [AString uri]))
            end
        end
  | _ => Ret (Err (Errorf "cannot retrieve KEK Metadata for a non-KEK" []))
  end.

(** The body of the loop of [wrapShares] for one share: the wrapped share
    and, for a share wrapped by a KMS or external key, the key URI; the
    second component lists the [Close] calls deferred by the iteration. *)
Definition wrapShares_body (c : StetClient) (keys : AsymmetricKeys)
  (share : bytes) (kek : KekInfo)
  : prog (StetClient * list (option cloudKMSClient)
          * result (WrappedShare * list string)) :=
  let hash := HashShare share in
  match KekType_ kek with
  | KekInfo_RsaFingerprint _ =>
      k <- call (PublicKeyForRSAFingerprint kek keys) ;;
      match k with
      | Err err =>
          Ret (c, [], Err (Errorf "failed to find public key for RSA fingerprint: %w"
                             [AError err]))
      | Ok key =>
          w <- call (rsa_EncryptOAEP key share) ;;
          match w with
          | Err err =>
              Ret (c, [], Err (Errorf "error wrapping key share: %v" [AError err]))
          | Ok wrapped => Ret (c, [], Ok ({| Share := wrapped; Hash := hash |}, []))
          end
      end
  | KekInfo_KekUri _ =>
      '(c, e) <- initializeKMSClient c ;;
      match e with
      | Some err =>
          Ret (c, [], Err (Errorf "error initializing KMS Client: %v" [AError err]))
      | None =>
          let defers := [kmsClient c] in
          m <- getKekURIMetadata (kmsClient c) kek ;;
          match m with
          | Err err =>
              Ret (c, defers, Err (Errorf "Error retrieving KEK Metadata: %v" [AError err]))
          | Ok kmd =>
              match protectionLevel kmd with
              | SOFTWARE | HSM =>
                  w <- wrapKMSShare c share (resourceName kmd) ;;
                  match w with
                  | Err err =>
                      Ret (c, defers,
                           Err (Errorf "error wrapping key share: %v" [AError err]))
                  | Ok wrapped =>
                      Ret (c, defers, Ok ({| Share := wrapped; Hash := hash |}, [uri kmd]))
                  end
              | EXTERNAL =>
                  w <- ekmSecureSessionWrap c share kmd ;;
                  match w with
                  | Err err =>
                      Ret (c, defers,
                           Err (Errorf "error wrapping with secure session: %v" [AError err]))
                  | Ok ekmWrappedShare =>
                      Ret (c, defers,
                           Ok ({| Share := ekmWrappedShare; Hash := hash |}, [uri kmd]))
                  end
              | pl =>
                  Ret (c, defers, Err (Errorf "unsupported protection level %v" [ALevel pl]))
              end
          end
      end
  | x => Ret (c, [], Err (Errorf "unsupported KekInfo type: %v" [AKekType x]))
  end.

(** The loop of [wrapShares] from index [i] on. *)
Fixpoint wrapShares_loop (kekInfos : list KekInfo) (keys : AsymmetricKeys)
  (i : nat) (unwrappedShares : list bytes) (c : StetClient)
  (defers : list (option cloudKMSClient))
  (wrappedShares : list WrappedShare) (keyURIs : list string)
  : prog (StetClient * list (option cloudKMSClient)
          * result (list WrappedShare * list string)) :=
  match unwrappedShares with
  | [] => Ret (c, defers, Ok (wrappedShares, keyURIs))
  | share :: rest =>
      match nth_error kekInfos i with
      | None => Panic "index out of range"
      | Some kek =>
          '(c, ds, r) <- wrapShares_body c keys share kek ;;
          match r with
          | Err err => Ret (c, (ds ++ defers)%list, Err err)
          | Ok (wrapped, uris) =>
              wrapShares_loop kekInfos keys (S i) rest c (ds ++ defers)%list
                (wrappedShares ++ [wrapped])%list (keyURIs ++ uris)%list
          end
      end
  end.

Definition wrapShares (c : StetClient) (unwrappedShares : list bytes)
  (kekInfos : list KekInfo) (keys : AsymmetricKeys)
  : prog (StetClient * result (list WrappedShare * list string)) :=
  if negb (Nat.eqb (List.length unwrappedShares) (List.length kekInfos))
  then Ret (c, Err (Errorf "number of shares to wrap (%d) does not match number of KEKs (%d)"
                      [AInt (Z.of_nat (List.length unwrappedShares));
                       AInt (Z.of_nat (List.length kekInfos))]))
  else
    '(c, defers, r) <- wrapShares_loop kekInfos keys 0 unwrappedShares c [] [] [] ;;
    run_deferred defers ;;;
    Ret (c, r).

Definition unwrapKMSShare (c : StetClient) (wrappedShare : bytes) (keyName : string)
  : prog (result bytes) :=
  let req := {| DecryptRequest_Name := keyName;
                DecryptRequest_Ciphertext := wrappedShare;
                DecryptRequest_CiphertextCrc32C := crc32c wrappedShare |} in
  r <- kms_method (kmsClient c) (fun cl => KmsDecrypt cl req) ;;
  match r with
  | Err err => Ret (Err (Errorf "failed to decrypt ciphertext: %v" [AError err]))
  | Ok result =>
      match DecryptResponse_PlaintextCrc32C result with
      | None => Panic nil_dereference
      | Some declared =>
          if negb (Z.eqb (crc32c (DecryptResponse_Plaintext result)) declared)
          then Ret (Err (Errorf "Decrypt: response corrupted in-transit" []))
          else Ret (Ok (DecryptResponse_Plaintext result))
      end
  end.

(** The end of an iteration of the unwrap loop that reached the hash
    check. *)
Definition validate_and_retain (i : nat) (wrapped : WrappedShare)
  (unwrapped : UnwrappedShare) : prog (step UnwrappedShare) :=
  if negb (ValidateShare (UnwrappedShare_Share unwrapped) (Hash wrapped))
  then
    call (glog_Warningf "Unwrapped share %v does not have the expected hash"
            [AInt (Z.of_nat i)]) ;;;
    Ret Continue
  else
    call (glog_Infof "Successfully unwrapped share #%v" [AInt (Z.of_nat i + 1)]) ;;;
    Ret (Retain unwrapped).

Definition warn_and_continue {A} (format : string) (args : list fmtarg)
  : prog (step A) :=
  call (glog_Warningf format args) ;;; Ret Continue.

(** The body of the loop of [unwrapAndValidateShares] for share [i]. *)
Definition unwrapAndValidateShares_body (c : StetClient) (keys : AsymmetricKeys)
  (i : nat) (wrapped : WrappedShare) (kek : KekInfo)
  : prog (StetClient * list (option cloudKMSClient) * step UnwrappedShare) :=
  call (glog_Infof "Attempting to unwrap share #%v" [AInt (Z.of_nat i + 1)]) ;;;
  match KekType_ kek with
  | KekInfo_RsaFingerprint _ =>
      k <- call (PrivateKeyForRSAFingerprint kek keys) ;;
      match k with
      | Err err =>
          st <- warn_and_continue "Failed to find public key for RSA fingerprint: %v"
                  [AError err] ;;
          Ret (c, [], st)
      | Ok key =>
          u <- call (rsa_DecryptOAEP key (Share wrapped)) ;;
          match u with
          | Err err =>
              st <- warn_and_continue "Error unwrapping key share: %v" [AError err] ;;
              Ret (c, [], st)
          | Ok share =>
              st <- validate_and_retain i wrapped
                      {| UnwrappedShare_Share := share; URI := "" |} ;;
              Ret (c, [], st)
          end
      end
  | KekInfo_KekUri _ =>
      '(c, e) <- initializeKMSClient c ;;
      match e with
      | Some err =>
          st <- warn_and_continue "Error initializing Cloud KMS Client: %v" [AError err] ;;
          Ret (c, [], st)
      | None =>
          let defers := [kmsClient c] in
          m <- getKekURIMetadata (kmsClient c) kek ;;
          match m with
          | Err err =>
              Ret (c, defers,
                   Abort (Errorf "Error retrieving KEK Metadata: %v" [AError err]))
          | Ok kmd =>
              match protectionLevel kmd with
              | SOFTWARE | HSM =>
                  u <- unwrapKMSShare c (Share wrapped) (resourceName kmd) ;;
                  match u with
                  | Err err =>
                      st <- warn_and_continue "Error unwrapping key share: %v"
                              [AError err] ;;
                      Ret (c, defers, st)
                  | Ok share =>
                      st <- validate_and_retain i wrapped
                              {| UnwrappedShare_Share := share; URI := uri kmd |} ;;
                      Ret (c, defers, st)
                  end
              | EXTERNAL =>
                  u <- ekmSecureSessionUnwrap c (Share wrapped) kmd ;;
                  match u with
                  | Err err =>
                      st <- warn_and_continue
                              "Error unwrapping with external EKM for %v: %v"
                              [AString (uri kmd); AError err] ;;
                      Ret (c, defers, st)
                  | Ok share =>
                      st <- validate_and_retain i wrapped
                              {| UnwrappedShare_Share := share; URI := uri kmd |} ;;
                      Ret (c, defers, st)
                  end
              | pl =>
                  st <- warn_and_continue "Unsupported protection level %v" [ALevel pl] ;;
                  Ret (c, defers, st)
              end
          end
      end
  | x =>
      st <- warn_and_continue "Unsupported KekInfo type: %v" [AKekType x] ;;
      Ret (c, [], st)
  end.

(** The loop of [unwrapAndValidateShares] from index [i] on. *)
Fixpoint unwrapAndValidateShares_loop (kekInfos : list KekInfo)
  (keys : AsymmetricKeys) (i : nat) (wrappedShares : list WrappedShare)
  (c : StetClient) (defers : list (option cloudKMSClient))
  (unwrappedShares : list UnwrappedShare)
  : prog (StetClient * list (option cloudKMSClient)
          * result (list UnwrappedShare)) :=
  match wrappedShares with
  | [] => Ret (c, defers, Ok unwrappedShares)
  | wrapped :: rest =>
      match nth_error kekInfos i with
      | None => Panic "index out of range"
      | Some kek =>
          '(c, ds, st) <- unwrapAndValidateShares_body c keys i wrapped kek ;;
          match st with
          | Abort err => Ret (c, (ds ++ defers)%list, Err err)
          | Continue =>
              unwrapAndValidateShares_loop kekInfos keys (S i) rest c
                (ds ++ defers)%list unwrappedShares
          | Retain unwrapped =>
              unwrapAndValidateShares_loop kekInfos keys (S i) rest c
                (ds ++ defers)%list (unwrappedShares ++ [unwrapped])%list
          end
      end
  end.

Definition unwrapAndValidateShares (c : StetClient)
  (wrappedShares : list WrappedShare) (kekInfos : list KekInfo)
  (keys : AsymmetricKeys) : prog (StetClient * result (list UnwrappedShare)) :=
  if negb (Nat.eqb (List.length wrappedShares) (List.length kekInfos))
  then Ret (c, Err (Errorf "number of shares to unwrap (%d) does not match number of KEKs (%d)"
                      [AInt (Z.of_nat (List.length wrappedShares));
                       AInt (Z.of_nat (List.length kekInfos))]))
  else
    '(c, defers, r) <-
      unwrapAndValidateShares_loop kekInfos keys 0 wrappedShares c [] [] ;;
    run_deferred defers ;;;
    Ret (c, r).

(** [Encrypt]: the [input] and [output] streams are the environment's;
    they are touched only through [WriteSTETHeader], [output_Write] and
    [AeadEncrypt]. *)
Definition Encrypt (c : StetClient) (config : option EncryptConfig)
  (keys : AsymmetricKeys) (blobID : string)
  : prog (StetClient * result StetMetadata) :=
  match config with
  | None => Ret (c, Err (Errorf "nil EncryptConfig passed to Encrypt()" []))
  | Some config =>
      let keyCfg := EncryptConfig_KeyConfig config in
      dataEncryptionKey <- call NewDEK ;;
      s <- call (CreateDEKShares dataEncryptionKey keyCfg) ;;
      match s with
      | Err err => Ret (c, Err (Errorf "error creating DEK shares: %v" [AError err]))
      | Ok shares =>
          blobID <- (if String.eqb blobID "" then call uuid_NewString else Ret blobID) ;;
          '(c, w) <- wrapShares c shares (GetKekInfos keyCfg) keys ;;
          match w with
          | Err err => Ret (c, Err (Errorf "error wrapping shares: %v" [AError err]))
          | Ok (wrappedShares, keyURIs) =>
              let metadata := {| BlobId := blobID;
                                 Metadata_KeyConfig := keyCfg;
                                 Metadata_Shares := wrappedShares |} in
              match MetadataToAAD metadata with
              | Err err =>
                  Ret (c, Err (Errorf "error serializing metadata: %v" [AError err]))
              | Ok aad =>
                  match proto_Marshal metadata with
                  | Err err =>
                      Ret (c, Err (Errorf "failed to serialize metadata: %v" [AError err]))
                  | Ok metadataBytes =>
                      h <- call (WriteSTETHeader (List.length metadataBytes)) ;;
                      match h with
                      | Some err =>
                          Ret (c, Err (Errorf "failed to write encrypted file header: %v"
                                         [AError err]))
                      | None =>
                          m <- call (output_Write metadataBytes) ;;
                          match m with
                          | Some err =>
                              Ret (c, Err (Errorf "failed to write metadata: %v"
                                             [AError err]))
                          | None =>
                              a <- call (AeadEncrypt dataEncryptionKey aad) ;;
                              match a with
                              | Some err =>
                                  Ret (c, Err (Errorf "error encrypting data: %v"
                                                 [AError err]))
                              | None =>
                                  Ret (c, Ok {| KeyUris := keyURIs;
                                                BlobID := BlobId metadata |})
                              end
                          end
                      end
                  end
              end
          end
      end
  end.

(** The key URIs returned by [Decrypt]: the non-empty URIs of the
    unwrapped shares, in order. *)
Fixpoint collect_keyURIs (unwrappedShares : list UnwrappedShare) : list string :=
  match unwrappedShares with
  | [] => []
  | unwrapped :: rest =>
      if negb (String.eqb (URI unwrapped) "")
      then URI unwrapped :: collect_keyURIs rest
      else collect_keyURIs rest
  end.

Definition Decrypt (c : StetClient) (config : option DecryptConfig)
  (keys : AsymmetricKeys) : prog (StetClient * result StetMetadata) :=
  match config with
  | None => Ret (c, Err (Errorf "nil DecryptConfig passed to Decrypt()" []))
  | Some config =>
      m <- call ReadMetadata ;;
      match m with
      | Err err => Ret (c, Err (Errorf "error reading metadata: %v" [AError err]))
      | Ok metadata =>
          match find (fun keyCfg => proto_Equal keyCfg (Metadata_KeyConfig metadata))
                     (KeyConfigs config) with
          | None => Ret (c, Err (Errorf "no known KeyConfig matches given data" []))
          | Some matchingKeyConfig =>
              '(c, u) <- unwrapAndValidateShares c (Metadata_Shares metadata)
                           (KekInfos matchingKeyConfig) keys ;;
              match u with
              | Err err =>
                  Ret (c, Err (Errorf "error unwrapping and validating shares: %v"
                                 [AError err]))
              | Ok unwrappedShares =>
                  match CombineUnwrappedShares matchingKeyConfig unwrappedShares with
                  | Err err =>
                      Ret (c, Err (Errorf "error combining unwrapped shares: %v"
                                     [AError err]))
                  | Ok combinedShares =>
                      let combinedDEK := copy_DEK combinedShares in
                      match MetadataToAAD metadata with
                      | Err err =>
                          Ret (c, Err (Errorf "error serializing metadata: %v"
                                         [AError err]))
                      | Ok aad =>
                          a <- call (AeadDecrypt combinedDEK aad) ;;
                          match a with
                          | Some err =>
                              Ret (c, Err (Errorf "error decrypting data: %v"
                                             [AError err]))
                          | None =>
                              Ret (c, Ok {| KeyUris := collect_keyURIs unwrappedShares;
                                            BlobID := BlobId metadata |})
                          end
                      end
                  end
              end
          end
      end
  end.

End WithLib.
End Streaming.

(** * The whole-buffer client, the older revision of [client.go] *)

Module Legacy.
Section WithLib.
Context {lib : GoLib}.
Local Open Scope prog_scope.

Definition proxyPort : string := "8842".

Record DecryptedData := {
  Plaintext : bytes;
  KeyUris : list string;
  BlobID : string
}.

Record StetClient := {
  kmsClient : option cloudKMSClient;
  fakeKeyManagementClient : option cloudKMSClient;
  fakeSecureSessionClient : option secureSessionClient
}.

Definition set_kmsClient (c : StetClient) (k : option cloudKMSClient) : StetClient :=
  {| kmsClient := k;
     fakeKeyManagementClient := fakeKeyManagementClient c;
     fakeSecureSessionClient := fakeSecureSessionClient c |}.

Definition initializeKMSClient (c : StetClient) : prog (StetClient * option error) :=
  match kmsClient c with
  | Some _ => Ret (c, None)
  | None =>
      match fakeKeyManagementClient c with
      | Some fake => Ret (set_kmsClient c (Some fake), None)
      | None =>
          r <- call (NewKeyManagementClient []) ;;
          match r with
          | Ok cl => Ret (set_kmsClient c (Some cl), None)
          | Err err =>
              Ret (set_kmsClient c (Some NilKeyManagementClient),
                   Some (Errorf "error creating KMS client: %v" [AError err]))
          end
      end
  end.

Definition parseEKMKeyURI (keyURI : string) : result (string * string) :=
  match url_Parse keyURI with
  | Err err => Err (Errorf "could not parse: %v" [AError err])
  | Ok u => Ok (Scheme u ++ "://" ++ Hostname u ++ ":" ++ proxyPort, path_Base keyURI)
  end.

Definition generateTokenFromEKMAddress (address : string) : prog (result string) :=
  match url_Parse address with
  | Err err => Ret (Err (Errorf "could not parse EKM address: %v" [AError err]))
  | Ok u =>
      let audience := Scheme u ++ "://" ++ Hostname u in
      t <- call (GenerateJWT audience) ;;
      match t with
      | Err err => Ret (Err (Errorf "failed to generate JWT: %v" [AError err]))
      | Ok authToken => Ret (Ok authToken)
      end
  end.

Definition removeSchemeFromURL (ekmURL : string) : result string :=
  match url_Parse ekmURL with
  | Err err => Err (Errorf "could not extract host from EKM address: %v" [AError err])
  | Ok u => Ok (Host u)
  end.

Definition obtain_ekmClient (c : StetClient) (addr : string)
  : prog (result secureSessionClient) :=
  match fakeSecureSessionClient c with
  | Some fake => Ret (Ok fake)
  | None =>
      t <- generateTokenFromEKMAddress addr ;;
      match t with
      | Err err => Ret (Err err)
      | Ok authToken =>
          match removeSchemeFromURL addr with
          | Err err => Ret (Err err)
          | Ok rpcAddr =>
              s <- call (EstablishSecureSession rpcAddr authToken []) ;;
              match s with
              | Err err =>
                  Ret (Err (Errorf "error establishing secure session: %v" [AError err]))
              | Ok ekmClient => Ret (Ok ekmClient)
              end
          end
      end
  end.

Definition ekmSecureSessionWrap (c : StetClient) (unwrappedShare : bytes)
  (md : kekMetadata) : prog (result bytes) :=
  match parseEKMKeyURI (uri md) with
  | Err err => Ret (Err err)
  | Ok (addr, keyPath) =>
      cl <- obtain_ekmClient c addr ;;
      match cl with
      | Err err => Ret (Err err)
      | Ok ekmClient =>
          w <- call (ConfidentialWrap ekmClient keyPath (resourceName md) unwrappedShare) ;;
          match w with
          | Err err =>
              Ret (Err (Errorf "error wrapping with secure session: %v" [AError err]))
          | Ok wrappedBlob =>
              e <- call (EndSession ekmClient) ;;
              match e with
              | Some err =>
                  Ret (Err (Errorf "error ending secure session: %v" [AError err]))
              | None => Ret (Ok wrappedBlob)
              end
          end
      end
  end.

Definition ekmSecureSessionUnwrap (c : StetClient) (wrappedShare : bytes)
  (md : kekMetadata) : prog (result bytes) :=
  match parseEKMKeyURI (uri md) with
  | Err err => Ret (Err err)
  | Ok (addr, keyPath) =>
      cl <- obtain_ekmClient c addr ;;
      match cl with
      | Err err => Ret (Err err)
      | Ok ekmClient =>
          w <- call (ConfidentialUnwrap ekmClient keyPath (resourceName md) wrappedShare) ;;
          match w with
          | Err err =>
              Ret (Err (Errorf "error unwrapping with secure session: %v" [AError err]))
          | Ok unwrappedBlob =>
              e <- call (EndSession ekmClient) ;;
              match e with
              | Some err =>
                  Ret (Err (Errorf "error ending secure session: %v" [AError err]))
              | None => Ret (Ok unwrappedBlob)
              end
          end
      end
  end.

Definition wrapKMSShare (kmsClient : option cloudKMSClient) (share : bytes)
  (keyName : string) : prog (result bytes) :=
  let req := {| EncryptRequest_Name := keyName;
                EncryptRequest_Plaintext := share;
                EncryptRequest_PlaintextCrc32C := crc32c share |} in
  r <- kms_method kmsClient (fun cl => KmsEncrypt cl req) ;;
  match r with
  | Err err => Ret (Err (Errorf "failed to encrypt: %v" [AError err]))
  | Ok result =>
      if negb (EncryptResponse_VerifiedPlaintextCrc32C result)
      then Ret (Err (Errorf "Encrypt: request corrupted in-transit" []))
      else
        match EncryptResponse_CiphertextCrc32C result with
        | None => Panic nil_dereference
        | Some declared =>
            if negb (Z.eqb (crc32c (EncryptResponse_Ciphertext result)) declared)
            then Ret (Err (Errorf "Encrypt: response corrupted in-transit" []))
            else Ret (Ok (EncryptResponse_Ciphertext result))
        end
  end.

Definition unwrapKMSShare (kmsClient : option cloudKMSClient) (wrappedShare : bytes)
  (keyName : string) : prog (result bytes) :=
  let req := {| DecryptRequest_Name := keyName;
                DecryptRequest_Ciphertext := wrappedShare;
                DecryptRequest_CiphertextCrc32C := crc32c wrappedShare |} in
  r <- kms_method kmsClient (fun cl => KmsDecrypt cl req) ;;
  match r with
  | Err err => Ret (Err (Errorf "failed to decrypt ciphertext: %v" [AError err]))
  | Ok result =>
      match DecryptResponse_PlaintextCrc32C result with
      | None => Panic nil_dereference
      | Some declared =>
          if negb (Z.eqb (crc32c (DecryptResponse_Plaintext result)) declared)
          then Ret (Err (Errorf "Decrypt: response corrupted in-transit" []))
          else Ret (Ok (DecryptResponse_Plaintext result))
      end
  end.

(** The metadata of one KekInfo, as the loop of [protectionLevelsAndUris]
    computes it: a KekInfo that is not a KEK URI gets the zero value. *)
Definition protectionLevelsAndUris_body (kmsClient : option cloudKMSClient)
  (kekInfo : KekInfo) : prog (result kekMetadata) :=
  match KekType_ kekInfo with
  | KekInfo_KekUri _ =>
      let uri := GetKekUri kekInfo in
      if negb (HasPrefix uri gcpKeyPrefix)
      then Ret (Err (Errorf "%v does not have the expected URI prefix, want %v"
                       [AString uri; AString gcpKeyPrefix]))
      else
        r <- kms_method kmsClient
               (fun cl => GetCryptoKey cl (TrimPrefix uri gcpKeyPrefix)) ;;
        match r with
        | Err err => Ret (Err (Errorf "error retrieving key metadata: %v" [AError err]))
        | Ok cryptoKey =>
            let cryptoKeyVer := GetPrimary cryptoKey in
            match GetState cryptoKeyVer with
            | ENABLED =>
                match cryptoKeyVer with
                | None => Panic nil_dereference
                | Some ver =>
                    match ProtectionLevel_ ver with
                    | PROTECTION_LEVEL_UNSPECIFIED =>
                        Ret (Err (Errorf "unspecified protection level %v"
                                    [ALevel (GetProtectionLevel cryptoKeyVer)]))
                    | EXTERNAL =>
                        match ExternalProtectionLevelOptions_ ver with
                        | None =>
                            Ret (Err (Errorf "CryptoKeyVersion for KEK %s does not have external protection level options despite being EXTERNAL protection level"
                                        [AString uri]))
                        | Some _ =>
                            Ret (Ok {| protectionLevel := GetProtectionLevel cryptoKeyVer;
                                       uri := GetExternalKeyUri
                                                (GetExternalProtectionLevelOptions cryptoKeyVer);
                                       resourceName := TrimPrefix uri gcpKeyPrefix |})
                        end
                    | _ =>
                        Ret (Ok {| protectionLevel := GetProtectionLevel cryptoKeyVer;
                                   uri := uri;
                                   resourceName := TrimPrefix uri gcpKeyPrefix |})
                    end
                end
            | _ => Ret (Err (Errorf "CryptoKeyVersion for %v is not enabled" [AString uri]))
            end
        end
  | _ => Ret (Ok {| protectionLevel := PROTECTION_LEVEL_UNSPECIFIED;
                    uri := "";
                    resourceName := "" |})
  end.

Fixpoint protectionLevelsAndUris_loop (kmsClient : option cloudKMSClient)
  (kekInfos : list KekInfo) (kekMetadatas : list kekMetadata)
  : prog (result (list kekMetadata)) :=
  match kekInfos with
  | [] => Ret (Ok kekMetadatas)
  | kekInfo :: rest =>
      m <- protectionLevelsAndUris_body kmsClient kekInfo ;;
      match m with
      | Err err => Ret (Err err)
      | Ok kmd => protectionLevelsAndUris_loop kmsClient rest (kekMetadatas ++ [kmd])%list
      end
  end.

Definition protectionLevelsAndUris (kmsClient : option cloudKMSClient)
  (kekInfos : list KekInfo) : prog (result (list kekMetadata)) :=
  protectionLevelsAndUris_loop kmsClient kekInfos [].

Fixpoint publicKeyForRSAFingerprint_loop (kek : KekInfo) (paths : list string)
  : prog (result rsa_PublicKey) :=
  match paths with
  | [] => Ret (Err (Errorf "no RSA public key found for fingerprint: %s"
                      [AString (GetRsaFingerprint kek)]))
  | path :: rest =>
      f <- call (os_ReadFile path) ;;
      match f with
      | Err err => Ret (Err (Errorf "failed to open public key file: %w" [AError err]))
      | Ok keyBytes =>
          match pem_Decode keyBytes with
          | None =>
              Ret (Err (Errorf "failed to decode PEM block containing public key" []))
          | Some block =>
              if negb (String.eqb (pem_Type block) "PUBLIC KEY")
              then Ret (Err (Errorf "failed to decode PEM block containing public key" []))
              else
                match x509_ParsePKIXPublicKey (pem_Bytes block) with
                | Err err =>
                    Ret (Err (Errorf "failed to parse public key from PEM: %v" [AError err]))
                | Ok None =>
                    Ret (Err (Errorf "failed to parse RSA public key: %v" [ANil]))
                | Ok (Some key) =>
                    let sha := sha256_Sum256 (pem_Bytes block) in
                    let fingerprint := base64_EncodeToString sha in
                    if String.eqb fingerprint (GetRsaFingerprint kek)
                    then Ret (Ok key)
                    else publicKeyForRSAFingerprint_loop kek rest
                end
          end
      end
  end.

Definition publicKeyForRSAFingerprint (kek : KekInfo) (keys : AsymmetricKeys)
  : prog (result rsa_PublicKey) :=
  publicKeyForRSAFingerprint_loop kek (PublicKeyFiles keys).

Fixpoint privateKeyForRSAFingerprint_loop (kek : KekInfo) (paths : list string)
  : prog (result rsa_PrivateKey) :=
  match paths with
  | [] => Ret (Err (Errorf "no RSA private key found for fingerprint: %s"
                      [AString (GetRsaFingerprint kek)]))
  | path :: rest =>
      f <- call (os_ReadFile path) ;;
      match f with
      | Err err => Ret (Err (Errorf "failed to open private key file: %w" [AError err]))
      | Ok keyBytes =>
          match pem_Decode keyBytes with
          | None =>
              Ret (Err (Errorf "failed to decode PEM block containing RSA private key" []))
          | Some block =>
              if negb (String.eqb (pem_Type block) "RSA PRIVATE KEY")
              then Ret (Err (Errorf
                               "failed to decode PEM block containing RSA private key" []))
              else
                match x509_ParsePKCS1PrivateKey (pem_Bytes block) with
                | Err err =>
                    Ret (Err (Errorf "failed to parse PKCS1 private key from PEM: %v"
                                [AError err]))
                | Ok key =>
                    match x509_MarshalPKIXPublicKey key with
                    | Err err =>
                        Ret (Err (Errorf
                                    "failed to marshal public key from private key: %w"
                                    [AError err]))
                    | Ok der =>
                        let sha := sha256_Sum256 der in
                        let fingerprint := base64_EncodeToString sha in
                        if String.eqb fingerprint (GetRsaFingerprint kek)
                        then Ret (Ok key)
                        else privateKeyForRSAFingerprint_loop kek rest
                    end
                end
          end
      end
  end.

Definition privateKeyForRSAFingerprint (kek : KekInfo) (keys : AsymmetricKeys)
  : prog (result rsa_PrivateKey) :=
  privateKeyForRSAFingerprint_loop kek (PrivateKeyFiles keys).

(** [kekMetadatas] is populated on the first KEK URI seen; the nil slice
    is the empty list. *)
Definition populate_kekMetadatas (c : StetClient) (kekInfos : list KekInfo)
  (kekMetadatas : list kekMetadata) : prog (result (list kekMetadata)) :=
  match kekMetadatas with
  | [] =>
      m <- protectionLevelsAndUris (kmsClient c) kekInfos ;;
      match m with
      | Err err => Ret (Err (Errorf "Error retrieving KEK Metadata: %v" [AError err]))
      | Ok kmds => Ret (Ok kmds)
      end
  | _ => Ret (Ok kekMetadatas)
  end.

(** The result of one iteration of the wrap and unwrap loops: the client,
    the deferred [Close] calls, [kekMetadatas] and the share. *)
Definition iteration (A : Type) : Type :=
  (StetClient * list (option cloudKMSClient) * list kekMetadata * result A)%type.

Definition wrapShares_body (c : StetClient) (keys : AsymmetricKeys)
  (kekInfos : list KekInfo) (kekMetadatas : list kekMetadata) (i : nat)
  (share : bytes) (kek : KekInfo) : prog (iteration WrappedShare) :=
  let hash := HashShare share in
  match KekType_ kek with
  | KekInfo_RsaFingerprint _ =>
      k <- publicKeyForRSAFingerprint kek keys ;;
      match k with
      | Err err =>
          Ret (c, [], kekMetadatas,
               Err (Errorf "failed to find public key for RSA fingerprint: %w" [AError err]))
      | Ok key =>
          w <- call (rsa_EncryptOAEP key share) ;;
          match w with
          | Err err =>
              Ret (c, [], kekMetadatas,
                   Err (Errorf "error wrapping key share: %v" [AError err]))
          | Ok wrapped =>
              Ret (c, [], kekMetadatas, Ok {| Share := wrapped; Hash := hash |})
          end
      end
  | KekInfo_KekUri _ =>
      '(c, e) <- initializeKMSClient c ;;
      match e with
      | Some err =>
          Ret (c, [], kekMetadatas,
               Err (Errorf "error initializing KMS Client: %v" [AError err]))
      | None =>
          let defers := [kmsClient c] in
          p <- populate_kekMetadatas c kekInfos kekMetadatas ;;
          match p with
          | Err err => Ret (c, defers, kekMetadatas, Err err)
          | Ok kekMetadatas =>
              match nth_error kekMetadatas i with
              | None => Panic "index out of range"
              | Some kmd =>
                  match protectionLevel kmd with
                  | SOFTWARE | HSM =>
                      w <- wrapKMSShare (kmsClient c) share (resourceName kmd) ;;
                      match w with
                      | Err err =>
                          Ret (c, defers, kekMetadatas,
                               Err (Errorf "error wrapping key share: %v" [AError err]))
                      | Ok wrapped =>
                          Ret (c, defers, kekMetadatas,
                               Ok {| Share := wrapped; Hash := hash |})
                      end
                  | EXTERNAL =>
                      w <- ekmSecureSessionWrap c share kmd ;;
                      match w with
                      | Err err =>
                          Ret (c, defers, kekMetadatas,
                               Err (Errorf "error wrapping with secure session: %v"
                                      [AError err]))
                      | Ok ekmWrappedShare =>
                          Ret (c, defers, kekMetadatas,
                               Ok {| Share := ekmWrappedShare; Hash := hash |})
                      end
                  | pl =>
                      Ret (c, defers, kekMetadatas,
                           Err (Errorf "unsupported protection level %v" [ALevel pl]))
                  end
              end
          end
      end
  | x =>
      Ret (c, [], kekMetadatas, Err (Errorf "unsupported KekInfo type: %v" [AKekType x]))
  end.

Fixpoint wrapShares_loop (kekInfos : list KekInfo) (keys : AsymmetricKeys)
  (i : nat) (unwrappedShares : list bytes) (c : StetClient)
  (defers : list (option cloudKMSClient)) (kekMetadatas : list kekMetadata)
  (wrappedShares : list WrappedShare)
  : prog (StetClient * list (option cloudKMSClient) * result (list WrappedShare)) :=
  match unwrappedShares with
  | [] => Ret (c, defers, Ok wrappedShares)
  | share :: rest =>
      match nth_error kekInfos i with
      | None => Panic "index out of range"
      | Some kek =>
          '(c, ds, kekMetadatas, r) <-
            wrapShares_body c keys kekInfos kekMetadatas i share kek ;;
          match r with
          | Err err => Ret (c, (ds ++ defers)%list, Err err)
          | Ok wrapped =>
              wrapShares_loop kekInfos keys (S i) rest c (ds ++ defers)%list
                kekMetadatas (wrappedShares ++ [wrapped])%list
          end
      end
  end.

Definition wrapShares (c : StetClient) (unwrappedShares : list bytes)
  (kekInfos : list KekInfo) (keys : AsymmetricKeys)
  : prog (StetClient * result (list WrappedShare)) :=
  if negb (Nat.eqb (List.length unwrappedShares) (List.length kekInfos))
  then Ret (c, Err (Errorf "number of shares to wrap (%d) does not match number of KEKs (%d)"
                      [AInt (Z.of_nat (List.length unwrappedShares));
                       AInt (Z.of_nat (List.length kekInfos))]))
  else
    '(c, defers, r) <- wrapShares_loop kekInfos keys 0 unwrappedShares c [] [] [] ;;
    run_deferred defers ;;;
    Ret (c, r).

Definition unwrapAndValidateShares_body (c : StetClient) (keys : AsymmetricKeys)
  (kekInfos : list KekInfo) (kekMetadatas : list kekMetadata) (i : nat)
  (wrapped : WrappedShare) (kek : KekInfo) : prog (iteration bytes) :=
  let validate (c : StetClient) (defers : list (option cloudKMSClient))
               (kekMetadatas : list kekMetadata) (unwrapped : bytes)
    : prog (iteration bytes) :=
    if negb (ValidateShare unwrapped (Hash wrapped))
    then Ret (c, defers, kekMetadatas,
              Err (Errorf "unwrapped share %v does not have the expected hash"
                     [AInt (Z.of_nat i)]))
    else Ret (c, defers, kekMetadatas, Ok unwrapped) in
  match KekType_ kek with
  | KekInfo_RsaFingerprint _ =>
      k <- privateKeyForRSAFingerprint kek keys ;;
      match k with
      | Err err =>
          Ret (c, [], kekMetadatas,
               Err (Errorf "failed to find public key for RSA fingerprint: %w" [AError err]))
      | Ok key =>
          u <- call (rsa_DecryptOAEP key (Share wrapped)) ;;
          match u with
          | Err err =>
              Ret (c, [], kekMetadatas,
                   Err (Errorf "error unwrapping key share: %v" [AError err]))
          | Ok unwrapped => validate c [] kekMetadatas unwrapped
          end
      end
  | KekInfo_KekUri _ =>
      '(c, e) <- initializeKMSClient c ;;
      match e with
      | Some err =>
          Ret (c, [], kekMetadatas,
               Err (Errorf "error initializing KMS Client: %v" [AError err]))
      | None =>
          let defers := [kmsClient c] in
          p <- populate_kekMetadatas c kekInfos kekMetadatas ;;
          match p with
          | Err err => Ret (c, defers, kekMetadatas, Err err)
          | Ok kekMetadatas =>
              match nth_error kekMetadatas i with
              | None => Panic "index out of range"
              | Some kmd =>
                  match protectionLevel kmd with
                  | SOFTWARE | HSM =>
                      u <- unwrapKMSShare (kmsClient c) (Share wrapped) (resourceName kmd) ;;
                      match u with
                      | Err err =>
                          Ret (c, defers, kekMetadatas,
                               Err (Errorf "error unwrapping key share: %v" [AError err]))
                      | Ok unwrapped => validate c defers kekMetadatas unwrapped
                      end
                  | EXTERNAL =>
                      u <- ekmSecureSessionUnwrap c (Share wrapped) kmd ;;
                      match u with
                      | Err err =>
                          Ret (c, defers, kekMetadatas,
                               Err (Errorf "error unwrapping with external EKM for %v: %v"
                                      [AString (uri kmd); AError err]))
                      | Ok unwrapped => validate c defers kekMetadatas unwrapped
                      end
                  | pl =>
                      Ret (c, defers, kekMetadatas,
                           Err (Errorf "unsupported protection level %v" [ALevel pl]))
                  end
              end
          end
      end
  | x =>
      Ret (c, [], kekMetadatas, Err (Errorf "unsupported KekInfo type: %v" [AKekType x]))
  end.

Fixpoint unwrapAndValidateShares_loop (kekInfos : list KekInfo)
  (keys : AsymmetricKeys) (i : nat) (wrappedShares : list WrappedShare)
  (c : StetClient) (defers : list (option cloudKMSClient))
  (kekMetadatas : list kekMetadata) (unwrappedShares : list bytes)
  : prog (StetClient * list (option cloudKMSClient) * result (list bytes)) :=
  match wrappedShares with
  | [] => Ret (c, defers, Ok unwrappedShares)
  | wrapped :: rest =>
      match nth_error kekInfos i with
      | None => Panic "index out of range"
      | Some kek =>
          '(c, ds, kekMetadatas, r) <-
            unwrapAndValidateShares_body c keys kekInfos kekMetadatas i wrapped kek ;;
          match r with
          | Err err => Ret (c, (ds ++ defers)%list, Err err)
          | Ok unwrapped =>
              unwrapAndValidateShares_loop kekInfos keys (S i) rest c
                (ds ++ defers)%list kekMetadatas (unwrappedShares ++ [unwrapped])%list
          end
      end
  end.

Definition unwrapAndValidateShares (c : StetClient)
  (wrappedShares : list WrappedShare) (kekInfos : list KekInfo)
  (keys : AsymmetricKeys) : prog (StetClient * result (list bytes)) :=
  if negb (Nat.eqb (List.length wrappedShares) (List.length kekInfos))
  then Ret (c, Err (Errorf "number of shares to unwrap (%d) does not match number of KEKs (%d)"
                      [AInt (Z.of_nat (List.length wrappedShares));
                       AInt (Z.of_nat (List.length kekInfos))]))
  else
    '(c, defers, r) <-
      unwrapAndValidateShares_loop kekInfos keys 0 wrappedShares c [] [] [] ;;
    run_deferred defers ;;;
    Ret (c, r).

(** Addition of GF(2^8): bitwise exclusive or. *)
Definition byte_xor (a b : byte) : byte :=
  match Byte.of_N (N.lxor (Byte.to_N a) (Byte.to_N b)) with
  | Some r => r
  | None => x00
  end.

Definition byte_of_nat (n : nat) : byte :=
  match Byte.of_nat n with
  | Some b => b
  | None => x00
  end.

(** Evaluation of a polynomial over GF(2^8), constant coefficient first. *)
Fixpoint eval_polynomial (coefficients : bytes) (x : byte) : byte :=
  match coefficients with
  | [] => x00
  | a :: rest => byte_xor a (gf256_mul x (eval_polynomial rest x))
  end.

(** One polynomial per secret byte: the byte, then its random
    coefficients. *)
Fixpoint polynomials (secret : bytes) (degree : nat) (random : bytes) : list bytes :=
  match secret with
  | [] => []
  | b :: rest =>
      (b :: firstn degree random) :: polynomials rest degree (skipn degree random)
  end.

(** Modelled from the spec: [SplitShares] of the share codec, whose source
    is not part of the development.  Shamir's secret sharing over GF(2^8)
    applied byte-wise for [shares = n] and [threshold = k] with
    [2 <= k <= n <= 255]: for each byte of the secret, [k - 1] random
    coefficients are sampled, the polynomial is evaluated at
    [x = 1 .. n], and each share is its x-coordinate followed by the
    evaluations. *)
Definition SplitShares (secret : bytes) (parts threshold : Z)
  : prog (result (list bytes)) :=
  if negb ((2 <=? threshold)%Z && (threshold <=? parts)%Z && (parts <=? 255)%Z)
  then Ret (Err (Errorf "ConfigInvalid: want 2 <= threshold <= shares <= 255, got threshold %v, shares %v"
                   [AInt threshold; AInt parts]))
  else
    let degree := Z.to_nat threshold - 1 in
    random <- call (rand_Read (List.length secret * degree)) ;;
    let polys := polynomials secret degree random in
    Ret (Ok (map (fun x =>
                    byte_of_nat x
                      :: map (fun p => eval_polynomial p (byte_of_nat x)) polys)
                 (seq 1 (Z.to_nat parts)))).

(** [metadataToAAD] on a possibly nil metadata pointer: nil serialises as
    the empty message. *)
Definition metadataToAAD (metadata : option Metadata) : result bytes :=
  match metadata with
  | Some m => MetadataToAAD m
  | None => MetadataToAAD {| BlobId := ""; Metadata_KeyConfig := None;
                             Metadata_Shares := [] |}
  end.

Definition Encrypt (c : StetClient) (plaintext : bytes)
  (config : option EncryptConfig) (keys : AsymmetricKeys) (blobID : string)
  : prog (StetClient * result EncryptedData) :=
  blobID <- (if String.eqb blobID "" then call uuid_NewString else Ret blobID) ;;
  let keyCfg := match config with
                | Some config => EncryptConfig_KeyConfig config
                | None => None
                end in
  dataEncryptionKey <- call NewDEK ;;
  match keyCfg with
  | None => Panic nil_dereference
  | Some cfg =>
      s <- match KeySplittingAlgorithm_ cfg with
           | KeyConfig_NoSplit _ =>
               if negb (Nat.eqb (List.length (GetKekInfos keyCfg)) 1)
               then Ret (Err (Errorf "invalid Encrypt configuration, number of KekInfos is %v but expected 1 for 'no split' option"
                                [AInt (Z.of_nat (List.length (GetKekInfos keyCfg)))]))
               else Ret (Ok [dataEncryptionKey])
           | KeyConfig_Shamir shamirConfig =>
               let shamirShares := Shares_ shamirConfig in
               let shamirThreshold := Threshold shamirConfig in
               if negb (Z.eqb (Z.of_nat (List.length (GetKekInfos keyCfg))) shamirShares)
               then Ret (Err (Errorf "invalid Encrypt configuration, number of KEK Infos does not match the number of shares to generate: found %v KEK Infos, %v shares"
                                [AInt (Z.of_nat (List.length (GetKekInfos keyCfg)));
                                 AInt shamirShares]))
               else
                 sp <- SplitShares dataEncryptionKey shamirShares shamirThreshold ;;
                 match sp with
                 | Err err =>
                     Ret (Err (Errorf "error splitting encryption key: %v" [AError err]))
                 | Ok shares => Ret (Ok shares)
                 end
           | KeySplitting_unset =>
               Ret (Err (Errorf "Unknown key splitting algorithm" []))
           end ;;
      match s with
      | Err err => Ret (c, Err err)
      | Ok shares =>
          '(c, w) <- wrapShares c shares (GetKekInfos keyCfg) keys ;;
          match w with
          | Err err => Ret (c, Err (Errorf "Error wrapping shares: %v" [AError err]))
          | Ok wrappedShares =>
              let metadata := {| BlobId := blobID;
                                 Metadata_KeyConfig := keyCfg;
                                 Metadata_Shares := wrappedShares |} in
              match metadataToAAD (Some metadata) with
              | Err err =>
                  Ret (c, Err (Errorf "Error serializing metadata: %v" [AError err]))
              | Ok aad =>
                  e <- call (aeadEncrypt dataEncryptionKey plaintext aad) ;;
                  match e with
                  | Err err =>
                      Ret (c, Err (Errorf "error encrypting data: %v" [AError err]))
                  | Ok ciphertext =>
                      Ret (c, Ok {| EncryptedData_Ciphertext := ciphertext;
                                    EncryptedData_Metadata := Some metadata |})
                  end
              end
          end
      end
  end.

Definition GetKeyConfig (m : option Metadata) : option KeyConfig :=
  match m with
  | Some m => Metadata_KeyConfig m
  | None => None
  end.

Definition GetShares (m : option Metadata) : list WrappedShare :=
  match m with
  | Some m => Metadata_Shares m
  | None => []
  end.

Definition GetBlobId (m : option Metadata) : string :=
  match m with
  | Some m => BlobId m
  | None => ""
  end.

Definition GetKeyConfigs (config : option DecryptConfig) : list KeyConfig :=
  match config with
  | Some config => KeyConfigs config
  | None => []
  end.

(** The key URIs returned by [Decrypt]: the KEK URIs of every KekInfo of
    every configured KeyConfig. *)
Definition extract_keyURIs (config : option DecryptConfig) : list string :=
  flat_map
    (fun kcfg =>
       flat_map
         (fun kek => match KekType_ kek with
                     | KekInfo_KekUri _ => [GetKekUri kek]
                     | _ => []
                     end)
         (KekInfos kcfg))
    (GetKeyConfigs config).

Definition Decrypt (c : StetClient) (data : EncryptedData)
  (config : option DecryptConfig) (keys : AsymmetricKeys)
  : prog (StetClient * result DecryptedData) :=
  match find (fun keyCfg => proto_Equal keyCfg (GetKeyConfig (EncryptedData_Metadata data)))
             (GetKeyConfigs config) with
  | None => Ret (c, Err (Errorf "no known KeyConfig matches given data" []))
  | Some matchingKeyConfig =>
      '(c, u) <- unwrapAndValidateShares c (GetShares (EncryptedData_Metadata data))
                   (KekInfos matchingKeyConfig) keys ;;
      match u with
      | Err err =>
          Ret (c, Err (Errorf "error unwrapping and validating shares: %v" [AError err]))
      | Ok unwrappedShares =>
          let combined :=
            match KeySplittingAlgorithm_ matchingKeyConfig with
            | KeyConfig_NoSplit _ =>
                match unwrappedShares with
                | [sole] => Ok sole
                | _ =>
                    Err (Errorf "number of unwrapped shares is %v but expected 1 for 'no split' option"
                           [AInt (Z.of_nat (List.length unwrappedShares))])
                end
            | KeyConfig_Shamir _ =>
                match CombineShares unwrappedShares with
                | Err err => Err (Errorf "Error combining DEK shares: %v" [AError err])
                | Ok combinedShares => Ok combinedShares
                end
            | KeySplitting_unset => Err (Errorf "Unknown key splitting algorithm" [])
            end in
          match combined with
          | Err err => Ret (c, Err err)
          | Ok combinedShares =>
              if negb (Nat.eqb (List.length combinedShares) DEKBytes)
              then Ret (c, Err (Errorf "Reconstituted DEK has the wrong length" []))
              else
                let combinedDEK := copy_DEK combinedShares in
                match metadataToAAD (EncryptedData_Metadata data) with
                | Err err =>
                    Ret (c, Err (Errorf "error serializing metadata: %v" [AError err]))
                | Ok aad =>
                    match aeadDecrypt combinedDEK (EncryptedData_Ciphertext data) aad with
                    | Err err =>
                        Ret (c, Err (Errorf "error decrypting data: %v" [AError err]))
                    | Ok plaintext =>
                        Ret (c, Ok {| Plaintext := plaintext;
                                      KeyUris := extract_keyURIs config;
                                      BlobID := GetBlobId (EncryptedData_Metadata data) |})
                    end
                end
          end
      end
  end.

End WithLib.
End Legacy.

(** * Views of a trace

    Non-dependent readings of the calls of a trace, by which statements
    about runs select the calls they speak of. *)

(** The values [view] reads off the calls of a trace, in order. *)
Fixpoint answers {A} (view : Call -> option A) (tr : Trace) : list A :=
  match tr with
  | [] => []
  | c :: rest =>
      match view c with
      | Some a => a :: answers view rest
      | None => answers view rest
      end
  end.

(** A [ConfidentialWrap] or [ConfidentialUnwrap] call: the session it was
    made on and its answer. *)
Definition session_op (c : Call) : option (secureSessionClient * result bytes) :=
  match call_event c in Event X return X -> option (secureSessionClient * result bytes) with
  | ConfidentialWrap cl _ _ _ => fun x => Some (cl, x)
  | ConfidentialUnwrap cl _ _ _ => fun x => Some (cl, x)
  | _ => fun _ => None
  end (call_answer c).

(** An [EndSession] call: the session it ends and its answer. *)
Definition end_session (c : Call) : option (secureSessionClient * option error) :=
  match call_event c in Event X return X -> option (secureSessionClient * option error) with
  | EndSession cl => fun x => Some (cl, x)
  | _ => fun _ => None
  end (call_answer c).

(** A [GetCryptoKey] call: the resource name asked for and the answer. *)
Definition get_crypto_key (c : Call) : option (string * result CryptoKey) :=
  match call_event c in Event X return X -> option (string * result CryptoKey) with
  | GetCryptoKey _ name => fun x => Some (name, x)
  | _ => fun _ => None
  end (call_answer c).

(** A Cloud KMS [Encrypt] call: the request and the answer. *)
Definition kms_encrypt (c : Call) : option (EncryptRequest * result EncryptResponse) :=
  match call_event c in Event X return X -> option (EncryptRequest * result EncryptResponse) with
  | KmsEncrypt _ req => fun x => Some (req, x)
  | _ => fun _ => None
  end (call_answer c).

(** A Cloud KMS [Decrypt] call: the request and the answer. *)
Definition kms_decrypt (c : Call) : option (DecryptRequest * result DecryptResponse) :=
  match call_event c in Event X return X -> option (DecryptRequest * result DecryptResponse) with
  | KmsDecrypt _ req => fun x => Some (req, x)
  | _ => fun _ => None
  end (call_answer c).

(** An RSA-OAEP decryption: the ciphertext and the answer. *)
Definition oaep_decrypt (c : Call) : option (bytes * result bytes) :=
  match call_event c in Event X return X -> option (bytes * result bytes) with
  | rsa_DecryptOAEP _ ct => fun x => Some (ct, x)
  | _ => fun _ => None
  end (call_answer c).

(** A warning written to the log. *)
Definition warning (c : Call) : option (string * list fmtarg) :=
  match call_event c with
  | glog_Warningf format args => Some (format, args)
  | _ => None
  end.

(** What one run of a secure-session wrap or unwrap does about
    [EndSession], read off its trace: at most one confidential operation is
    made; after a successful one the run ends with one [EndSession] call on
    the same session, and otherwise no [EndSession] call is made. *)
Definition teardown (tr : Trace) : Prop :=
  match answers session_op tr with
  | [] => answers end_session tr = []
  | [(cl, Ok _)] =>
      map fst (answers end_session tr) = [cl]
      /\ exists pre op fin,
           tr = (pre ++ [op; fin])%list
           /\ session_op op <> None /\ end_session fin <> None
  | [(cl, Err _)] => answers end_session tr = []
  | _ => False
  end.

(** The reading of the specification: every confidential operation, failed
    or not, is followed by exactly one [EndSession]. *)
Definition torn_down_exactly_once (tr : Trace) : Prop :=
  answers session_op tr <> [] -> count_calls (@is_EndSession) tr = 1.

(** A property of the value and the trace of one run. *)
Definition on_run {S R} (P : outcome R -> Trace -> Prop)
  (h : Handler S) (p : prog R) (s : S) : Prop :=
  P (outcome_of h p s) (trace_of h p s).

(** A failed [EndSession] after a successful confidential operation: the
    run returns the [EndSession] error in place of the result, and logs no
    warning. *)
Definition end_failure_is_error (out : outcome (result bytes)) (tr : Trace) : Prop :=
  forall cl blob err,
    answers session_op tr = [(cl, Ok blob)] ->
    answers end_session tr = [(cl, Some err)] ->
    out = Returned (Err (Errorf "error ending secure session: %v" [AError err]))
    /\ answers warning tr = [].

(** The reading of the specification: the result is still returned and the
    [EndSession] failure is logged as a warning. *)
Definition end_failure_is_warning (out : outcome (result bytes)) (tr : Trace) : Prop :=
  forall cl blob err,
    answers session_op tr = [(cl, Ok blob)] ->
    answers end_session tr = [(cl, Some err)] ->
    out = Returned (Ok blob) /\ answers warning tr <> [].

(** The integrity guards of a Cloud KMS wrap, for a program [p] that wraps
    [share] under [keyName] through the client [cl]: the one call made is
    an [Encrypt] whose request carries the CRC32C of the share; the wrap
    succeeds exactly when the server reports the request checksum verified
    and declares the CRC32C of the ciphertext it returns; an unverified
    request and a wrong response checksum are each an error. *)
Definition kms_wrap_guarded {S} (h : Handler S) (s : S) (cl : cloudKMSClient)
  (share : bytes) (keyName : string) (p : prog (result bytes)) : Prop :=
  let req := {| EncryptRequest_Name := keyName;
                EncryptRequest_Plaintext := share;
                EncryptRequest_PlaintextCrc32C := crc32c share |} in
  let answer := fst (h _ (KmsEncrypt cl req) s) in
  trace_of h p s = [mkCall (KmsEncrypt cl req) answer]
  /\ (forall ct,
        outcome_of h p s = Returned (Ok ct) <->
        exists resp,
          answer = Ok resp
          /\ EncryptResponse_VerifiedPlaintextCrc32C resp = true
          /\ EncryptResponse_CiphertextCrc32C resp = Some (crc32c ct)
          /\ EncryptResponse_Ciphertext resp = ct)
  /\ (forall resp,
        answer = Ok resp ->
        EncryptResponse_VerifiedPlaintextCrc32C resp = false ->
        outcome_of h p s
        = Returned (Err (Errorf "Encrypt: request corrupted in-transit" [])))
  /\ (forall resp declared,
        answer = Ok resp ->
        EncryptResponse_VerifiedPlaintextCrc32C resp = true ->
        EncryptResponse_CiphertextCrc32C resp = Some declared ->
        declared <> crc32c (EncryptResponse_Ciphertext resp) ->
        outcome_of h p s
        = Returned (Err (Errorf "Encrypt: response corrupted in-transit" []))).

(** The integrity guards of a Cloud KMS unwrap: the one call made is a
    [Decrypt] whose request carries the CRC32C of the wrapped share; the
    unwrap succeeds exactly when the server declares the CRC32C of the
    plaintext it returns, whatever the server did with the request
    checksum; a wrong response checksum is an error. *)
Definition kms_unwrap_guarded {S} (h : Handler S) (s : S) (cl : cloudKMSClient)
  (wrappedShare : bytes) (keyName : string) (p : prog (result bytes)) : Prop :=
  let req := {| DecryptRequest_Name := keyName;
                DecryptRequest_Ciphertext := wrappedShare;
                DecryptRequest_CiphertextCrc32C := crc32c wrappedShare |} in
  let answer := fst (h _ (KmsDecrypt cl req) s) in
  trace_of h p s = [mkCall (KmsDecrypt cl req) answer]
  /\ (forall pt,
        outcome_of h p s = Returned (Ok pt) <->
        exists resp,
          answer = Ok resp
          /\ DecryptResponse_PlaintextCrc32C resp = Some (crc32c pt)
          /\ DecryptResponse_Plaintext resp = pt)
  /\ (forall resp declared,
        answer = Ok resp ->
        DecryptResponse_PlaintextCrc32C resp = Some declared ->
        declared <> crc32c (DecryptResponse_Plaintext resp) ->
        outcome_of h p s
        = Returned (Err (Errorf "Decrypt: response corrupted in-transit" []))).

(** The reading of the specification, for an environment whose state
    counts the requests whose checksum the server verified: a run during
    which the server verified no request checksum ends in an error. *)
Definition asserts_request_verified (h : Handler nat) (p : prog (result bytes))
  (verified : nat) : Prop :=
  snd (fst (run h p verified)) = verified ->
  exists e, outcome_of h p verified = Returned (Err e).

(** A program that makes none of the calls selected by [f], whatever it is
    answered. *)
Fixpoint never {R} (f : forall X, Event X -> bool) (p : prog R) : Prop :=
  match p with
  | Ret _ => True
  | Panic _ => True
  | Vis e k => f _ e = false /\ forall x, never f (k x)
  end.

(** The statements of [Streaming.Encrypt] that precede [wrapShares]: the
    DEK, its shares and the blob ID. *)
Definition Encrypt_prologue (config : EncryptConfig) (blobID : string)
  : prog (result (DEK * list bytes * string)) :=
  bind (call NewDEK) (fun dataEncryptionKey =>
  bind (call (CreateDEKShares dataEncryptionKey (EncryptConfig_KeyConfig config)))
    (fun s =>
       match s with
       | Err err => Ret (Err (Errorf "error creating DEK shares: %v" [AError err]))
       | Ok shares =>
           bind (if String.eqb blobID "" then call uuid_NewString else Ret blobID)
             (fun blobID => Ret (Ok (dataEncryptionKey, shares, blobID)))
       end)).

(** A [WriteSTETHeader] call: the metadata length announced. *)
Definition write_header (c : Call) : option nat :=
  match call_event c with
  | WriteSTETHeader n => Some n
  | _ => None
  end.

(** A [ConfidentialUnwrap] call: the wrapped blob and the answer. *)
Definition confidential_unwrap (c : Call) : option (bytes * result bytes) :=
  match call_event c in Event X return X -> option (bytes * result bytes) with
  | ConfidentialUnwrap _ _ _ blob => fun x => Some (blob, x)
  | _ => fun _ => None
  end (call_answer c).

Section Provenance.
Context {lib : GoLib}.

(** How an unwrapped share [u] was obtained from the wrapped share
    [wrapped] under the KEK [kek], as witnessed by the calls of [tr]: its
    hash was validated, and
    - under an RSA fingerprint it is the answer of an OAEP decryption and
      carries no URI;
    - under a KEK URI whose primary version is ENABLED with level
      SOFTWARE or HSM it is the plaintext of a Cloud KMS [Decrypt] and
      carries the KEK URI itself;
    - under a KEK URI whose primary version is ENABLED with level
      EXTERNAL it is the answer of a [ConfidentialUnwrap] and carries the
      external key URI of the version. *)
Definition retained_from (tr : Trace) (kek : KekInfo) (wrapped : WrappedShare)
  (u : UnwrappedShare) : Prop :=
  ValidateShare (UnwrappedShare_Share u) (Hash wrapped) = true
  /\ match KekType_ kek with
     | KekInfo_RsaFingerprint _ =>
         URI u = ""
         /\ In (Share wrapped, Ok (UnwrappedShare_Share u)) (answers oaep_decrypt tr)
     | KekInfo_KekUri kmsURI =>
         exists ver,
           In (TrimPrefix kmsURI gcpKeyPrefix, Ok {| Primary := Some ver |})
              (answers get_crypto_key tr)
           /\ State ver = ENABLED
           /\ match ProtectionLevel_ ver with
              | SOFTWARE | HSM =>
                  URI u = kmsURI
                  /\ exists resp,
                       In ({| DecryptRequest_Name := TrimPrefix kmsURI gcpKeyPrefix;
                              DecryptRequest_Ciphertext := Share wrapped;
                              DecryptRequest_CiphertextCrc32C := crc32c (Share wrapped) |},
                           Ok resp) (answers kms_decrypt tr)
                       /\ DecryptResponse_Plaintext resp = UnwrappedShare_Share u
              | EXTERNAL =>
                  exists opts,
                    ExternalProtectionLevelOptions_ ver = Some opts
                    /\ URI u = ExternalKeyUri opts
                    /\ In (Share wrapped, Ok (UnwrappedShare_Share u))
                          (answers confidential_unwrap tr)
              | _ => False
              end
     | KekType_unset => False
     end.

(** The share [u] was retained from some position of the blob. *)
Definition provenance (tr : Trace) (kekInfos : list KekInfo)
  (wrappedShares : list WrappedShare) (u : UnwrappedShare) : Prop :=
  exists i kek wrapped,
    nth_error kekInfos i = Some kek
    /\ nth_error wrappedShares i = Some wrapped
    /\ retained_from tr kek wrapped u.

End Provenance.

(** The calls that draw random bytes for a split. *)
Definition is_rand_Read {X} (e : Event X) : bool :=
  match e with
  | rand_Read _ => true
  | _ => false
  end.

(** The invariants of a KeyConfig: one KekInfo for [NoSplit]; for Shamir
    with [shares = n] and [threshold = k], [n] KekInfos and
    [2 <= k <= n <= 255]. *)
Definition KeyConfig_valid (cfg : KeyConfig) : Prop :=
  match KeySplittingAlgorithm_ cfg with
  | KeyConfig_NoSplit _ => List.length (KekInfos cfg) = 1
  | KeyConfig_Shamir sh =>
      Z.of_nat (List.length (KekInfos cfg)) = Shares_ sh
      /\ (2 <= Threshold sh)%Z /\ (Threshold sh <= Shares_ sh)%Z /\ (Shares_ sh <= 255)%Z
  | KeySplitting_unset => False
  end.

(** The length requirement alone. *)
Definition KekInfos_length_ok (cfg : KeyConfig) : bool :=
  match KeySplittingAlgorithm_ cfg with
  | KeyConfig_NoSplit _ => Nat.eqb (List.length (KekInfos cfg)) 1
  | KeyConfig_Shamir sh => Z.eqb (Z.of_nat (List.length (KekInfos cfg))) (Shares_ sh)
  | KeySplitting_unset => true
  end.

Section ConsumedKeyUris.
Context {lib : GoLib} {S : Type}.

(** What a successful [Streaming.Decrypt] reports as [KeyUris], for the
    run with trace [tr] from state [s]: the metadata read names a
    configured KeyConfig; the shares [unwrappedShares] handed to
    [CombineUnwrappedShares], which reconstructs the DEK from them, were
    each retained from a position of the blob; and the reported URIs are
    the non-empty URIs of exactly these shares, in order. *)
Definition reports_consumed_key_uris (h : Handler S) (s : S)
  (config : DecryptConfig) (md : Streaming.StetMetadata) (tr : Trace) : Prop :=
  exists metadata matching unwrappedShares,
    fst (h _ ReadMetadata s) = Ok metadata
    /\ In matching (KeyConfigs config)
    /\ Metadata_KeyConfig metadata = Some matching
    /\ is_Ok (CombineUnwrappedShares matching unwrappedShares) = true
    /\ Streaming.KeyUris md = Streaming.collect_keyURIs unwrappedShares
    /\ Forall (provenance tr (KekInfos matching) (Metadata_Shares metadata))
              unwrappedShares
    /\ (forall uri, In uri (Streaming.KeyUris md) ->
          uri <> "" /\ exists u, In u unwrappedShares /\ URI u = uri).

End ConsumedKeyUris.

(** A run that returned a value without an error. *)
Definition succeeded {C A} (o : outcome (C * result A)) : bool :=
  match o with
  | Returned (_, Ok _) => true
  | _ => false
  end.

(** * A scripted environment

    A library instance and a family of stateless environments on which the
    client can be run: the answers of the collaborators a scenario cares
    about are given by a [Scenario]; every other call succeeds. *)

Module Demo.

Fixpoint bytes_eqb (a b : bytes) : bool :=
  match a, b with
  | [], [] => true
  | x :: a, y :: b => Byte.eqb x y && bytes_eqb a b
  | _, _ => false
  end.

(** Multiplication of GF(2^8) modulo x^8 + x^4 + x^3 + x + 1, by
    shift-and-add on the bits of the second factor. *)
Fixpoint gf_mul_bits (rounds : nat) (a b acc : N) : N :=
  match rounds with
  | O => acc
  | S r =>
      let acc := if N.testbit b 0 then N.lxor acc a else acc in
      let a2 := N.shiftl a 1 in
      let a2 := if N.testbit a2 8 then N.lxor a2 0x11b else a2 in
      gf_mul_bits r a2 (N.shiftr b 1) acc
  end.

Definition gf_mul (a b : byte) : byte :=
  match Byte.of_N (gf_mul_bits 8 (Byte.to_N a) (Byte.to_N b) 0) with
  | Some r => r
  | None => x00
  end.

Definition threshold_of (k : KeyConfig) : nat :=
  match KeySplittingAlgorithm_ k with
  | KeyConfig_Shamir sh => Z.to_nat (Threshold sh)
  | _ => 1
  end.

(** Stand-ins for the library: the hash of a share is the share, a parsed
    URL is a fixed one, and combining returns the first share once the
    threshold is met. *)
Definition lib : GoLib := {|
  url_Parse := fun _ => Ok {| Scheme := "https"; Hostname := "ekm.example.com";
                              Host := "ekm.example.com:8842" |};
  path_Base := fun _ => "key1";
  HashShare := fun share => share;
  ValidateShare := fun share expected => bytes_eqb share expected;
  CombineUnwrappedShares := fun k us =>
    if Nat.leb (threshold_of k) (List.length us)
    then match us with
         | u :: _ => Ok (UnwrappedShare_Share u)
         | [] => Err (Errorf "no shares" [])
         end
    else Err (Errorf "below threshold" []);
  CombineShares := fun us =>
    match us with
    | u :: _ => Ok u
    | [] => Err (Errorf "no shares" [])
    end;
  MetadataToAAD := fun m => Ok [x01];
  proto_Marshal := fun m => Ok [x02; x03];
  pem_Decode := fun _ => None;
  x509_ParsePKIXPublicKey := fun _ => Err (Errorf "not a key" []);
  x509_ParsePKCS1PrivateKey := fun _ => Err (Errorf "not a key" []);
  x509_MarshalPKIXPublicKey := fun _ => Err (Errorf "not a key" []);
  sha256_Sum256 := fun b => b;
  base64_EncodeToString := fun _ => "";
  aeadDecrypt := fun _ ct _ => Ok ct;
  gf256_mul := gf_mul
|}.

Record Scenario := {
  sc_GetCryptoKey : string -> result CryptoKey;
  sc_KmsEncrypt : EncryptRequest -> result EncryptResponse;
  sc_KmsDecrypt : DecryptRequest -> result DecryptResponse;
  sc_ConfidentialWrap : bytes -> result bytes;
  sc_ConfidentialUnwrap : bytes -> result bytes;
  sc_EndSession : option error;
  sc_PublicKey : KekInfo -> result rsa_PublicKey;
  sc_PrivateKey : KekInfo -> result rsa_PrivateKey;
  sc_DecryptOAEP : rsa_PrivateKey -> bytes -> result bytes;
  sc_ReadMetadata : result Metadata;
  sc_CreateDEKShares : DEK -> option KeyConfig -> result (list bytes)
}.

Definition scripted (sc : Scenario) : Handler unit :=
  fun X e s =>
    match e in Event X return X * unit with
    | NewKeyManagementClient _ => (Ok (KMSClient 0), s)
    | GetCryptoKey _ name => (sc_GetCryptoKey sc name, s)
    | KmsEncrypt _ req => (sc_KmsEncrypt sc req, s)
    | KmsDecrypt _ req => (sc_KmsDecrypt sc req, s)
    | KmsClose _ => (None, s)
    | GenerateTokenWithAudience _ => (Ok "token", s)
    | GenerateJWT _ => (Ok "token", s)
    | EstablishSecureSession _ _ _ => (Ok (SecureSession 1), s)
    | ConfidentialWrap _ _ _ plaintext => (sc_ConfidentialWrap sc plaintext, s)
    | ConfidentialUnwrap _ _ _ blob => (sc_ConfidentialUnwrap sc blob, s)
    | EndSession _ => (sc_EndSession sc, s)
    | PublicKeyForRSAFingerprint kek _ => (sc_PublicKey sc kek, s)
    | PrivateKeyForRSAFingerprint kek _ => (sc_PrivateKey sc kek, s)
    | os_ReadFile _ => (Err (Errorf "no such file" []), s)
    | rsa_EncryptOAEP _ msg => (Ok msg, s)
    | rsa_DecryptOAEP priv ct => (sc_DecryptOAEP sc priv ct, s)
    | glog_Infof _ _ => (tt, s)
    | glog_Warningf _ _ => (tt, s)
    | NewDEK => (repeat x2a DEKBytes, s)
    | uuid_NewString => ("123e4567-e89b-42d3-a456-426614174000", s)
    | rand_Read n => (repeat x07 n, s)
    | CreateDEKShares dek keyCfg => (sc_CreateDEKShares sc dek keyCfg, s)
    | ReadMetadata => (sc_ReadMetadata sc, s)
    | WriteSTETHeader _ => (None, s)
    | output_Write _ => (None, s)
    | AeadEncrypt _ _ => (None, s)
    | AeadDecrypt _ _ => (None, s)
    | aeadEncrypt _ plaintext _ => (Ok plaintext, s)
    end.

Definition software_key : CryptoKey :=
  {| Primary := Some {| State := ENABLED; ProtectionLevel_ := SOFTWARE;
                        ExternalProtectionLevelOptions_ := None |} |}.

Definition hsm_key : CryptoKey :=
  {| Primary := Some {| State := ENABLED; ProtectionLevel_ := HSM;
                        ExternalProtectionLevelOptions_ := None |} |}.

Definition external_key : CryptoKey :=
  {| Primary := Some {| State := ENABLED; ProtectionLevel_ := EXTERNAL;
                        ExternalProtectionLevelOptions_ :=
                          Some {| ExternalKeyUri := "https://ekm.example.com/v0/key1" |} |} |}.

Definition disabled_key : CryptoKey :=
  {| Primary := Some {| State := DISABLED; ProtectionLevel_ := SOFTWARE;
                        ExternalProtectionLevelOptions_ := None |} |}.

(** Keys of the scripted Cloud KMS, by resource name. *)
Definition key_ring (name : string) : result CryptoKey :=
  if String.eqb name "projects/p/keys/software" then Ok software_key
  else if String.eqb name "projects/p/keys/hsm" then Ok hsm_key
  else if String.eqb name "projects/p/keys/external" then Ok external_key
  else if String.eqb name "projects/p/keys/disabled" then Ok disabled_key
  else Err (Errorf "key not found" []).

(** Every collaborator cooperates: wrapping is the identity and every
    checksum is right. *)
Definition honest : Scenario := {|
  sc_GetCryptoKey := key_ring;
  sc_KmsEncrypt := fun req =>
    Ok {| EncryptResponse_Ciphertext := EncryptRequest_Plaintext req;
          EncryptResponse_CiphertextCrc32C := Some (crc32c (EncryptRequest_Plaintext req));
          EncryptResponse_VerifiedPlaintextCrc32C := true |};
  sc_KmsDecrypt := fun req =>
    Ok {| DecryptResponse_Plaintext := DecryptRequest_Ciphertext req;
          DecryptResponse_PlaintextCrc32C := Some (crc32c (DecryptRequest_Ciphertext req)) |};
  sc_ConfidentialWrap := fun plaintext => Ok plaintext;
  sc_ConfidentialUnwrap := fun blob => Ok blob;
  sc_EndSession := None;
  sc_PublicKey := fun _ => Ok (PublicKey [x30]);
  sc_PrivateKey := fun _ => Ok (PrivateKey [x30]);
  sc_DecryptOAEP := fun _ ct => Ok ct;
  sc_ReadMetadata := Err (Errorf "unexpected EOF" []);
  sc_CreateDEKShares := fun dek keyCfg =>
    Ok (map (fun _ => dek) (GetKekInfos keyCfg))
|}.

(** The external key manager refuses every confidential operation. *)
Definition session_op_fails : Scenario := {|
  sc_GetCryptoKey := sc_GetCryptoKey honest;
  sc_KmsEncrypt := sc_KmsEncrypt honest;
  sc_KmsDecrypt := sc_KmsDecrypt honest;
  sc_ConfidentialWrap := fun _ => Err (Errorf "permission denied" []);
  sc_ConfidentialUnwrap := fun _ => Err (Errorf "permission denied" []);
  sc_EndSession := sc_EndSession honest;
  sc_PublicKey := sc_PublicKey honest;
  sc_PrivateKey := sc_PrivateKey honest;
  sc_DecryptOAEP := sc_DecryptOAEP honest;
  sc_ReadMetadata := sc_ReadMetadata honest;
  sc_CreateDEKShares := sc_CreateDEKShares honest
|}.

(** The external key manager serves the operation and then fails to end
    the session. *)
Definition end_session_fails : Scenario := {|
  sc_GetCryptoKey := sc_GetCryptoKey honest;
  sc_KmsEncrypt := sc_KmsEncrypt honest;
  sc_KmsDecrypt := sc_KmsDecrypt honest;
  sc_ConfidentialWrap := sc_ConfidentialWrap honest;
  sc_ConfidentialUnwrap := sc_ConfidentialUnwrap honest;
  sc_EndSession := Some (Errorf "deadline exceeded" []);
  sc_PublicKey := sc_PublicKey honest;
  sc_PrivateKey := sc_PrivateKey honest;
  sc_DecryptOAEP := sc_DecryptOAEP honest;
  sc_ReadMetadata := sc_ReadMetadata honest;
  sc_CreateDEKShares := sc_CreateDEKShares honest
|}.

(** A Cloud KMS that never looks at the checksum of a request: it says so
    in the one place the API lets it, the [VerifiedPlaintextCrc32C] flag
    of an Encrypt response.  Its state counts the requests whose
    checksum it verified. *)
Definition unverifying_kms : Handler nat :=
  fun X e verified =>
    match e in Event X return X * nat with
    | KmsEncrypt _ req =>
        (Ok {| EncryptResponse_Ciphertext := EncryptRequest_Plaintext req;
               EncryptResponse_CiphertextCrc32C :=
                 Some (crc32c (EncryptRequest_Plaintext req));
               EncryptResponse_VerifiedPlaintextCrc32C := false |}, verified)
    | KmsDecrypt _ req =>
        (Ok {| DecryptResponse_Plaintext := DecryptRequest_Ciphertext req;
               DecryptResponse_PlaintextCrc32C :=
                 Some (crc32c (DecryptRequest_Ciphertext req)) |}, verified)
    | e => (fst (scripted honest _ e tt), verified)
    end.

Definition client : Streaming.StetClient :=
  {| Streaming.kmsClient := None;
     Streaming.fakeSecureSessionClient := None;
     Streaming.InsecureSkipVerify := false;
     Streaming.Version := "" |}.

Definition kms_client : Streaming.StetClient :=
  Streaming.set_kmsClient client (Some (KMSClient 0)).

Definition keys : AsymmetricKeys :=
  {| PublicKeyFiles := ["pub.pem"]; PrivateKeyFiles := ["priv.pem"] |}.

Definition external_kmd : kekMetadata :=
  {| protectionLevel := EXTERNAL;
     uri := "https://ekm.example.com/v0/key1";
     resourceName := "projects/p/keys/external" |}.

Definition share1 : bytes := [x01; x02; x03].

(** KEKs and blobs. *)
Definition kek_software : KekInfo :=
  {| KekType_ := KekInfo_KekUri "gcp-kms://projects/p/keys/software" |}.
Definition kek_external : KekInfo :=
  {| KekType_ := KekInfo_KekUri "gcp-kms://projects/p/keys/external" |}.
Definition kek_disabled : KekInfo :=
  {| KekType_ := KekInfo_KekUri "gcp-kms://projects/p/keys/disabled" |}.
Definition kek_rsaA : KekInfo := {| KekType_ := KekInfo_RsaFingerprint "fpA" |}.
Definition kek_rsaB : KekInfo := {| KekType_ := KekInfo_RsaFingerprint "fpB" |}.

Definition shamir_2_of_3 (keks : list KekInfo) : KeyConfig :=
  {| KekInfos := keks;
     KeySplittingAlgorithm_ := KeyConfig_Shamir {| Threshold := 2; Shares_ := 3 |} |}.

(** Three wrapped shares; under the stand-in hash a share validates when
    it unwraps to the bytes recorded as its hash. *)
Definition three_shares : list WrappedShare :=
  [ {| Share := [x0a]; Hash := [x0a] |};
    {| Share := [x0b]; Hash := [x0b] |};
    {| Share := [x0c]; Hash := [x0c] |} ].

Definition blob_of (cfg : KeyConfig) : Metadata :=
  {| BlobId := "blob-1"; Metadata_KeyConfig := Some cfg;
     Metadata_Shares := three_shares |}.

(** The honest environment reading a given blob. *)
Definition reading (m : Metadata) : Scenario := {|
  sc_GetCryptoKey := sc_GetCryptoKey honest;
  sc_KmsEncrypt := sc_KmsEncrypt honest;
  sc_KmsDecrypt := sc_KmsDecrypt honest;
  sc_ConfidentialWrap := sc_ConfidentialWrap honest;
  sc_ConfidentialUnwrap := sc_ConfidentialUnwrap honest;
  sc_EndSession := sc_EndSession honest;
  sc_PublicKey := sc_PublicKey honest;
  sc_PrivateKey := sc_PrivateKey honest;
  sc_DecryptOAEP := sc_DecryptOAEP honest;
  sc_ReadMetadata := Ok m;
  sc_CreateDEKShares := sc_CreateDEKShares honest
|}.

(** The same, with a Cloud KMS whose Decrypt calls are unavailable. *)
Definition reading_kms_down (m : Metadata) : Scenario := {|
  sc_GetCryptoKey := sc_GetCryptoKey honest;
  sc_KmsEncrypt := sc_KmsEncrypt honest;
  sc_KmsDecrypt := fun _ => Err (Errorf "unavailable" []);
  sc_ConfidentialWrap := sc_ConfidentialWrap honest;
  sc_ConfidentialUnwrap := sc_ConfidentialUnwrap honest;
  sc_EndSession := sc_EndSession honest;
  sc_PublicKey := sc_PublicKey honest;
  sc_PrivateKey := sc_PrivateKey honest;
  sc_DecryptOAEP := sc_DecryptOAEP honest;
  sc_ReadMetadata := Ok m;
  sc_CreateDEKShares := sc_CreateDEKShares honest
|}.

(** 2-of-3 configurations: one whose first KEK is disabled, one whose
    first KEK is a software key, and one over three kinds of KEK. *)
Definition cfg_disabled_first : KeyConfig :=
  shamir_2_of_3 [kek_disabled; kek_rsaA; kek_rsaB].
Definition cfg_software_first : KeyConfig :=
  shamir_2_of_3 [kek_software; kek_rsaA; kek_rsaB].
Definition cfg_mixed : KeyConfig :=
  shamir_2_of_3 [kek_software; kek_external; kek_rsaA].

Definition cfg_kms_only : KeyConfig :=
  shamir_2_of_3 [kek_software; kek_external; kek_software].

Definition legacy_client : Legacy.StetClient :=
  {| Legacy.kmsClient := None;
     Legacy.fakeKeyManagementClient := None;
     Legacy.fakeSecureSessionClient := None |}.

End Demo.

(** * Further readings of KekInfos, calls and traces *)

(** A KekInfo that names a KEK URI. *)
Definition is_KekUri (kek : KekInfo) : bool :=
  match KekType_ kek with
  | KekInfo_KekUri _ => true
  | _ => false
  end.

Definition is_KmsClose {X} (e : Event X) : bool :=
  match e with
  | KmsClose _ => true
  | _ => false
  end.

(** The calls that reach Cloud KMS, the token issuer or the external key
    manager. *)
Definition is_remote {X} (e : Event X) : bool :=
  match e with
  | NewKeyManagementClient _ | GetCryptoKey _ _ | KmsEncrypt _ _ | KmsDecrypt _ _
  | KmsClose _ | GenerateTokenWithAudience _ | GenerateJWT _
  | EstablishSecureSession _ _ _ | ConfidentialWrap _ _ _ _
  | ConfidentialUnwrap _ _ _ _ | EndSession _ => true
  | _ => false
  end.

(** A [kms.NewKeyManagementClient] call: its options. *)
Definition new_kms_client (c : Call) : option (list ClientOption) :=
  match call_event c with
  | NewKeyManagementClient opts => Some opts
  | _ => None
  end.

(** A [uuid.NewString] call: the UUID drawn. *)
Definition new_uuid (c : Call) : option string :=
  match call_event c in Event X return X -> option string with
  | uuid_NewString => fun x => Some x
  | _ => fun _ => None
  end (call_answer c).

(** A file read: the path and the answer. *)
Definition read_file (c : Call) : option (string * result bytes) :=
  match call_event c in Event X return X -> option (string * result bytes) with
  | os_ReadFile path => fun x => Some (path, x)
  | _ => fun _ => None
  end (call_answer c).

(** The values of an unsigned 32-bit integer. *)
Definition uint32 (x : Z) : Prop := (0 <= x < 2 ^ 32)%Z.

(** The user agent of the Cloud KMS client of a STET of version [v]. *)
Definition user_agent (v : string) : string :=
  "STET/" ++ (if String.eqb v "" then "dev" else v).

(** How a run releases the Cloud KMS client, read off its trace [tr] and
    the StetClient field [kmsClient'] it leaves: every [Close] call comes
    after every other call; and when Cloud KMS was asked for a key, at
    least one [Close] call is made and the client field is still set. *)
Definition closes_at_return (kmsClient' : option cloudKMSClient) (tr : Trace) : Prop :=
  exists work closes,
    tr = (work ++ closes)%list
    /\ no_calls (@is_KmsClose) work
    /\ Forall (fun c => is_KmsClose (call_event c) = true) closes
    /\ (answers get_crypto_key work <> [] -> closes <> [] /\ kmsClient' <> None).

(** What one iteration of a wrap or unwrap loop does about the client: it
    makes no [Close] call; the [Close] calls it defers are on a set
    client; it never unsets the client field; and when it asks Cloud KMS
    for a key it defers a [Close] and leaves the field set. *)
Definition iteration_keeps_client (c c1 : Streaming.StetClient)
  (ds : list (option cloudKMSClient)) (t : Trace) : Prop :=
  no_calls (@is_KmsClose) t
  /\ Forall (fun d => d <> None) ds
  /\ (Streaming.kmsClient c <> None -> Streaming.kmsClient c1 <> None)
  /\ (answers get_crypto_key t <> [] -> ds <> [] /\ Streaming.kmsClient c1 <> None).

(** Positions that increase strictly, none below [lo]. *)
Fixpoint increasing_from (lo : nat) (positions : list nat) : Prop :=
  match positions with
  | [] => True
  | i :: rest => lo <= i /\ increasing_from (Datatypes.S i) rest
  end.

Section InOrder.
Context {lib : GoLib}.

(** The share [u] was retained from position [i] of the blob. *)
Definition retained_at (tr : Trace) (kekInfos : list KekInfo)
  (wrappedShares : list WrappedShare) (i : nat) (u : UnwrappedShare) : Prop :=
  exists kek wrapped,
    nth_error kekInfos i = Some kek
    /\ nth_error wrappedShares i = Some wrapped
    /\ retained_from tr kek wrapped u.

(** The shares [us] were retained from strictly increasing positions of
    the blob. *)
Definition retained_in_order (tr : Trace) (kekInfos : list KekInfo)
  (wrappedShares : list WrappedShare) (us : list UnwrappedShare) : Prop :=
  exists positions,
    increasing_from 0 positions
    /\ Forall2 (retained_at tr kekInfos wrappedShares) positions us.

End InOrder.

Section EncryptShape.
Context {lib : GoLib} {S : Type}.

(** The shape of a successful run of [Streaming.Encrypt] from state [s],
    with trace [tr], final client [c'] and result [md]: the prologue, then
    [wrapShares], then the three writes, over one and the same metadata. *)
Definition successful_Encrypt_shape (h : Handler S) (s : S)
  (c : Streaming.StetClient) (config : EncryptConfig) (keys : AsymmetricKeys)
  (blobID : string) (c' : Streaming.StetClient) (md : Streaming.StetMetadata)
  (tr : Trace) : Prop :=
  let keyCfg := EncryptConfig_KeyConfig config in
  (blobID <> "" -> Streaming.BlobID md = blobID)
  /\ exists dek shares s1 pre ws s2 wtr aad metadataBytes,
       run h (Encrypt_prologue config blobID) s
       = (Returned (Ok (dek, shares, Streaming.BlobID md)), s1, pre)
       /\ run h (Streaming.wrapShares c shares (GetKekInfos keyCfg) keys) s1
          = (Returned (c', Ok (ws, Streaming.KeyUris md)), s2, wtr)
       /\ MetadataToAAD {| BlobId := Streaming.BlobID md; Metadata_KeyConfig := keyCfg;
                           Metadata_Shares := ws |} = Ok aad
       /\ proto_Marshal {| BlobId := Streaming.BlobID md; Metadata_KeyConfig := keyCfg;
                           Metadata_Shares := ws |} = Ok metadataBytes
       /\ tr = (pre ++ wtr
                ++ [mkCall (WriteSTETHeader (List.length metadataBytes)) None;
                    mkCall (output_Write metadataBytes) None;
                    mkCall (AeadEncrypt dek aad) None])%list.

End EncryptShape.

Section SecureSessions.
Context {lib : GoLib}.

(** The confidential operation of a wrap ([unwrapping = false]) or of an
    unwrap ([unwrapping = true]). *)
Definition confidential_op (unwrapping : bool) (sess : secureSessionClient)
  (keyPath resource : string) (payload : bytes) : Event (result bytes) :=
  if unwrapping
  then ConfidentialUnwrap sess keyPath resource payload
  else ConfidentialWrap sess keyPath resource payload.

(** The secure-session wrap or unwrap of the streaming client. *)
Definition secure_session (unwrapping : bool) (c : Streaming.StetClient)
  (payload : bytes) (md : kekMetadata) : prog (result bytes) :=
  if unwrapping
  then Streaming.ekmSecureSessionUnwrap c payload md
  else Streaming.ekmSecureSessionWrap c payload md.

(** The secure-session wrap or unwrap of the whole-buffer client. *)
Definition legacy_secure_session (unwrapping : bool) (c : Legacy.StetClient)
  (payload : bytes) (md : kekMetadata) : prog (result bytes) :=
  if unwrapping
  then Legacy.ekmSecureSessionUnwrap c payload md
  else Legacy.ekmSecureSessionWrap c payload md.

End SecureSessions.

(** The metadata that [protectionLevelsAndUris] records for a KekInfo: for
    a KEK URI, which begins with [gcp-kms://], the resource name is the
    URI without that prefix and the protection level is specified; for
    any other KekInfo it is the zero value. *)
Definition metadata_of (kek : KekInfo) (kmd : kekMetadata) : Prop :=
  match KekType_ kek with
  | KekInfo_KekUri u =>
      HasPrefix u gcpKeyPrefix = true
      /\ resourceName kmd = TrimPrefix u gcpKeyPrefix
      /\ protectionLevel kmd <> PROTECTION_LEVEL_UNSPECIFIED
  | _ => kmd = {| protectionLevel := PROTECTION_LEVEL_UNSPECIFIED;
                  uri := "";
                  resourceName := "" |}
  end.

(** The Cloud KMS resource names of the KEK URIs among [kekInfos], in
    order. *)
Definition kms_resources (kekInfos : list KekInfo) : list string :=
  map (fun kek => TrimPrefix (GetKekUri kek) gcpKeyPrefix) (filter is_KekUri kekInfos).

(** The call that reads the file [fst r] and is answered [snd r]. *)
Definition file_read (r : string * result bytes) : Call :=
  mkCall (os_ReadFile (fst r)) (snd r).

Section KeyFiles.
Context {lib : GoLib}.

(** The contents [keyBytes] of a key file hold the RSA public key [key]
    of fingerprint [fingerprint]: a PEM block of type PUBLIC KEY whose
    bytes parse as a PKIX RSA public key; the fingerprint is the base64
    of the SHA-256 of the bytes of the block. *)
Definition public_key_in (keyBytes : bytes) (key : rsa_PublicKey)
  (fingerprint : string) : Prop :=
  exists block,
    pem_Decode keyBytes = Some block
    /\ pem_Type block = "PUBLIC KEY"
    /\ x509_ParsePKIXPublicKey (pem_Bytes block) = Ok (Some key)
    /\ fingerprint = base64_EncodeToString (sha256_Sum256 (pem_Bytes block)).

(** The contents [keyBytes] of a key file hold the RSA private key [key]
    of fingerprint [fingerprint]: a PEM block of type RSA PRIVATE KEY
    whose bytes parse as a PKCS #1 private key; the fingerprint is the
    base64 of the SHA-256 of the PKIX encoding of its public key. *)
Definition private_key_in (keyBytes : bytes) (key : rsa_PrivateKey)
  (fingerprint : string) : Prop :=
  exists block der,
    pem_Decode keyBytes = Some block
    /\ pem_Type block = "RSA PRIVATE KEY"
    /\ x509_ParsePKCS1PrivateKey (pem_Bytes block) = Ok key
    /\ x509_MarshalPKIXPublicKey key = Ok der
    /\ fingerprint = base64_EncodeToString (sha256_Sum256 der).

(** How a search of the key files [paths] for the fingerprint [wanted]
    went, where [holds keyBytes key fp] reads a key and its fingerprint
    off the contents of a file: the files read are [skipped], then
    [final], a prefix of [paths] in order; every skipped file holds a key
    of another fingerprint; the search succeeds with the key of the final
    file, which has the wanted fingerprint; it fails with [not_found]
    when every file was skipped, and otherwise at a final file that could
    not be read or holds no key. *)
Definition key_search {K : Type} (holds : bytes -> K -> string -> Prop)
  (wanted : string) (not_found : error) (paths : list string)
  (skipped final : list (string * result bytes)) (r : result K) : Prop :=
  map fst (skipped ++ final)%list = firstn (List.length (skipped ++ final)%list) paths
  /\ Forall (fun read => exists keyBytes key fp,
                 snd read = Ok keyBytes /\ holds keyBytes key fp /\ fp <> wanted)
            skipped
  /\ match r with
     | Ok key =>
         exists path keyBytes,
           final = [(path, Ok keyBytes)] /\ holds keyBytes key wanted
     | Err e =>
         (final = [] /\ List.length skipped = List.length paths /\ e = not_found)
         \/ (exists path answer,
               final = [(path, answer)]
               /\ forall keyBytes key fp,
                    answer = Ok keyBytes -> ~ holds keyBytes key fp)
     end.

End KeyFiles.

Section Reconstitution.
Context {lib : GoLib}.

(** The key that the whole-buffer [Decrypt] reconstitutes from the
    unwrapped shares [us] under the KeyConfig [k]: the one share when the
    key was not split, the combination of the shares under Shamir's
    scheme. *)
Definition reconstitutes (k : KeyConfig) (us : list bytes) (dek : bytes) : Prop :=
  match KeySplittingAlgorithm_ k with
  | KeyConfig_NoSplit _ => us = [dek]
  | KeyConfig_Shamir _ => CombineShares us = Ok dek
  | KeySplitting_unset => False
  end.

End Reconstitution.

(** A blob sealed under one software key of Cloud KMS, without
    splitting. *)
Module Examples.

Definition no_split_software : KeyConfig :=
  {| KekInfos := [Demo.kek_software];
     KeySplittingAlgorithm_ := KeyConfig_NoSplit true |}.

Definition sealed : EncryptedData :=
  {| EncryptedData_Ciphertext := [x68; x69];
     EncryptedData_Metadata :=
       Some {| BlobId := "blob-2";
               Metadata_KeyConfig := Some no_split_software;
               Metadata_Shares := [ {| Share := repeat x2a DEKBytes;
                                       Hash := repeat x2a DEKBytes |} ] |} |}.

End Examples.

Section LegacyEncryptShape.
Context {lib : GoLib} {S : Type}.


End LegacyEncryptShape.

(** * Runs of programs *)

Section RunFacts.
Context {S : Type} (h : Handler S).

Lemma run_bind {A B} (p : prog A) (f : A -> prog B) (s : S) :
  run h (bind p f) s =
  match run h p s with
  | (Returned a, s1, t1) =>
      let '(o, s2, t2) := run h (f a) s1 in (o, s2, (t1 ++ t2)%list)
  | (Panicked m, s1, t1) => (Panicked m, s1, t1)
  end.
Proof.
  revert s; induction p as [a | m | X e k IH]; intros s; simpl.
  - destruct (run h (f a) s) as [[o s2] t2]; reflexivity.
  - reflexivity.
  - destruct (h X e s) as [x s1]. rewrite IH.
    destruct (run h (k x) s1) as [[[a | m] s2] t1]; simpl.
    + destruct (run h (f a) s2) as [[o s3] t2]; reflexivity.
    + reflexivity.
Qed.

Lemma run_call {X} (e : Event X) (s : S) :
  run h (call e) s = (Returned (fst (h X e s)), snd (h X e s), [mkCall e (fst (h X e s))]).
Proof. unfold call; simpl. destruct (h X e s); reflexivity. Qed.

End RunFacts.

Lemma succeeded_inv {C A} (o : outcome (C * result A)) :
  succeeded o = true -> exists c a, o = Returned (c, Ok a).
Proof.
  destruct o as [[c [a | e]] | m]; try discriminate.
  intros _. exists c, a. reflexivity.
Qed.

Lemma answers_app {A} (view : Call -> option A) (t1 t2 : Trace) :
  answers view (t1 ++ t2)%list = (answers view t1 ++ answers view t2)%list.
Proof.
  induction t1 as [| c t1 IH]; simpl; [reflexivity |].
  destruct (view c); simpl; rewrite IH; reflexivity.
Qed.

Lemma no_calls_app f (t1 t2 : Trace) :
  no_calls f (t1 ++ t2)%list <-> no_calls f t1 /\ no_calls f t2.
Proof. unfold no_calls; apply Forall_app. Qed.

(** * The secure-session wrap and unwrap *)

(** Follow a straight-line program through every answer the environment
    can give. *)
Ltac explore h :=
  repeat (simpl;
          match goal with
          | |- context [h ?X ?e ?s] =>
              let x := fresh "x" in
              let s1 := fresh "s" in
              destruct (h X e s) as [x s1]
          | |- context [match ?x with _ => _ end] => is_var x; destruct x
          end).

Ltac split_trace :=
  first [ eexists [], _, _; split; [reflexivity | split; discriminate]
        | eexists [_], _, _; split; [reflexivity | split; discriminate]
        | eexists [_; _], _, _; split; [reflexivity | split; discriminate]
        | eexists [_; _; _], _, _; split; [reflexivity | split; discriminate] ].

Ltac teardown_cases h :=
  explore h; unfold teardown; simpl;
  first [ reflexivity | split; [reflexivity | split_trace] ].

Section SecureSession.
Context {lib : GoLib} {S : Type} (h : Handler S).

Lemma Streaming_wrap_teardown c share md s :
  teardown (trace_of h (Streaming.ekmSecureSessionWrap c share md) s).
Proof.
  unfold trace_of, Streaming.ekmSecureSessionWrap, Streaming.obtain_ekmClient.
  destruct (Streaming.parseEKMKeyURI (uri md)) as [[addr keyPath] | err];
    [| exact eq_refl].
  destruct (Streaming.fakeSecureSessionClient c) as [fake |]; teardown_cases h.
Qed.

Lemma Streaming_unwrap_teardown c share md s :
  teardown (trace_of h (Streaming.ekmSecureSessionUnwrap c share md) s).
Proof.
  unfold trace_of, Streaming.ekmSecureSessionUnwrap, Streaming.obtain_ekmClient.
  destruct (Streaming.parseEKMKeyURI (uri md)) as [[addr keyPath] | err];
    [| exact eq_refl].
  destruct (Streaming.fakeSecureSessionClient c) as [fake |]; teardown_cases h.
Qed.

Lemma Legacy_wrap_teardown c share md s :
  teardown (trace_of h (Legacy.ekmSecureSessionWrap c share md) s).
Proof.
  unfold trace_of, Legacy.ekmSecureSessionWrap, Legacy.obtain_ekmClient,
    Legacy.generateTokenFromEKMAddress.
  destruct (Legacy.parseEKMKeyURI (uri md)) as [[addr keyPath] | err];
    [| exact eq_refl].
  destruct (Legacy.fakeSecureSessionClient c) as [fake |]; [teardown_cases h |].
  destruct (url_Parse addr) as [u | err]; [| exact eq_refl].
  destruct (Legacy.removeSchemeFromURL addr) as [rpcAddr | err]; teardown_cases h.
Qed.

Lemma Legacy_unwrap_teardown c share md s :
  teardown (trace_of h (Legacy.ekmSecureSessionUnwrap c share md) s).
Proof.
  unfold trace_of, Legacy.ekmSecureSessionUnwrap, Legacy.obtain_ekmClient,
    Legacy.generateTokenFromEKMAddress.
  destruct (Legacy.parseEKMKeyURI (uri md)) as [[addr keyPath] | err];
    [| exact eq_refl].
  destruct (Legacy.fakeSecureSessionClient c) as [fake |]; [teardown_cases h |].
  destruct (url_Parse addr) as [u | err]; [| exact eq_refl].
  destruct (Legacy.removeSchemeFromURL addr) as [rpcAddr | err]; teardown_cases h.
Qed.
End SecureSession.

Ltac end_failure_cases h :=
  explore h; unfold on_run, outcome_of, trace_of, end_failure_is_error; simpl;
  intros ? ? ? Hop Hend; try discriminate;
  inversion Hop; inversion Hend; subst; split; reflexivity.

Section EndSessionFailure.
Context {lib : GoLib} {S : Type} (h : Handler S).

Lemma Streaming_wrap_end_failure c share md s :
  on_run end_failure_is_error h (Streaming.ekmSecureSessionWrap c share md) s.
Proof.
  unfold on_run, outcome_of, trace_of, Streaming.ekmSecureSessionWrap,
    Streaming.obtain_ekmClient.
  destruct (Streaming.parseEKMKeyURI (uri md)) as [[addr keyPath] | err];
    [| intros ? ? ? Hop; discriminate].
  destruct (Streaming.fakeSecureSessionClient c) as [fake |]; end_failure_cases h.
Qed.

Lemma Streaming_unwrap_end_failure c share md s :
  on_run end_failure_is_error h (Streaming.ekmSecureSessionUnwrap c share md) s.
Proof.
  unfold on_run, outcome_of, trace_of, Streaming.ekmSecureSessionUnwrap,
    Streaming.obtain_ekmClient.
  destruct (Streaming.parseEKMKeyURI (uri md)) as [[addr keyPath] | err];
    [| intros ? ? ? Hop; discriminate].
  destruct (Streaming.fakeSecureSessionClient c) as [fake |]; end_failure_cases h.
Qed.

Lemma Legacy_wrap_end_failure c share md s :
  on_run end_failure_is_error h (Legacy.ekmSecureSessionWrap c share md) s.
Proof.
  unfold on_run, outcome_of, trace_of, Legacy.ekmSecureSessionWrap,
    Legacy.obtain_ekmClient, Legacy.generateTokenFromEKMAddress.
  destruct (Legacy.parseEKMKeyURI (uri md)) as [[addr keyPath] | err];
    [| intros ? ? ? Hop; discriminate].
  destruct (Legacy.fakeSecureSessionClient c) as [fake |]; [end_failure_cases h |].
  destruct (url_Parse addr) as [u | err]; [| intros ? ? ? Hop; discriminate].
  destruct (Legacy.removeSchemeFromURL addr) as [rpcAddr | err]; end_failure_cases h.
Qed.

Lemma Legacy_unwrap_end_failure c share md s :
  on_run end_failure_is_error h (Legacy.ekmSecureSessionUnwrap c share md) s.
Proof.
  unfold on_run, outcome_of, trace_of, Legacy.ekmSecureSessionUnwrap,
    Legacy.obtain_ekmClient, Legacy.generateTokenFromEKMAddress.
  destruct (Legacy.parseEKMKeyURI (uri md)) as [[addr keyPath] | err];
    [| intros ? ? ? Hop; discriminate].
  destruct (Legacy.fakeSecureSessionClient c) as [fake |]; [end_failure_cases h |].
  destruct (url_Parse addr) as [u | err]; [| intros ? ? ? Hop; discriminate].
  destruct (Legacy.removeSchemeFromURL addr) as [rpcAddr | err]; end_failure_cases h.
Qed.
End EndSessionFailure.

(** * The Cloud KMS wrap and unwrap *)

Arguments crc32c : simpl never.

Ltac guard_case :=
  match goal with
  | |- _ /\ _ => split; guard_case
  | |- forall _, _ <-> _ => intros ?; split; guard_case
  | |- _ => intros; guard_leaf
  end
with guard_leaf :=
  repeat match goal with
         | H : exists _, _ |- _ => destruct H
         | H : _ /\ _ |- _ => destruct H
         | H : Ok _ = Ok _ |- _ => inversion H; clear H; subst
         | H : Returned _ = Returned _ |- _ => inversion H; clear H; subst
         end;
  cbn in *;
  try congruence;
  try (eexists; repeat split; congruence).

Section CloudKMS.
Context {lib : GoLib} {S : Type} (h : Handler S).

Lemma wrap_program_guarded (s : S) cl share keyName (p : prog (result bytes)) :
  p = Legacy.wrapKMSShare (Some cl) share keyName ->
  kms_wrap_guarded h s cl share keyName p.
Proof.
  intros ->.
  unfold kms_wrap_guarded, outcome_of, trace_of, Legacy.wrapKMSShare, kms_method.
  cbv zeta. rewrite run_bind, run_call.
  destruct (h _ _ s) as [[resp | err] s1]; cbn [fst snd].
  - destruct resp as [ct declared verified]; cbn.
    destruct verified; cbn.
    + destruct declared as [d |]; cbn.
      * destruct (Z.eqb_spec (crc32c ct) d) as [Heq | Hne]; cbn; guard_case.
      * guard_case.
    + guard_case.
  - guard_case.
Qed.

Lemma unwrap_program_guarded (s : S) cl wrapped keyName (p : prog (result bytes)) :
  p = Legacy.unwrapKMSShare (Some cl) wrapped keyName ->
  kms_unwrap_guarded h s cl wrapped keyName p.
Proof.
  intros ->.
  unfold kms_unwrap_guarded, outcome_of, trace_of, Legacy.unwrapKMSShare, kms_method.
  cbv zeta. rewrite run_bind, run_call.
  destruct (h _ _ s) as [[resp | err] s1]; cbn [fst snd].
  - destruct resp as [pt declared]; cbn.
    destruct declared as [d |]; cbn.
    + destruct (Z.eqb_spec (crc32c pt) d) as [Heq | Hne]; cbn; guard_case.
    + guard_case.
  - guard_case.
Qed.

End CloudKMS.

(** * Resolving a KEK URI *)

Section Resolve.
Context {lib : GoLib} {S : Type} (h : Handler S).

Lemma getKekURIMetadata_of_uri cl kek uri0 (s : S) :
  KekType_ kek = KekInfo_KekUri uri0 ->
  HasPrefix uri0 gcpKeyPrefix = true ->
  outcome_of h (Streaming.getKekURIMetadata (Some cl) kek) s =
  match fst (h _ (GetCryptoKey cl (TrimPrefix uri0 gcpKeyPrefix)) s) with
  | Err err => Returned (Err (Errorf "error retrieving key metadata: %v" [AError err]))
  | Ok cryptoKey =>
      match Primary cryptoKey with
      | None => Returned (Err (Errorf "CryptoKeyVersion for %v is not enabled"
                                 [AString uri0]))
      | Some ver =>
          match State ver with
          | ENABLED =>
              match ProtectionLevel_ ver with
              | PROTECTION_LEVEL_UNSPECIFIED =>
                  Returned (Err (Errorf "unspecified protection level %v"
                                   [ALevel PROTECTION_LEVEL_UNSPECIFIED]))
              | EXTERNAL =>
                  match ExternalProtectionLevelOptions_ ver with
                  | None =>
                      Returned (Err (Errorf "CryptoKeyVersion for KEK %s does not have external protection level options despite being EXTERNAL protection level"
                                       [AString uri0]))
                  | Some opts =>
                      Returned (Ok {| protectionLevel := EXTERNAL;
                                      uri := ExternalKeyUri opts;
                                      resourceName := TrimPrefix uri0 gcpKeyPrefix |})
                  end
              | pl =>
                  Returned (Ok {| protectionLevel := pl;
                                  uri := uri0;
                                  resourceName := TrimPrefix uri0 gcpKeyPrefix |})
              end
          | _ => Returned (Err (Errorf "CryptoKeyVersion for %v is not enabled"
                                  [AString uri0]))
          end
      end
  end.
Proof.
  intros Hk Hp.
  unfold outcome_of, Streaming.getKekURIMetadata, GetKekUri, kms_method.
  rewrite Hk, Hp. cbn [negb]. rewrite run_bind, run_call. cbn [fst snd].
  destruct (fst (h _ _ s)) as [[[ver |]] | err]; cbn; try reflexivity.
  destruct ver as [st pl opts]; cbn.
  destruct st; cbn; try reflexivity.
  destruct pl; cbn; try reflexivity.
  destruct opts; reflexivity.
Qed.

Lemma getKekURIMetadata_resolves cl kek (s : S) kmd :
  outcome_of h (Streaming.getKekURIMetadata (Some cl) kek) s = Returned (Ok kmd)
  <->
  exists uri0 ver,
    KekType_ kek = KekInfo_KekUri uri0
    /\ HasPrefix uri0 gcpKeyPrefix = true
    /\ fst (h _ (GetCryptoKey cl (TrimPrefix uri0 gcpKeyPrefix)) s)
       = Ok {| Primary := Some ver |}
    /\ State ver = ENABLED
    /\ ProtectionLevel_ ver <> PROTECTION_LEVEL_UNSPECIFIED
    /\ protectionLevel kmd = ProtectionLevel_ ver
    /\ resourceName kmd = TrimPrefix uri0 gcpKeyPrefix
    /\ (ProtectionLevel_ ver = EXTERNAL ->
        exists opts, ExternalProtectionLevelOptions_ ver = Some opts
                     /\ uri kmd = ExternalKeyUri opts)
    /\ (ProtectionLevel_ ver <> EXTERNAL -> uri kmd = uri0).
Proof.
  split.
  - intros H.
    destruct (KekType_ kek) as [| fp | uri0] eqn:Hk;
      try (unfold outcome_of, Streaming.getKekURIMetadata in H; rewrite Hk in H;
           discriminate).
    destruct (HasPrefix uri0 gcpKeyPrefix) eqn:Hp.
    2:{ unfold outcome_of, Streaming.getKekURIMetadata, GetKekUri in H.
        rewrite Hk, Hp in H. discriminate. }
    rewrite (getKekURIMetadata_of_uri cl kek uri0 s Hk Hp) in H.
    exists uri0.
    destruct (fst (h _ _ s)) as [[[ver |]] | err]; try discriminate.
    exists ver. destruct ver as [st pl opts]; cbn in *.
    destruct st; try discriminate.
    destruct pl; try discriminate;
      try (destruct opts as [o |]; [| discriminate]).
    all: inversion H; subst; cbn.
    all: repeat split; try congruence.
    exists o. split; reflexivity.
  - intros (uri0 & ver & Hk & Hp & Ha & Hst & Hpl & Hl & Hr & Hext & Hnext).
    rewrite (getKekURIMetadata_of_uri cl kek uri0 s Hk Hp), Ha. cbn.
    destruct kmd as [l u r]; cbn in *. subst l r.
    rewrite Hst.
    destruct (ProtectionLevel_ ver) eqn:E; try congruence.
    + rewrite Hnext by discriminate. reflexivity.
    + rewrite Hnext by discriminate. reflexivity.
    + destruct (Hext eq_refl) as (opts & -> & ->). reflexivity.
    + rewrite Hnext by discriminate. reflexivity.
Qed.

Lemma protectionLevelsAndUris_body_of_uri cl kek uri0 :
  KekType_ kek = KekInfo_KekUri uri0 ->
  Legacy.protectionLevelsAndUris_body (Some cl) kek
  = Streaming.getKekURIMetadata (Some cl) kek.
Proof.
  intros Hk. unfold Legacy.protectionLevelsAndUris_body, Streaming.getKekURIMetadata.
  rewrite Hk. reflexivity.
Qed.

End Resolve.

(** * Programs that never make certain calls *)

Section Never.
Context {S : Type} (h : Handler S) (f : forall X, Event X -> bool).

Lemma never_bind {A B} (p : prog A) (k : A -> prog B) :
  never f p -> (forall a, never f (k a)) -> never f (bind p k).
Proof.
  induction p as [a | m | X e k' IH]; simpl; intros Hp Hk.
  - apply Hk.
  - exact I.
  - destruct Hp as [He Hk']. split; [exact He |]. intros x. apply IH; auto.
Qed.

Lemma never_run {R} (p : prog R) (s : S) :
  never f p -> no_calls f (trace_of h p s).
Proof.
  unfold trace_of, no_calls. revert s.
  induction p as [a | m | X e k IH]; simpl; intros s Hp.
  - constructor.
  - constructor.
  - destruct Hp as [He Hk]. destruct (h X e s) as [x s1].
    specialize (IH x s1 (Hk x)).
    destruct (run h (k x) s1) as [[o s2] tr]; simpl in *.
    constructor; [exact He | exact IH].
Qed.

Lemma run_bind_Returned {A B} (p : prog A) (k : A -> prog B) s b s' tr :
  run h (bind p k) s = (Returned b, s', tr) ->
  exists a s1 t1 t2,
    run h p s = (Returned a, s1, t1)
    /\ run h (k a) s1 = (Returned b, s', t2)
    /\ tr = (t1 ++ t2)%list.
Proof.
  rewrite run_bind.
  destruct (run h p s) as [[[a | m] s1] t1]; [| discriminate].
  destruct (run h (k a) s1) as [[o s2] t2] eqn:E.
  intros H; inversion H; subst. exists a, s1, t1, t2. auto.
Qed.

End Never.

Section StreamingQuiet.
Context {lib : GoLib} (f : forall X, Event X -> bool).
(** [f] selects calls on the input and output streams only. *)
Hypothesis f_streams : forall X (e : Event X), f X e = true -> 
  reads_input e = true \/ writes_output e = true.

Lemma f_false X (e : Event X) :
  reads_input e = false -> writes_output e = false -> f X e = false.
Proof.
  intros Hr Hw. destruct (f X e) eqn:E; [| reflexivity].
  destruct (f_streams X e E); congruence.
Qed.

Ltac stream_free :=
  repeat (cbn [never bind call];
          match goal with
          | |- True => exact I
          | |- f _ _ = false /\ _ => split; [apply f_false; reflexivity |]
          | |- forall _, _ => intros
          | |- never _ (bind _ _) => apply never_bind
          | |- never _ (match ?x with _ => _ end) => destruct x
          | |- never _ (if ?b then _ else _) => destruct b
          end).

Lemma run_deferred_quiet defers : never f (run_deferred defers).
Proof.
  induction defers as [| d rest IH]; simpl; [exact I |].
  apply never_bind; [| intros; exact IH].
  unfold kms_method. stream_free.
Qed.

Lemma Streaming_initializeKMSClient_quiet c :
  never f (Streaming.initializeKMSClient c).
Proof. unfold Streaming.initializeKMSClient. stream_free. Qed.

Lemma Streaming_getKekURIMetadata_quiet cl kek :
  never f (Streaming.getKekURIMetadata cl kek).
Proof. unfold Streaming.getKekURIMetadata, kms_method. stream_free. Qed.

Lemma Streaming_wrapKMSShare_quiet c share name :
  never f (Streaming.wrapKMSShare c share name).
Proof. unfold Streaming.wrapKMSShare, kms_method. stream_free. Qed.

Lemma Streaming_unwrapKMSShare_quiet c share name :
  never f (Streaming.unwrapKMSShare c share name).
Proof. unfold Streaming.unwrapKMSShare, kms_method. stream_free. Qed.

Lemma Streaming_ekmSecureSessionWrap_quiet c share md :
  never f (Streaming.ekmSecureSessionWrap c share md).
Proof.
  unfold Streaming.ekmSecureSessionWrap, Streaming.obtain_ekmClient. stream_free.
Qed.

Lemma Streaming_ekmSecureSessionUnwrap_quiet c share md :
  never f (Streaming.ekmSecureSessionUnwrap c share md).
Proof.
  unfold Streaming.ekmSecureSessionUnwrap, Streaming.obtain_ekmClient. stream_free.
Qed.

Lemma Streaming_wrapShares_body_quiet c keys share kek :
  never f (Streaming.wrapShares_body c keys share kek).
Proof.
  unfold Streaming.wrapShares_body.
  destruct (KekType_ kek); stream_free;
    try apply Streaming_initializeKMSClient_quiet;
    try apply Streaming_getKekURIMetadata_quiet; stream_free;
    try apply Streaming_wrapKMSShare_quiet;
    try apply Streaming_ekmSecureSessionWrap_quiet; stream_free.
Qed.

Lemma Streaming_wrapShares_loop_quiet kekInfos keys shares :
  forall i c defers ws uris,
    never f (Streaming.wrapShares_loop kekInfos keys i shares c defers ws uris).
Proof.
  induction shares as [| share rest IH]; intros; simpl; [exact I |].
  destruct (nth_error kekInfos i); [| exact I].
  apply never_bind; [apply Streaming_wrapShares_body_quiet |].
  intros [[c1 ds] [[w us] | err]]; [apply IH | exact I].
Qed.

Lemma Streaming_wrapShares_quiet c shares kekInfos keys :
  never f (Streaming.wrapShares c shares kekInfos keys).
Proof.
  unfold Streaming.wrapShares.
  destruct (negb _); [exact I |].
  apply never_bind; [apply Streaming_wrapShares_loop_quiet |].
  intros [[c1 ds] r]. apply never_bind; [apply run_deferred_quiet |].
  intros; exact I.
Qed.

End StreamingQuiet.

(** * Encrypt and the output stream *)

Section EncryptOutput.
Context {lib : GoLib} {S : Type} (h : Handler S).

Lemma writes_output_streams X (e : Event X) :
  writes_output e = true -> reads_input e = true \/ writes_output e = true.
Proof. auto. Qed.

Lemma wrapShares_writes_nothing c shares kekInfos keys (s : S) :
  no_calls (@writes_output) (trace_of h (Streaming.wrapShares c shares kekInfos keys) s).
Proof.
  apply never_run, Streaming_wrapShares_quiet. exact writes_output_streams.
Qed.

Lemma wrapShares_loop_length kekInfos keys shares :
  forall i c defers ws uris (s : S) c' defers' ws' uris' s' tr,
    run h (Streaming.wrapShares_loop kekInfos keys i shares c defers ws uris) s
    = (Returned (c', defers', Ok (ws', uris')), s', tr) ->
    List.length ws' = List.length ws + List.length shares.
Proof.
  induction shares as [| share rest IH]; intros * H; simpl in H.
  - inversion H; subst. simpl. lia.
  - destruct (nth_error kekInfos i) as [kek |]; [| discriminate].
    apply run_bind_Returned in H.
    destruct H as ([[c1 ds] r] & s1 & t1 & t2 & _ & H & _).
    destruct r as [[w us] | err]; [| discriminate].
    apply IH in H. rewrite length_app in H. simpl in *. lia.
Qed.

Lemma wrapShares_length c shares kekInfos keys (s : S) c' ws uris s' tr :
  run h (Streaming.wrapShares c shares kekInfos keys) s
  = (Returned (c', Ok (ws, uris)), s', tr) ->
  List.length ws = List.length kekInfos.
Proof.
  unfold Streaming.wrapShares.
  destruct (Nat.eqb_spec (List.length shares) (List.length kekInfos)) as [Hl | Hl];
    cbn [negb]; [| discriminate].
  intros H. apply run_bind_Returned in H.
  destruct H as ([[c1 ds] r] & s1 & t1 & t2 & Hloop & H & _).
  apply run_bind_Returned in H.
  destruct H as (u & s2 & t3 & t4 & _ & H & _).
  inversion H; subst.
  apply wrapShares_loop_length in Hloop. simpl in Hloop. lia.
Qed.

Lemma Encrypt_wrap_failure c config keys blobID (s : S)
      dek shares bid s1 pre c2 err s2 wtr :
  run h (Encrypt_prologue config blobID) s = (Returned (Ok (dek, shares, bid)), s1, pre) ->
  run h (Streaming.wrapShares c shares (GetKekInfos (EncryptConfig_KeyConfig config)) keys) s1
  = (Returned (c2, Err err), s2, wtr) ->
  run h (Streaming.Encrypt c (Some config) keys blobID) s
  = (Returned (c2, Err (Errorf "error wrapping shares: %v" [AError err])), s2,
     (pre ++ wtr)%list)
  /\ no_calls (@writes_output) (pre ++ wtr)%list.
Proof.
  intros Hpre Hwrap.
  assert (Hq : no_calls (@writes_output) wtr).
  { pose proof (wrapShares_writes_nothing c shares
                  (GetKekInfos (EncryptConfig_KeyConfig config)) keys s1) as Hn.
    unfold trace_of in Hn. rewrite Hwrap in Hn. exact Hn. }
  unfold Encrypt_prologue in Hpre. unfold Streaming.Encrypt.
  cbn [bind call run] in *.
  destruct (h _ NewDEK s) as [dek0 sa].
  destruct (h _ (CreateDEKShares dek0 _) sa) as [[shares0 | e0] sb]; cbn in *;
    [| discriminate].
  destruct (String.eqb blobID ""); cbn in *.
  - destruct (h _ uuid_NewString sb) as [bid0 sc]. cbn in *.
    inversion Hpre; subst. rewrite run_bind, Hwrap. cbn.
    rewrite app_nil_r. split; [reflexivity |].
    repeat (constructor; [reflexivity |]). exact Hq.
  - inversion Hpre; subst. rewrite run_bind, Hwrap. cbn.
    rewrite app_nil_r. split; [reflexivity |].
    repeat (constructor; [reflexivity |]). exact Hq.
Qed.

Lemma Encrypt_header_after_wraps c config keys blobID (s : S) :
  let keyCfg := EncryptConfig_KeyConfig config in
  let tr := trace_of h (Streaming.Encrypt c (Some config) keys blobID) s in
  no_calls (@writes_output) tr
  \/ exists dek shares bid s1 pre c2 ws uris s2 wtr metadataBytes ans post,
       run h (Encrypt_prologue config blobID) s
       = (Returned (Ok (dek, shares, bid)), s1, pre)
       /\ run h (Streaming.wrapShares c shares (GetKekInfos keyCfg) keys) s1
          = (Returned (c2, Ok (ws, uris)), s2, wtr)
       /\ List.length ws = List.length (GetKekInfos keyCfg)
       /\ proto_Marshal {| BlobId := bid; Metadata_KeyConfig := keyCfg;
                           Metadata_Shares := ws |} = Ok metadataBytes
       /\ tr = (pre ++ wtr
                ++ mkCall (WriteSTETHeader (List.length metadataBytes)) ans :: post)%list
       /\ no_calls (@writes_output) (pre ++ wtr)%list.
Proof.
  cbv zeta. unfold trace_of, Streaming.Encrypt, Encrypt_prologue.
  cbn [bind call run].
  destruct (h _ NewDEK s) as [dek sa].
  destruct (h _ (CreateDEKShares dek _) sa) as [[shares | e0] sb]; cbn;
    [| left; repeat constructor].
  set (kekInfos := GetKekInfos (EncryptConfig_KeyConfig config)).
  assert (Hafter : forall bid s1 pre,
    no_calls (@writes_output) pre ->
    let '(o, s2, t) :=
      run h (bind (Streaming.wrapShares c shares kekInfos keys)
               (fun x => let '(c0, w) := x in
                  match w with
                  | Ok (wrappedShares, keyURIs) =>
                      match MetadataToAAD {| BlobId := bid;
                              Metadata_KeyConfig := EncryptConfig_KeyConfig config;
                              Metadata_Shares := wrappedShares |} with
                      | Ok aad =>
                          match proto_Marshal {| BlobId := bid;
                                  Metadata_KeyConfig := EncryptConfig_KeyConfig config;
                                  Metadata_Shares := wrappedShares |} with
                          | Ok metadataBytes =>
                              Vis (WriteSTETHeader (List.length metadataBytes))
                                (fun x0 =>
                                   match x0 with
                                   | Some err =>
                                       Ret (c0, Err (Errorf "failed to write encrypted file header: %v" [AError err]))
                                   | None =>
                                       Vis (output_Write metadataBytes)
                                         (fun x1 =>
                                            match x1 with
                                            | Some err =>
                                                Ret (c0, Err (Errorf "failed to write metadata: %v" [AError err]))
                                            | None =>
                                                Vis (AeadEncrypt dek aad)
                                                  (fun x2 =>
                                                     match x2 with
                                                     | Some err =>
                                                         Ret (c0, Err (Errorf "error encrypting data: %v" [AError err]))
                                                     | None =>
                                                         Ret (c0, Ok {| Streaming.KeyUris := keyURIs;
                                                                        Streaming.BlobID := bid |})
                                                     end)
                                            end)
                                   end)
                          | Err err =>
                              Ret (c0, Err (Errorf "failed to serialize metadata: %v" [AError err]))
                          end
                      | Err err =>
                          Ret (c0, Err (Errorf "error serializing metadata: %v" [AError err]))
                      end
                  | Err err =>
                      Ret (c0, Err (Errorf "error wrapping shares: %v" [AError err]))
                  end)) s1 in
    no_calls (@writes_output) (pre ++ t)%list
    \/ exists c2 ws uris s2' wtr metadataBytes ans post,
         run h (Streaming.wrapShares c shares kekInfos keys) s1
         = (Returned (c2, Ok (ws, uris)), s2', wtr)
         /\ List.length ws = List.length kekInfos
         /\ proto_Marshal {| BlobId := bid;
                             Metadata_KeyConfig := EncryptConfig_KeyConfig config;
                             Metadata_Shares := ws |} = Ok metadataBytes
         /\ (pre ++ t = pre ++ wtr
                ++ mkCall (WriteSTETHeader (List.length metadataBytes)) ans :: post)%list
         /\ no_calls (@writes_output) (pre ++ wtr)%list).
  { intros bid s1 pre Hpre. rewrite run_bind.
    pose proof (wrapShares_writes_nothing c shares kekInfos keys s1) as Hq.
    unfold trace_of in Hq.
    destruct (run h (Streaming.wrapShares c shares kekInfos keys) s1)
      as [[[[c2 [[ws uris] | err]] | m] s2] wtr] eqn:Hw; cbn in Hq |- *.
    - pose proof (wrapShares_length _ _ _ _ _ _ _ _ _ _ Hw) as Hlen.
      destruct (MetadataToAAD _) as [aad | err]; cbn.
      2:{ left. rewrite app_nil_r. apply no_calls_app; auto. }
      destruct (proto_Marshal _) as [metadataBytes | err] eqn:Hm; cbn.
      2:{ left. rewrite app_nil_r. apply no_calls_app; auto. }
      destruct (h _ (WriteSTETHeader _) s2) as [ans s3].
      match goal with
      | |- context [run h ?p s3] => destruct (run h p s3) as [[o s4] post]
      end.
      right. exists c2, ws, uris, s2, wtr, metadataBytes, ans, post.
      repeat split; auto. apply no_calls_app; auto.
    - left. rewrite app_nil_r. apply no_calls_app; auto.
    - left. apply no_calls_app; auto. }
  destruct (String.eqb blobID ""); cbn.
  - destruct (h _ uuid_NewString sb) as [bid sc]. cbn.
    specialize (Hafter bid sc
      [mkCall NewDEK dek; mkCall (CreateDEKShares dek (EncryptConfig_KeyConfig config)) (Ok shares);
       mkCall uuid_NewString bid]).
    match goal with
    | |- context [run h ?p sc] => destruct (run h p sc) as [[o s2] t]
    end.
    destruct Hafter as [Hn | (c2 & ws & uris & s2' & wtr & mb & ans & post & H1 & H2 & H3 & H4 & H5)].
    + repeat constructor.
    + left. exact Hn.
    + right. do 13 eexists.
      split; [reflexivity |]. split; [exact H1 |]. split; [exact H2 |].
      split; [exact H3 |]. split; [exact H4 | exact H5].
  - specialize (Hafter blobID sb
      [mkCall NewDEK dek; mkCall (CreateDEKShares dek (EncryptConfig_KeyConfig config)) (Ok shares)]).
    match goal with
    | |- context [run h ?p sb] => destruct (run h p sb) as [[o s2] t]
    end.
    destruct Hafter as [Hn | (c2 & ws & uris & s2' & wtr & mb & ans & post & H1 & H2 & H3 & H4 & H5)].
    + repeat constructor.
    + left. exact Hn.
    + right. do 13 eexists.
      split; [reflexivity |]. split; [exact H1 |]. split; [exact H2 |].
      split; [exact H3 |]. split; [exact H4 | exact H5].
Qed.

End EncryptOutput.

(** * Decrypt and the matching KeyConfig *)

Lemma proto_Equal_true keyCfg other :
  proto_Equal keyCfg other = true <-> other = Some keyCfg.
Proof.
  unfold proto_Equal. destruct other as [k |]; [| split; discriminate].
  destruct (KeyConfig_eq_dec keyCfg k); split; congruence.
Qed.



Section DecryptSelect.
Context {lib : GoLib} {S : Type} (h : Handler S).




End DecryptSelect.

(** * The shares retained by Decrypt *)

Ltac walk h :=
  repeat (cbn -[crc32c TrimPrefix HasPrefix gcpKeyPrefix];
          match goal with
          | |- context [h ?X ?e ?s] => destruct (h X e s) as [? ?]
          | |- context [match ?x with _ => _ end] => is_var x; destruct x
          | |- context [GetPrimary ?a] => is_var a; destruct a
          | |- context [ProtectionLevel_ ?a] => is_var a; destruct a
          | |- context [DecryptResponse_PlaintextCrc32C ?a] => is_var a; destruct a
          | |- context [Z.eqb ?a ?b] => destruct (Z.eqb a b) eqn:?
          | |- context [ValidateShare ?a ?b] => destruct (ValidateShare a b) eqn:?
          | |- context [HasPrefix ?a ?b] => destruct (HasPrefix a b) eqn:?
          | |- context [url_Parse ?a] => destruct (url_Parse a) eqn:?
          end).

Section Retained.
Context {lib : GoLib} {S : Type} (h : Handler S).

Lemma retained_from_mono pre tr post kek wrapped u :
  retained_from tr kek wrapped u ->
  retained_from (pre ++ tr ++ post)%list kek wrapped u.
Proof.
  assert (Hin : forall A (view : Call -> option A) a,
             In a (answers view tr) -> In a (answers view (pre ++ tr ++ post)%list)).
  { intros A view a Ha. rewrite !answers_app.
    apply in_or_app; right; apply in_or_app; left; exact Ha. }
  unfold retained_from. intros [Hv Hk]. split; [exact Hv |].
  destruct (KekType_ kek) as [| fp | kmsURI]; [exact Hk | |].
  - destruct Hk as [Hu Ho]. split; [exact Hu | apply Hin, Ho].
  - destruct Hk as (ver & Hg & Hst & Hl). exists ver.
    split; [apply Hin, Hg |]. split; [exact Hst |].
    destruct (ProtectionLevel_ ver); try exact Hl.
    + destruct Hl as (Hu & resp & Hd & Hp). split; [exact Hu |].
      exists resp. split; [apply Hin, Hd | exact Hp].
    + destruct Hl as (Hu & resp & Hd & Hp). split; [exact Hu |].
      exists resp. split; [apply Hin, Hd | exact Hp].
    + destruct Hl as (opts & Ho & Hu & Hc). exists opts.
      split; [exact Ho |]. split; [exact Hu | apply Hin, Hc].
Qed.

Lemma body_retained c keys i wrapped kek (s : S) :
  match run h (Streaming.unwrapAndValidateShares_body c keys i wrapped kek) s with
  | (Returned (_, _, Retain u), _, tr) => retained_from tr kek wrapped u
  | _ => True
  end.
Proof.
  unfold Streaming.unwrapAndValidateShares_body, retained_from.
  destruct (KekType_ kek) as [| fp | kmsURI] eqn:Hkek.
  - walk h; exact I.
  - unfold Streaming.validate_and_retain. walk h; try exact I; try discriminate.
    all: split; [reflexivity | split; [reflexivity | cbn; auto]].
  - unfold Streaming.initializeKMSClient, Streaming.getKekURIMetadata,
      Streaming.unwrapKMSShare, Streaming.ekmSecureSessionUnwrap,
      Streaming.obtain_ekmClient, Streaming.parseEKMKeyURI,
      Streaming.validate_and_retain, Streaming.warn_and_continue, kms_method,
      GetKekUri.
    rewrite Hkek.
    destruct c as [kc fc skip ver]; cbn [Streaming.kmsClient].
    walk h; try exact I; try discriminate.
    all: split; [reflexivity |]; eexists; split; [cbn; left; reflexivity |];
      split; [reflexivity |]; cbn.
    all: first
           [ split; [reflexivity |]; eexists; split; [cbn; left; reflexivity | reflexivity]
           | eexists; split; [reflexivity |]; split; [reflexivity |]; cbn; auto ].
Qed.

Lemma provenance_mono pre tr post kekInfos wrappedShares u :
  provenance tr kekInfos wrappedShares u ->
  provenance (pre ++ tr ++ post)%list kekInfos wrappedShares u.
Proof.
  intros (i & kek & wrapped & Hk & Hw & Hr).
  exists i, kek, wrapped. auto using retained_from_mono.
Qed.

Lemma skipn_cons_nth {A} (l : list A) : forall i a rest,
  skipn i l = a :: rest -> nth_error l i = Some a /\ skipn (Datatypes.S i) l = rest.
Proof.
  induction l as [| b l IH]; intros [| i] a rest H; simpl in *; try discriminate.
  - inversion H; subst. split; reflexivity.
  - apply IH in H. exact H.
Qed.

Lemma loop_retained kekInfos keys all :
  forall rest i c defers acc (s : S),
    skipn i all = rest ->
    match run h (Streaming.unwrapAndValidateShares_loop kekInfos keys i rest c defers acc) s with
    | (Returned (_, _, Ok us), _, tr) =>
        exists new, us = (acc ++ new)%list /\ Forall (provenance tr kekInfos all) new
    | _ => True
    end.
Proof.
  induction rest as [| wrapped rest IH]; intros i c defers acc s Hskip;
    cbn [Streaming.unwrapAndValidateShares_loop].
  - cbn. exists []. rewrite app_nil_r. split; [reflexivity | constructor].
  - destruct (nth_error kekInfos i) as [kek |] eqn:Hkek; [| exact I].
    apply skipn_cons_nth in Hskip. destruct Hskip as [Hnth Hskip].
    rewrite run_bind.
    pose proof (body_retained c keys i wrapped kek s) as Hbody.
    destruct (run h (Streaming.unwrapAndValidateShares_body c keys i wrapped kek) s)
      as [[[[[c1 ds] st] | m] s1] t1]; [| exact I].
    destruct st as [| u | err]; cbn.
    + specialize (IH (Datatypes.S i) c1 (ds ++ defers)%list acc s1 Hskip).
      destruct (run h _ s1) as [[[[[c2 d2] [us | e]] | m] s2] t2]; try exact I.
      destruct IH as (new & Hus & Hall). exists new. split; [exact Hus |].
      eapply Forall_impl; [| exact Hall].
      intros u Hu. apply (provenance_mono t1 t2 []) in Hu.
      rewrite app_nil_r in Hu. exact Hu.
    + specialize (IH (Datatypes.S i) c1 (ds ++ defers)%list (acc ++ [u])%list s1 Hskip).
      destruct (run h _ s1) as [[[[[c2 d2] [us | e]] | m] s2] t2]; try exact I.
      destruct IH as (new & Hus & Hall). exists (u :: new).
      split; [rewrite Hus, <- app_assoc; reflexivity |].
      constructor.
      * apply (provenance_mono [] t1 t2). exists i, kek, wrapped. auto.
      * eapply Forall_impl; [| exact Hall].
        intros u' Hu. apply (provenance_mono t1 t2 []) in Hu.
        rewrite app_nil_r in Hu. exact Hu.
    + exact I.
Qed.

Lemma unwrapAndValidateShares_retained c wrappedShares kekInfos keys (s : S) :
  match run h (Streaming.unwrapAndValidateShares c wrappedShares kekInfos keys) s with
  | (Returned (_, Ok us), _, tr) => Forall (provenance tr kekInfos wrappedShares) us
  | _ => True
  end.
Proof.
  unfold Streaming.unwrapAndValidateShares.
  destruct (negb _); [exact I |].
  rewrite run_bind.
  pose proof (loop_retained kekInfos keys wrappedShares wrappedShares 0 c [] [] s eq_refl)
    as Hloop.
  destruct (run h _ s) as [[[[[c1 ds] r] | m] s1] t1]; [| exact I].
  rewrite run_bind.
  destruct (run h (run_deferred ds) s1) as [[[[] | m] s2] t2]; cbn; [| exact I].
  destruct r as [us | e]; [| exact I].
  destruct Hloop as (new & Hus & Hall). cbn in Hus. subst new.
  eapply Forall_impl; [| exact Hall].
  intros u Hu. apply (provenance_mono [] t1 (t2 ++ [])) in Hu. exact Hu.
Qed.

Lemma collect_keyURIs_In us uri :
  In uri (Streaming.collect_keyURIs us) ->
  uri <> "" /\ exists u, In u us /\ URI u = uri.
Proof.
  induction us as [| u us IH]; simpl; [contradiction |].
  destruct (String.eqb_spec (URI u) "") as [He | Hne]; cbn [negb].
  - intros H. destruct (IH H) as (Hn & u' & Hin & Hu). split; [exact Hn |].
    exists u'. auto.
  - intros [<- | H].
    + split; [exact Hne |]. exists u. auto.
    + destruct (IH H) as (Hn & u' & Hin & Hu). split; [exact Hn |].
      exists u'. auto.
Qed.

Lemma Streaming_Decrypt_key_uris c config keys (s : S) c' md s' tr :
  run h (Streaming.Decrypt c (Some config) keys) s = (Returned (c', Ok md), s', tr) ->
  reports_consumed_key_uris h s config md tr.
Proof.
  unfold Streaming.Decrypt, reports_consumed_key_uris. cbn [bind call run].
  destruct (h _ ReadMetadata s) as [[metadata | e] s1]; cbn; [| discriminate].
  destruct (find _ (KeyConfigs config)) as [matching |] eqn:Hfind; [| discriminate].
  apply find_some in Hfind. destruct Hfind as [Hin Heq].
  apply proto_Equal_true in Heq.
  rewrite run_bind.
  pose proof (unwrapAndValidateShares_retained c (Metadata_Shares metadata)
                (KekInfos matching) keys s1) as Hret.
  destruct (run h _ s1) as [[[[c1 [us | e]] | m] s2] t1]; cbn; try discriminate.
  destruct (CombineUnwrappedShares matching us) as [combined | e] eqn:Hc; cbn;
    [| discriminate].
  destruct (MetadataToAAD metadata) as [aad | e]; cbn; [| discriminate].
  destruct (h _ (AeadDecrypt _ _) s2) as [[e |] s3]; cbn; [discriminate |].
  intros H. inversion H; subst. cbn.
  exists metadata, matching, us. rewrite Hc.
  repeat (split; [solve [auto] |]).
  split; [| intros uri Huri; apply collect_keyURIs_In; exact Huri].
  eapply Forall_impl; [| exact Hret].
  intros u Hu.
  apply (provenance_mono [mkCall ReadMetadata (Ok metadata)] t1
           [mkCall (AeadDecrypt (copy_DEK combined) aad) None]) in Hu.
  exact Hu.
Qed.

Lemma Legacy_Decrypt_key_uris c data config keys (s : S) c' d s' tr :
  run h (Legacy.Decrypt c data config keys) s = (Returned (c', Ok d), s', tr) ->
  Legacy.KeyUris d = Legacy.extract_keyURIs config.
Proof.
  unfold Legacy.Decrypt.
  destruct (find _ _) as [matching |]; [| discriminate].
  intros H. apply run_bind_Returned in H.
  destruct H as ([c1 u] & s1 & t1 & t2 & _ & H & _).
  destruct u as [us | e]; [| discriminate].
  cbv zeta in H.
  destruct (match KeySplittingAlgorithm_ matching with
            | KeySplitting_unset => _ | KeyConfig_NoSplit _ => _
            | KeyConfig_Shamir _ => _ end) as [combined | e]; [| discriminate].
  destruct (negb _); [discriminate |].
  destruct (Legacy.metadataToAAD _) as [aad | e]; [| discriminate].
  destruct (aeadDecrypt _ _ _) as [pt | e]; [| discriminate].
  inversion H; subst. reflexivity.
Qed.

End Retained.

(** * Validation of the KeyConfig by the whole-buffer Encrypt *)

Section LegacyEncrypt.
Context {lib : GoLib} {S : Type} (h : Handler S).

Lemma Legacy_Encrypt_valid c plaintext config keys blobID (s : S) c' data s' tr :
  run h (Legacy.Encrypt c plaintext config keys blobID) s
  = (Returned (c', Ok data), s', tr) ->
  exists config0 cfg,
    config = Some config0
    /\ EncryptConfig_KeyConfig config0 = Some cfg
    /\ KeyConfig_valid cfg.
Proof.
  intros H. unfold Legacy.Encrypt in H.
  apply run_bind_Returned in H. destruct H as (bid & s1 & t1 & t2 & _ & H & _).
  apply run_bind_Returned in H. destruct H as (dek & s2 & t3 & t4 & _ & H & _).
  destruct config as [config0 |]; [| discriminate].
  destruct (EncryptConfig_KeyConfig config0) as [cfg |] eqn:Hcfg; [| discriminate].
  apply run_bind_Returned in H. destruct H as (st & s3 & t5 & t6 & Hstage & H & _).
  destruct st as [shares | e]; [| discriminate].
  exists config0, cfg. split; [reflexivity |]. split; [exact Hcfg |].
  unfold KeyConfig_valid.
  change (GetKekInfos (Some cfg)) with (KekInfos cfg) in Hstage.
  destruct (KeySplittingAlgorithm_ cfg) as [| b | sh].
  - discriminate.
  - destruct (Nat.eqb_spec (List.length (KekInfos cfg)) 1) as [He | Hne];
      [exact He | discriminate].
  - destruct (Z.eqb_spec (Z.of_nat (List.length (KekInfos cfg))) (Shares_ sh))
      as [He | Hne]; [| discriminate].
    cbn [negb] in Hstage.
    apply run_bind_Returned in Hstage.
    destruct Hstage as (sp & s4 & t7 & t8 & Hsplit & Hret & _).
    destruct sp as [sps | e]; [| discriminate].
    unfold Legacy.SplitShares in Hsplit.
    destruct ((2 <=? Threshold sh)%Z && (Threshold sh <=? Shares_ sh)%Z
              && (Shares_ sh <=? 255)%Z) eqn:Hb; [| discriminate].
    apply andb_prop in Hb. destruct Hb as [Hb H3].
    apply andb_prop in Hb. destruct Hb as [H1 H2].
    apply Z.leb_le in H1, H2, H3. auto.
Qed.

Lemma Legacy_Encrypt_length_checked_first c plaintext config0 cfg keys blobID (s : S) :
  EncryptConfig_KeyConfig config0 = Some cfg ->
  KekInfos_length_ok cfg = false ->
  no_calls (@is_rand_Read)
    (trace_of h (Legacy.Encrypt c plaintext (Some config0) keys blobID) s)
  /\ exists format args,
       outcome_of h (Legacy.Encrypt c plaintext (Some config0) keys blobID) s
       = Returned (c, Err (Errorf format args))
       /\ String.prefix "invalid Encrypt configuration" format = true.
Proof.
  intros Hcfg Hlen.
  unfold trace_of, outcome_of, Legacy.Encrypt. rewrite Hcfg.
  unfold KekInfos_length_ok in Hlen.
  change (GetKekInfos (Some cfg)) with (KekInfos cfg).
  destruct (KeySplittingAlgorithm_ cfg) as [| b | sh]; [discriminate | |];
    rewrite Hlen; cbn [negb].
  all: destruct (String.eqb blobID ""); cbn.
  all: repeat match goal with
              | |- context [h ?X ?e ?s] => destruct (h X e s) as [? ?]; cbn
              end.
  all: split; [repeat constructor | do 2 eexists; split; reflexivity].
Qed.

End LegacyEncrypt.

(** * A metadata failure ends the unwrap loop *)

Section MetadataFailure.
Context {lib : GoLib} {S : Type} (h : Handler S).

Lemma body_aborts_on_metadata_failure c cl keys i wrapped kek kmsURI (s : S) err :
  Streaming.kmsClient c = Some cl ->
  KekType_ kek = KekInfo_KekUri kmsURI ->
  outcome_of h (Streaming.getKekURIMetadata (Some cl) kek)
    (snd (h _ (glog_Infof "Attempting to unwrap share #%v" [AInt (Z.of_nat i + 1)]) s))
  = Returned (Err err) ->
  outcome_of h (Streaming.unwrapAndValidateShares_body c keys i wrapped kek) s
  = Returned (c, [Some cl],
              Abort (Errorf "Error retrieving KEK Metadata: %v" [AError err])).
Proof.
  intros Hc Hk Hm.
  unfold outcome_of, Streaming.unwrapAndValidateShares_body,
    Streaming.initializeKMSClient in *.
  rewrite Hk, Hc. cbn [bind call run].
  destruct (h _ (glog_Infof _ _) s) as [[] s1]. cbn [snd] in Hm.
  cbn [bind]. rewrite run_bind, ?Hc.
  destruct (run h (Streaming.getKekURIMetadata (Some cl) kek) s1)
    as [[[[kmd | e] | m] s2] t] eqn:Hrun; cbn in Hm; try discriminate.
  inversion Hm; subst. reflexivity.
Qed.

End MetadataFailure.

(** * The properties of the client *)

(** C1.  For every successful [Decrypt] of the streaming client, the
    returned key URIs are the non-empty URIs of the shares that were
    unwrapped, hash-validated and handed to [CombineUnwrappedShares] for
    the reconstruction of the DEK, and of no other share; each such share
    carries the Cloud KMS URI of its KEK when the KEK is SOFTWARE or HSM,
    the external key URI when the KEK is EXTERNAL, and no URI when it was
    unwrapped with an RSA key. *)
Theorem Decrypt_key_uris_are_of_consumed_shares
  {lib : GoLib} {S : Type} (h : Handler S) (s : S)
  (c : Streaming.StetClient) (config : DecryptConfig) (keys : AsymmetricKeys)
  (c' : Streaming.StetClient) (md : Streaming.StetMetadata) (s' : S) (tr : Trace) :
  run h (Streaming.Decrypt c (Some config) keys) s = (Returned (c', Ok md), s', tr) ->
  reports_consumed_key_uris h s config md tr.
Proof. apply Streaming_Decrypt_key_uris. Qed.

Lemma Decrypt_key_uris_are_of_consumed_shares_witness :
  reports_consumed_key_uris (lib := Demo.lib)
    (Demo.scripted (Demo.reading (Demo.blob_of Demo.cfg_mixed))) tt
    {| KeyConfigs := [Demo.cfg_mixed] |}
    {| Streaming.KeyUris := ["gcp-kms://projects/p/keys/software";
                             "https://ekm.example.com/v0/key1"];
       Streaming.BlobID := "blob-1" |}
    (trace_of (Demo.scripted (Demo.reading (Demo.blob_of Demo.cfg_mixed)))
       (Streaming.Decrypt (lib := Demo.lib) Demo.client
          (Some {| KeyConfigs := [Demo.cfg_mixed] |}) Demo.keys) tt).
Proof.
  apply (Decrypt_key_uris_are_of_consumed_shares (lib := Demo.lib)
           (Demo.scripted (Demo.reading (Demo.blob_of Demo.cfg_mixed))) tt
           Demo.client {| KeyConfigs := [Demo.cfg_mixed] |} Demo.keys
           Demo.kms_client _ tt).
  vm_compute. reflexivity.
Defined.

(** C2, at the failing input.  A 2-of-3 blob whose first KEK is a KEK URI
    with a disabled primary version, and whose two other shares are under
    RSA keys that unwrap and validate: [Decrypt] returns the metadata error
    of the first share and attempts no other share.  The same blob under a
    first KEK whose Cloud KMS [Decrypt] is unavailable is decrypted from
    the two RSA shares. *)
Theorem Decrypt_aborts_on_disabled_KEK :
  let env := Demo.scripted (Demo.reading (Demo.blob_of Demo.cfg_disabled_first)) in
  let decrypt := Streaming.Decrypt (lib := Demo.lib) Demo.client
                   (Some {| KeyConfigs := [Demo.cfg_disabled_first] |}) Demo.keys in
  let env' := Demo.scripted (Demo.reading_kms_down (Demo.blob_of Demo.cfg_software_first)) in
  let decrypt' := Streaming.Decrypt (lib := Demo.lib) Demo.client
                    (Some {| KeyConfigs := [Demo.cfg_software_first] |}) Demo.keys in
  outcome_of env decrypt tt
  = Returned
      (Demo.kms_client,
       Err (Errorf "error unwrapping and validating shares: %v"
              [AError
                 (Errorf "Error retrieving KEK Metadata: %v"
                    [AError
                       (Errorf "CryptoKeyVersion for %v is not enabled"
                          [AString "gcp-kms://projects/p/keys/disabled"])])]))
  /\ answers oaep_decrypt (trace_of env decrypt tt) = []
  /\ answers warning (trace_of env decrypt tt) = []
  /\ outcome_of env' decrypt' tt
     = Returned (Demo.kms_client,
                 Ok {| Streaming.KeyUris := []; Streaming.BlobID := "blob-1" |})
  /\ answers warning (trace_of env' decrypt' tt)
     = [("Error unwrapping key share: %v",
         [AError (Errorf "failed to decrypt ciphertext: %v"
                    [AError (Errorf "unavailable" [])])])].
Proof. vm_compute. repeat split; reflexivity. Qed.

(** C3.  When [wrapShares] fails during [Encrypt], [Encrypt] returns an
    error wrapping the underlying one and the run has made no call that
    writes the output stream.  In every run of [Encrypt], either nothing
    is written to the output stream, or every share was wrapped and the
    first write is the container header announcing the length of the
    serialised metadata. *)
Theorem Encrypt_writes_header_after_all_wraps
  {lib : GoLib} {S : Type} (h : Handler S) (s : S)
  (c : Streaming.StetClient) (config : EncryptConfig) (keys : AsymmetricKeys)
  (blobID : string) :
  let keyCfg := EncryptConfig_KeyConfig config in
  (forall dek shares bid s1 pre c2 err s2 wtr,
      run h (Encrypt_prologue config blobID) s
      = (Returned (Ok (dek, shares, bid)), s1, pre) ->
      run h (Streaming.wrapShares c shares (GetKekInfos keyCfg) keys) s1
      = (Returned (c2, Err err), s2, wtr) ->
      run h (Streaming.Encrypt c (Some config) keys blobID) s
      = (Returned (c2, Err (Errorf "error wrapping shares: %v" [AError err])), s2,
         (pre ++ wtr)%list)
      /\ no_calls (@writes_output) (pre ++ wtr)%list)
  /\ (let tr := trace_of h (Streaming.Encrypt c (Some config) keys blobID) s in
      no_calls (@writes_output) tr
      \/ exists dek shares bid s1 pre c2 ws uris s2 wtr metadataBytes ans post,
           run h (Encrypt_prologue config blobID) s
           = (Returned (Ok (dek, shares, bid)), s1, pre)
           /\ run h (Streaming.wrapShares c shares (GetKekInfos keyCfg) keys) s1
              = (Returned (c2, Ok (ws, uris)), s2, wtr)
           /\ List.length ws = List.length (GetKekInfos keyCfg)
           /\ proto_Marshal {| BlobId := bid; Metadata_KeyConfig := keyCfg;
                               Metadata_Shares := ws |} = Ok metadataBytes
           /\ tr = (pre ++ wtr
                    ++ mkCall (WriteSTETHeader (List.length metadataBytes)) ans :: post)%list
           /\ no_calls (@writes_output) (pre ++ wtr)%list).
Proof.
  split.
  - intros. eapply Encrypt_wrap_failure; eassumption.
  - apply Encrypt_header_after_wraps.
Qed.

Lemma Encrypt_writes_header_after_all_wraps_witness :
  no_calls (@writes_output)
    (trace_of (Demo.scripted Demo.honest)
       (Streaming.Encrypt (lib := Demo.lib) Demo.client
          (Some {| EncryptConfig_KeyConfig := Some Demo.cfg_disabled_first |})
          Demo.keys "") tt)
  /\ exists c2 err,
       outcome_of (Demo.scripted Demo.honest)
         (Streaming.Encrypt (lib := Demo.lib) Demo.client
            (Some {| EncryptConfig_KeyConfig := Some Demo.cfg_disabled_first |})
            Demo.keys "") tt
       = Returned (c2, Err (Errorf "error wrapping shares: %v" [AError err])).
Proof.
  destruct (proj1 (Encrypt_writes_header_after_all_wraps (lib := Demo.lib)
                     (Demo.scripted Demo.honest) tt Demo.client
                     {| EncryptConfig_KeyConfig := Some Demo.cfg_disabled_first |}
                     Demo.keys "")
              (repeat x2a DEKBytes)
              [repeat x2a DEKBytes; repeat x2a DEKBytes; repeat x2a DEKBytes]
              "123e4567-e89b-42d3-a456-426614174000" tt _ _ _ tt _
              eq_refl eq_refl) as [Hrun Hquiet].
  unfold trace_of, outcome_of. rewrite Hrun. split; [exact Hquiet |].
  eexists _, _. reflexivity.
Defined.

(** C4, as stated, fails: against a key manager that refuses the
    confidential wrap, the wrap is attempted and no [EndSession] call is
    made. *)
Lemma failed_confidential_op_is_not_torn_down :
  ~ torn_down_exactly_once
      (trace_of (Demo.scripted Demo.session_op_fails)
         (Streaming.ekmSecureSessionWrap (lib := Demo.lib) Demo.client Demo.share1
            Demo.external_kmd) tt).
Proof.
  intros H. assert (Hattempted : answers session_op
      (trace_of (Demo.scripted Demo.session_op_fails)
         (Streaming.ekmSecureSessionWrap (lib := Demo.lib) Demo.client Demo.share1
            Demo.external_kmd) tt) <> []) by (vm_compute; discriminate).
  specialize (H Hattempted). vm_compute in H. discriminate.
Qed.

(** C4, amended.  In every run of a secure-session wrap or unwrap, of
    either revision of the client, at most one confidential operation is
    made; when it succeeds, the run ends with exactly one [EndSession]
    call, on the session the operation was made on; when it fails, or is
    never reached, no [EndSession] call is made. *)
Theorem EndSession_follows_successful_op
  {lib : GoLib} {S : Type} (h : Handler S) (s : S)
  (c : Streaming.StetClient) (c0 : Legacy.StetClient) (share : bytes)
  (md : kekMetadata) :
  teardown (trace_of h (Streaming.ekmSecureSessionWrap c share md) s)
  /\ teardown (trace_of h (Streaming.ekmSecureSessionUnwrap c share md) s)
  /\ teardown (trace_of h (Legacy.ekmSecureSessionWrap c0 share md) s)
  /\ teardown (trace_of h (Legacy.ekmSecureSessionUnwrap c0 share md) s).
Proof.
  split; [| split; [| split]].
  - apply Streaming_wrap_teardown.
  - apply Streaming_unwrap_teardown.
  - apply Legacy_wrap_teardown.
  - apply Legacy_unwrap_teardown.
Qed.

(** C5, as stated, fails: against a key manager that serves the wrap and
    then fails [EndSession], the wrapped share is not returned and nothing
    is logged. *)
Lemma EndSession_failure_is_not_a_warning :
  ~ on_run end_failure_is_warning (Demo.scripted Demo.end_session_fails)
      (Streaming.ekmSecureSessionWrap (lib := Demo.lib) Demo.client Demo.share1
         Demo.external_kmd) tt.
Proof.
  intros H.
  destruct (H (SecureSession 1) Demo.share1 (Errorf "deadline exceeded" [])
              eq_refl eq_refl) as [Hout _].
  vm_compute in Hout. discriminate.
Qed.

(** C5, amended.  In every run of a secure-session wrap or unwrap, of
    either revision of the client, when [EndSession] fails after the
    confidential operation succeeded, the result of the operation is
    dropped: the run returns the error "error ending secure session"
    wrapping the [EndSession] error, and logs no warning. *)
Theorem EndSession_failure_is_returned
  {lib : GoLib} {S : Type} (h : Handler S) (s : S)
  (c : Streaming.StetClient) (c0 : Legacy.StetClient) (share : bytes)
  (md : kekMetadata) :
  on_run end_failure_is_error h (Streaming.ekmSecureSessionWrap c share md) s
  /\ on_run end_failure_is_error h (Streaming.ekmSecureSessionUnwrap c share md) s
  /\ on_run end_failure_is_error h (Legacy.ekmSecureSessionWrap c0 share md) s
  /\ on_run end_failure_is_error h (Legacy.ekmSecureSessionUnwrap c0 share md) s.
Proof.
  split; [| split; [| split]].
  - apply Streaming_wrap_end_failure.
  - apply Streaming_unwrap_end_failure.
  - apply Legacy_wrap_end_failure.
  - apply Legacy_unwrap_end_failure.
Qed.

Lemma EndSession_failure_is_returned_witness :
  outcome_of (Demo.scripted Demo.end_session_fails)
    (Streaming.ekmSecureSessionWrap (lib := Demo.lib) Demo.client Demo.share1
       Demo.external_kmd) tt
  = Returned (Err (Errorf "error ending secure session: %v"
                     [AError (Errorf "deadline exceeded" [])]))
  /\ answers warning
       (trace_of (Demo.scripted Demo.end_session_fails)
          (Streaming.ekmSecureSessionWrap (lib := Demo.lib) Demo.client Demo.share1
             Demo.external_kmd) tt) = [].
Proof.
  apply (proj1 (EndSession_failure_is_returned (lib := Demo.lib)
                  (Demo.scripted Demo.end_session_fails) tt Demo.client
                  Demo.legacy_client Demo.share1 Demo.external_kmd)
           (SecureSession 1) Demo.share1 (Errorf "deadline exceeded" []));
    reflexivity.
Defined.

(** C6, as stated, fails on the unwrap path: against a Cloud KMS that
    verifies no request checksum, the unwrap returns the plaintext. *)
Lemma unwrap_does_not_assert_request_verified :
  ~ asserts_request_verified Demo.unverifying_kms
      (Streaming.unwrapKMSShare Demo.kms_client Demo.share1 "projects/p/keys/software") 0.
Proof.
  intros H. destruct (H eq_refl) as [e He]. vm_compute in He. discriminate.
Qed.

(** C6, amended.  A Cloud KMS wrap sends the CRC32C of the share with the
    request, and succeeds exactly when the response reports the request
    checksum verified and declares the CRC32C of the returned ciphertext;
    an unverified request and a wrong response checksum are each an error.
    A Cloud KMS unwrap sends the CRC32C of the wrapped share with the
    request, and succeeds exactly when the response declares the CRC32C of
    the returned plaintext; a wrong response checksum is an error.  The
    Decrypt response carries no flag for the request checksum, and the
    unwrap asserts none.  This holds for both revisions of the client. *)
Theorem KMS_checksum_guards
  {S : Type} (h : Handler S) (s : S) (cl : cloudKMSClient)
  (c : Streaming.StetClient) (payload : bytes) (keyName : string) :
  kms_wrap_guarded h s cl payload keyName
    (Streaming.wrapKMSShare (Streaming.set_kmsClient c (Some cl)) payload keyName)
  /\ kms_unwrap_guarded h s cl payload keyName
       (Streaming.unwrapKMSShare (Streaming.set_kmsClient c (Some cl)) payload keyName)
  /\ kms_wrap_guarded h s cl payload keyName
       (Legacy.wrapKMSShare (Some cl) payload keyName)
  /\ kms_unwrap_guarded h s cl payload keyName
       (Legacy.unwrapKMSShare (Some cl) payload keyName).
Proof.
  split; [| split; [| split]].
  - apply wrap_program_guarded. reflexivity.
  - apply unwrap_program_guarded. reflexivity.
  - apply wrap_program_guarded. reflexivity.
  - apply unwrap_program_guarded. reflexivity.
Qed.

Lemma KMS_checksum_guards_witness :
  outcome_of Demo.unverifying_kms
    (Streaming.wrapKMSShare Demo.kms_client Demo.share1 "projects/p/keys/software") 0
  = Returned (Err (Errorf "Encrypt: request corrupted in-transit" []))
  /\ outcome_of (Demo.scripted Demo.honest)
       (Streaming.unwrapKMSShare Demo.kms_client Demo.share1 "projects/p/keys/software") tt
     = Returned (Ok Demo.share1).
Proof.
  split.
  - destruct (proj1 (KMS_checksum_guards Demo.unverifying_kms 0 (KMSClient 0)
                       Demo.client Demo.share1 "projects/p/keys/software"))
      as (_ & _ & Hunverified & _).
    eapply Hunverified; reflexivity.
  - destruct (proj1 (proj2 (KMS_checksum_guards (Demo.scripted Demo.honest) tt
                              (KMSClient 0) Demo.client Demo.share1
                              "projects/p/keys/software")))
      as (_ & Hok & _).
    apply Hok. eexists. repeat split; reflexivity.
Defined.

(** C7.  Resolving a KEK URI succeeds exactly when the URI begins with
    [gcp-kms://], Cloud KMS returns the key, the primary version is
    ENABLED and its protection level is not UNSPECIFIED and, for level
    EXTERNAL, the version carries external protection level options; the
    URI recorded is then the external key URI for EXTERNAL and the Cloud
    KMS URI for every other level, SOFTWARE and HSM among them.  The
    whole-buffer client resolves a KEK URI by the same program. *)
Theorem KekUri_resolution
  {S : Type} (h : Handler S) (s : S) (cl : cloudKMSClient)
  (kek : KekInfo) :
  (forall kmd,
      outcome_of h (Streaming.getKekURIMetadata (Some cl) kek) s = Returned (Ok kmd)
      <->
      exists uri0 ver,
        KekType_ kek = KekInfo_KekUri uri0
        /\ HasPrefix uri0 gcpKeyPrefix = true
        /\ fst (h _ (GetCryptoKey cl (TrimPrefix uri0 gcpKeyPrefix)) s)
           = Ok {| Primary := Some ver |}
        /\ State ver = ENABLED
        /\ ProtectionLevel_ ver <> PROTECTION_LEVEL_UNSPECIFIED
        /\ protectionLevel kmd = ProtectionLevel_ ver
        /\ resourceName kmd = TrimPrefix uri0 gcpKeyPrefix
        /\ (ProtectionLevel_ ver = EXTERNAL ->
            exists opts, ExternalProtectionLevelOptions_ ver = Some opts
                         /\ uri kmd = ExternalKeyUri opts)
        /\ (ProtectionLevel_ ver <> EXTERNAL -> uri kmd = uri0))
  /\ (forall uri0,
        KekType_ kek = KekInfo_KekUri uri0 ->
        Legacy.protectionLevelsAndUris_body (Some cl) kek
        = Streaming.getKekURIMetadata (Some cl) kek).
Proof.
  split.
  - intros kmd. apply getKekURIMetadata_resolves.
  - intros uri0. apply protectionLevelsAndUris_body_of_uri.
Qed.

Lemma KekUri_resolution_witness :
  outcome_of (Demo.scripted Demo.honest)
    (Streaming.getKekURIMetadata (Some (KMSClient 0)) Demo.kek_external) tt
  = Returned (Ok Demo.external_kmd)
  /\ exists uri0 ver,
       KekType_ Demo.kek_external = KekInfo_KekUri uri0
       /\ HasPrefix uri0 gcpKeyPrefix = true
       /\ fst (Demo.scripted Demo.honest _
                 (GetCryptoKey (KMSClient 0) (TrimPrefix uri0 gcpKeyPrefix)) tt)
          = Ok {| Primary := Some ver |}
       /\ State ver = ENABLED
       /\ ProtectionLevel_ ver <> PROTECTION_LEVEL_UNSPECIFIED
       /\ protectionLevel Demo.external_kmd = ProtectionLevel_ ver
       /\ resourceName Demo.external_kmd = TrimPrefix uri0 gcpKeyPrefix
       /\ (ProtectionLevel_ ver = EXTERNAL ->
           exists opts, ExternalProtectionLevelOptions_ ver = Some opts
                        /\ uri Demo.external_kmd = ExternalKeyUri opts)
       /\ (ProtectionLevel_ ver <> EXTERNAL ->
           uri Demo.external_kmd = uri0).
Proof.
  split; [reflexivity |].
  apply (proj1 (proj1 (KekUri_resolution (Demo.scripted Demo.honest) tt (KMSClient 0)
                         Demo.kek_external) Demo.external_kmd)).
  reflexivity.
Defined.



(** C9.  A successful [Encrypt] of the whole-buffer client had a valid
    KeyConfig: one KekInfo under [NoSplit]; under Shamir with [shares = n]
    and [threshold = k], [n] KekInfos and [2 <= k <= n <= 255].  The
    number of KekInfos is checked before the DEK is split: when it is
    wrong, [Encrypt] returns an "invalid Encrypt configuration" error and
    no random coefficient has been drawn. *)
Theorem Legacy_Encrypt_validates_KeyConfig
  {lib : GoLib} {S : Type} (h : Handler S) (s : S)
  (c : Legacy.StetClient) (plaintext : bytes) (keys : AsymmetricKeys)
  (blobID : string) :
  (forall config c' data s' tr,
      run h (Legacy.Encrypt c plaintext config keys blobID) s
      = (Returned (c', Ok data), s', tr) ->
      exists config0 cfg,
        config = Some config0
        /\ EncryptConfig_KeyConfig config0 = Some cfg
        /\ KeyConfig_valid cfg)
  /\ (forall config0 cfg,
        EncryptConfig_KeyConfig config0 = Some cfg ->
        KekInfos_length_ok cfg = false ->
        no_calls (@is_rand_Read)
          (trace_of h (Legacy.Encrypt c plaintext (Some config0) keys blobID) s)
        /\ exists format args,
             outcome_of h (Legacy.Encrypt c plaintext (Some config0) keys blobID) s
             = Returned (c, Err (Errorf format args))
             /\ String.prefix "invalid Encrypt configuration" format = true).
Proof.
  split.
  - intros config c' data s' tr H. eapply Legacy_Encrypt_valid. exact H.
  - intros config0 cfg Hcfg Hlen.
    apply (Legacy_Encrypt_length_checked_first h c plaintext config0 cfg); assumption.
Qed.

Lemma Legacy_Encrypt_validates_KeyConfig_witness :
  KeyConfig_valid Demo.cfg_kms_only
  /\ succeeded
       (outcome_of (Demo.scripted Demo.honest)
          (Legacy.Encrypt (lib := Demo.lib) Demo.legacy_client [x68; x69]
             (Some {| EncryptConfig_KeyConfig := Some Demo.cfg_kms_only |}) Demo.keys "") tt)
     = true.
Proof.
  assert (Hs : succeeded
       (outcome_of (Demo.scripted Demo.honest)
          (Legacy.Encrypt (lib := Demo.lib) Demo.legacy_client [x68; x69]
             (Some {| EncryptConfig_KeyConfig := Some Demo.cfg_kms_only |}) Demo.keys "") tt)
     = true) by (vm_compute; reflexivity).
  split; [| exact Hs].
  unfold outcome_of in Hs.
  destruct (run (Demo.scripted Demo.honest)
              (Legacy.Encrypt (lib := Demo.lib) Demo.legacy_client [x68; x69]
                 (Some {| EncryptConfig_KeyConfig := Some Demo.cfg_kms_only |}) Demo.keys "") tt)
    as [[o s'] tr] eqn:Hrun.
  destruct (succeeded_inv o Hs) as (c' & data & ->).
  destruct (proj1 (Legacy_Encrypt_validates_KeyConfig (lib := Demo.lib)
                     (Demo.scripted Demo.honest) tt Demo.legacy_client [x68; x69]
                     Demo.keys "")
              (Some {| EncryptConfig_KeyConfig := Some Demo.cfg_kms_only |})
              c' data s' tr Hrun) as (config0 & cfg & Hc & Hk & Hv).
  inversion Hc; subst config0. cbn in Hk. inversion Hk; subst cfg. exact Hv.
Defined.

(** C10.  [Encrypt] with a nil EncryptConfig and [Decrypt] with a nil
    DecryptConfig return their error at once: the run makes no call, so
    the input stream is not read and nothing is written to the output
    stream, and the environment is left as it was. *)
Theorem nil_config_returns_immediately
  {lib : GoLib} {S : Type} (h : Handler S) (s : S)
  (c : Streaming.StetClient) (keys : AsymmetricKeys) (blobID : string) :
  run h (Streaming.Encrypt c None keys blobID) s
  = (Returned (c, Err (Errorf "nil EncryptConfig passed to Encrypt()" [])), s, [])
  /\ run h (Streaming.Decrypt c None keys) s
     = (Returned (c, Err (Errorf "nil DecryptConfig passed to Decrypt()" [])), s, []).
Proof. split; reflexivity. Qed.

(** * Further properties of the client *)

(** ** The checksum *)

Section Uint32.
Local Open Scope Z_scope.

Lemma uint32_log2 x : 0 <= x -> (x < 2 ^ 32 <-> Z.log2 x < 32).
Proof.
  intros Hx. destruct (Z.eq_dec x 0) as [-> | Hne].
  - cbn. split; intros _; lia.
  - apply Z.log2_lt_pow2. lia.
Qed.

Lemma uint32_lxor a b : uint32 a -> uint32 b -> uint32 (Z.lxor a b).
Proof.
  unfold uint32. intros [Ha Ha'] [Hb Hb'].
  assert (Hn : 0 <= Z.lxor a b) by (apply Z.lxor_nonneg; tauto).
  split; [exact Hn |]. apply uint32_log2; [exact Hn |].
  apply uint32_log2 in Ha', Hb'; try assumption.
  pose proof (Z.log2_lxor a b Ha Hb). lia.
Qed.

Lemma uint32_shiftr a k : uint32 a -> 0 <= k -> uint32 (Z.shiftr a k).
Proof.
  unfold uint32. intros [Ha Ha'] Hk. split; [apply Z.shiftr_nonneg; exact Ha |].
  rewrite Z.shiftr_div_pow2 by exact Hk.
  assert (0 < 2 ^ k) by (apply Z.pow_pos_nonneg; lia).
  apply Z.le_lt_trans with a; [| exact Ha'].
  apply Z.div_le_upper_bound; [lia | nia].
Qed.

Lemma uint32_land_ff x : 0 <= x -> uint32 (Z.land x 0xff).
Proof.
  unfold uint32. intros Hx.
  assert (Hn : 0 <= Z.land x 0xff) by (apply Z.land_nonneg; lia).
  split; [exact Hn |]. apply uint32_log2; [exact Hn |].
  pose proof (Z.log2_land x 0xff Hx ltac:(lia)) as Hl.
  change (Z.log2 0xff) with 7 in Hl. lia.
Qed.

Lemma uint32_populate rounds poly crc :
  uint32 poly -> uint32 crc -> uint32 (crc32.populate rounds poly crc).
Proof.
  intros Hp. revert crc.
  induction rounds as [| r IH]; intros crc Hc; cbn [crc32.populate].
  - exact Hc.
  - apply IH. destruct (Z.testbit crc 0).
    + apply uint32_lxor; [apply uint32_shiftr; [exact Hc | lia] | exact Hp].
    + apply uint32_shiftr; [exact Hc | lia].
Qed.

Lemma uint32_Castagnoli : uint32 crc32.Castagnoli.
Proof. unfold uint32, crc32.Castagnoli. lia. Qed.

Lemma uint32_fold tab p : forall crc,
  (forall i, uint32 i -> uint32 (tab i)) ->
  uint32 crc ->
  uint32 (fold_left
            (fun crc v =>
               Z.lxor (tab (Z.land (Z.lxor crc (Z.of_N (Byte.to_N v))) 0xff))
                      (Z.shiftr crc 8)) p crc).
Proof.
  induction p as [| v p IH]; intros crc Ht Hc; simpl; [exact Hc |].
  apply IH; [exact Ht |].
  apply uint32_lxor; [| apply uint32_shiftr; [exact Hc | lia]].
  apply Ht, uint32_land_ff. apply Z.lxor_nonneg.
  destruct Hc as [Hc _]. split; intros _; [apply N2Z.is_nonneg | exact Hc].
Qed.

End Uint32.

(** X1.  The CRC32C of any byte string is an unsigned 32-bit value: the
    checksum sent as an [int64] with a Cloud KMS request is never negative
    and never exceeds [2^32 - 1]; the checksum of the empty string is 0. *)
Theorem crc32c_is_uint32 (data : bytes) :
  (0 <= crc32c data < 2 ^ 32)%Z /\ crc32c [] = 0%Z.
Proof.
  split; [| reflexivity].
  change (uint32 (crc32c data)).
  unfold crc32c, crc32.Checksum, crc32.update, crc32.uint32_not.
  cbv zeta.
  assert (Hff : uint32 0xffffffff) by (unfold uint32; lia).
  apply uint32_lxor; [| exact Hff].
  apply uint32_fold.
  - intros i Hi. apply uint32_populate; [apply uint32_Castagnoli | exact Hi].
  - apply uint32_lxor; [unfold uint32; lia | exact Hff].
Qed.

(** ** The Cloud KMS client of a StetClient *)

(** X2.  [initializeKMSClient] creates the Cloud KMS client at most once.
    With the client set it makes no call and changes nothing.  With the
    client unset it makes one call, [kms.NewKeyManagementClient] with the
    user agent "STET/" followed by the version ("dev" when the version is
    empty), and reports its error; whether or not the creation succeeded,
    the client field is set afterwards, so that a second
    [initializeKMSClient] makes no call and reports no error. *)
Theorem initializeKMSClient_creates_once
  {S : Type} (h : Handler S) (s : S) (c : Streaming.StetClient) :
  (Streaming.kmsClient c <> None ->
   run h (Streaming.initializeKMSClient c) s = (Returned (c, None), s, []))
  /\ (Streaming.kmsClient c = None ->
      exists answer c' s',
        run h (Streaming.initializeKMSClient c) s
        = (Returned (c', match answer with
                         | Ok _ => None
                         | Err err => Some (Errorf "error creating KMS client: %v"
                                              [AError err])
                         end), s',
           [mkCall (NewKeyManagementClient
                      [WithUserAgent (user_agent (Streaming.Version c))]) answer])
        /\ Streaming.kmsClient c' <> None
        /\ run h (Streaming.initializeKMSClient c') s' = (Returned (c', None), s', [])).
Proof.
  unfold Streaming.initializeKMSClient, user_agent. split.
  - destruct (Streaming.kmsClient c); [reflexivity | congruence].
  - intros ->. cbn [bind call run].
    replace (if String.eqb (Streaming.Version c) "" then "STET/" ++ "dev"
             else "STET/" ++ Streaming.Version c)
      with ("STET/" ++ (if String.eqb (Streaming.Version c) "" then "dev"
                        else Streaming.Version c))
      by (destruct (String.eqb (Streaming.Version c) ""); reflexivity).
    destruct (h _ (NewKeyManagementClient _) s) as [[cl | err] s1]; cbn.
    + eexists (Ok cl), _, s1. repeat split; discriminate.
    + eexists (Err err), _, s1. repeat split; discriminate.
Qed.

Lemma initializeKMSClient_creates_once_witness :
  exists answer c' s',
    run (Demo.scripted Demo.honest) (Streaming.initializeKMSClient Demo.client) tt
    = (Returned (c', match answer with
                     | Ok _ => None
                     | Err err => Some (Errorf "error creating KMS client: %v"
                                          [AError err])
                     end), s',
       [mkCall (NewKeyManagementClient [WithUserAgent "STET/dev"]) answer])
    /\ Streaming.kmsClient c' <> None
    /\ run (Demo.scripted Demo.honest) (Streaming.initializeKMSClient c') s'
       = (Returned (c', None), s', []).
Proof.
  apply (proj2 (initializeKMSClient_creates_once (Demo.scripted Demo.honest) tt
                  Demo.client)).
  reflexivity.
Defined.

(** ** Wrapping the shares *)

Ltac trek h :=
  repeat (cbn -[crc32c TrimPrefix HasPrefix gcpKeyPrefix];
          match goal with
          | |- context [h ?X ?e ?s] => destruct (h X e s) as [? ?]
          | |- context [match ?x with _ => _ end] => is_var x; destruct x
          | |- context [negb ?x] => is_var x; destruct x
          | |- context [GetPrimary ?a] => is_var a; destruct a
          | |- context [ProtectionLevel_ ?a] => is_var a; destruct a
          | |- context [DecryptResponse_PlaintextCrc32C ?a] => is_var a; destruct a
          | |- context [EncryptResponse_VerifiedPlaintextCrc32C ?a] =>
              is_var a; destruct a
          | |- context [Z.eqb ?a ?b] => destruct (Z.eqb a b) eqn:?
          | |- context [ValidateShare ?a ?b] => destruct (ValidateShare a b) eqn:?
          | |- context [HasPrefix ?a ?b] => destruct (HasPrefix a b) eqn:?
          | |- context [url_Parse ?a] => destruct (url_Parse a) eqn:?
          end).

Ltac unfold_streaming :=
  unfold Streaming.wrapShares_body, Streaming.unwrapAndValidateShares_body,
    Streaming.initializeKMSClient, Streaming.getKekURIMetadata,
    Streaming.wrapKMSShare, Streaming.unwrapKMSShare,
    Streaming.ekmSecureSessionWrap, Streaming.ekmSecureSessionUnwrap,
    Streaming.obtain_ekmClient, Streaming.parseEKMKeyURI,
    Streaming.validate_and_retain, Streaming.warn_and_continue, kms_method,
    GetKekUri.

Section WrapShares.
Context {lib : GoLib} {S : Type} (h : Handler S).

Lemma wrapShares_body_shape c keys share kek (s : S) :
  match run h (Streaming.wrapShares_body c keys share kek) s with
  | (Returned (_, _, Ok (w, us)), _, _) =>
      Hash w = HashShare share
      /\ List.length us = if is_KekUri kek then 1 else 0
  | _ => True
  end.
Proof.
  unfold is_KekUri. unfold_streaming.
  destruct (KekType_ kek) as [| fp | kmsURI] eqn:Hkek.
  - exact I.
  - trek h; try exact I; split; reflexivity.
  - destruct c as [kc fc skip ver]; cbn [Streaming.kmsClient].
    trek h; try exact I.
    all: split; reflexivity.
Qed.

Lemma skipn_nth_cons {A} (l : list A) : forall i a,
  nth_error l i = Some a -> skipn i l = a :: skipn (Datatypes.S i) l.
Proof.
  induction l as [| b l IH]; intros [| i] a H; simpl in *; try discriminate.
  - inversion H; reflexivity.
  - apply IH. exact H.
Qed.

Lemma wrapShares_loop_shape kekInfos keys shares :
  forall i c defers ws uris (s : S) c' defers' ws' uris' s' tr,
    run h (Streaming.wrapShares_loop kekInfos keys i shares c defers ws uris) s
    = (Returned (c', defers', Ok (ws', uris')), s', tr) ->
    map Hash ws' = (map Hash ws ++ map HashShare shares)%list
    /\ List.length uris'
       = List.length uris
         + List.length (filter is_KekUri
                          (firstn (List.length shares) (skipn i kekInfos))).
Proof.
  induction shares as [| share rest IH]; intros * H;
    cbn [Streaming.wrapShares_loop] in H.
  - inversion H; subst. cbn. rewrite app_nil_r. split; [reflexivity | lia].
  - destruct (nth_error kekInfos i) as [kek |] eqn:Hkek; [| discriminate].
    apply run_bind_Returned in H.
    destruct H as ([[c1 ds] r] & s1 & t1 & t2 & Hbody & H & _).
    pose proof (wrapShares_body_shape c keys share kek s) as Hshape.
    rewrite Hbody in Hshape.
    destruct r as [[w us] | err]; [| discriminate].
    destruct Hshape as [Hhash Hlen].
    apply IH in H. destruct H as [Hws Huris].
    rewrite (skipn_nth_cons _ _ _ Hkek). cbn [List.length firstn filter].
    split.
    + rewrite Hws, map_app, <- app_assoc. cbn. rewrite Hhash. reflexivity.
    + rewrite Huris, length_app, Hlen.
      destruct (is_KekUri kek); cbn [List.length]; lia.
Qed.

End WrapShares.

(** X3.  When [wrapShares] succeeds it returns one wrapped share per share,
    in the order of the shares, and the hash stored with each wrapped share
    is [HashShare] of the share at its position. *)
Theorem wrapShares_binds_hashes_by_position
  {lib : GoLib} {S : Type} (h : Handler S) (s : S)
  (c : Streaming.StetClient) (shares : list bytes) (kekInfos : list KekInfo)
  (keys : AsymmetricKeys) c' ws uris s' tr :
  run h (Streaming.wrapShares c shares kekInfos keys) s
  = (Returned (c', Ok (ws, uris)), s', tr) ->
  List.length ws = List.length shares
  /\ List.length shares = List.length kekInfos
  /\ map Hash ws = map HashShare shares.
Proof.
  unfold Streaming.wrapShares.
  destruct (Nat.eqb_spec (List.length shares) (List.length kekInfos)) as [Hl | Hl];
    cbn [negb]; [| discriminate].
  intros H. apply run_bind_Returned in H.
  destruct H as ([[c1 ds] r] & s1 & t1 & t2 & Hloop & H & _).
  apply run_bind_Returned in H.
  destruct H as (u & s2 & t3 & t4 & _ & H & _).
  inversion H; subst.
  apply wrapShares_loop_shape in Hloop. destruct Hloop as [Hws _].
  cbn in Hws. split; [| split; [exact Hl | exact Hws]].
  rewrite <- (length_map Hash), Hws, length_map. reflexivity.
Qed.

Lemma wrapShares_binds_hashes_by_position_witness :
  List.length Demo.three_shares = 3
  /\ 3 = List.length (KekInfos Demo.cfg_mixed)
  /\ map Hash Demo.three_shares
     = map (HashShare (GoLib := Demo.lib)) [[x0a]; [x0b]; [x0c]].
Proof.
  apply (wrapShares_binds_hashes_by_position (lib := Demo.lib)
           (Demo.scripted Demo.honest) tt Demo.client
           [[x0a]; [x0b]; [x0c]] (KekInfos Demo.cfg_mixed) Demo.keys
           Demo.kms_client Demo.three_shares
           ["gcp-kms://projects/p/keys/software"; "https://ekm.example.com/v0/key1"]
           tt
           (trace_of (Demo.scripted Demo.honest)
              (Streaming.wrapShares (lib := Demo.lib) Demo.client
                 [[x0a]; [x0b]; [x0c]] (KekInfos Demo.cfg_mixed) Demo.keys) tt)).
  vm_compute. reflexivity.
Defined.

(** X4.  When [wrapShares] succeeds, the key URIs it returns number exactly
    the KekInfos that name a KEK URI: each share wrapped through Cloud KMS
    or the external key manager adds one URI, a share wrapped under an RSA
    key adds none. *)
Theorem wrapShares_reports_one_URI_per_KEK_URI
  {lib : GoLib} {S : Type} (h : Handler S) (s : S)
  (c : Streaming.StetClient) (shares : list bytes) (kekInfos : list KekInfo)
  (keys : AsymmetricKeys) c' ws uris s' tr :
  run h (Streaming.wrapShares c shares kekInfos keys) s
  = (Returned (c', Ok (ws, uris)), s', tr) ->
  List.length uris = List.length (filter is_KekUri kekInfos).
Proof.
  unfold Streaming.wrapShares.
  destruct (Nat.eqb_spec (List.length shares) (List.length kekInfos)) as [Hl | Hl];
    cbn [negb]; [| discriminate].
  intros H. apply run_bind_Returned in H.
  destruct H as ([[c1 ds] r] & s1 & t1 & t2 & Hloop & H & _).
  apply run_bind_Returned in H.
  destruct H as (u & s2 & t3 & t4 & _ & H & _).
  inversion H; subst.
  apply wrapShares_loop_shape in Hloop. destruct Hloop as [_ Huris].
  cbn in Huris. rewrite Hl, firstn_all in Huris. exact Huris.
Qed.

Lemma wrapShares_reports_one_URI_per_KEK_URI_witness :
  List.length ["gcp-kms://projects/p/keys/software"; "https://ekm.example.com/v0/key1"]
  = List.length (filter is_KekUri (KekInfos Demo.cfg_mixed)).
Proof.
  apply (wrapShares_reports_one_URI_per_KEK_URI (lib := Demo.lib)
           (Demo.scripted Demo.honest) tt Demo.client
           [[x0a]; [x0b]; [x0c]] (KekInfos Demo.cfg_mixed) Demo.keys
           Demo.kms_client Demo.three_shares
           ["gcp-kms://projects/p/keys/software"; "https://ekm.example.com/v0/key1"]
           tt
           (trace_of (Demo.scripted Demo.honest)
              (Streaming.wrapShares (lib := Demo.lib) Demo.client
                 [[x0a]; [x0b]; [x0c]] (KekInfos Demo.cfg_mixed) Demo.keys) tt)).
  vm_compute. reflexivity.
Defined.

(** ** Releasing the Cloud KMS client *)

Section Closing.
Context {lib : GoLib} {S : Type} (h : Handler S).

Ltac keeps_client :=
  unfold iteration_keeps_client; cbn;
  repeat match goal with
         | |- _ /\ _ => split
         | |- no_calls _ _ => repeat constructor
         | |- Forall _ _ => repeat constructor; discriminate
         | |- _ -> _ => intros ?
         | |- _ <> _ => first [discriminate | assumption | congruence]
         end.

Lemma wrapShares_body_keeps_client c keys share kek (s : S) :
  match run h (Streaming.wrapShares_body c keys share kek) s with
  | (Returned (c1, ds, _), _, t) => iteration_keeps_client c c1 ds t
  | _ => True
  end.
Proof.
  unfold_streaming.
  destruct (KekType_ kek) as [| fp | kmsURI] eqn:Hkek.
  - keeps_client.
  - trek h; try exact I; keeps_client.
  - destruct c as [kc fc skip ver]; cbn [Streaming.kmsClient].
    trek h; try exact I; keeps_client.
Qed.

Lemma unwrap_body_keeps_client c keys i wrapped kek (s : S) :
  match run h (Streaming.unwrapAndValidateShares_body c keys i wrapped kek) s with
  | (Returned (c1, ds, _), _, t) => iteration_keeps_client c c1 ds t
  | _ => True
  end.
Proof.
  unfold_streaming.
  destruct (KekType_ kek) as [| fp | kmsURI] eqn:Hkek.
  - trek h; keeps_client.
  - trek h; try exact I; keeps_client.
  - destruct c as [kc fc skip ver]; cbn [Streaming.kmsClient].
    trek h; try exact I; keeps_client.
Qed.

Lemma keeps_client_compose c c1 c2 ds1 ds2 t1 t2 :
  iteration_keeps_client c c1 ds1 t1 ->
  iteration_keeps_client c1 c2 ds2 t2 ->
  iteration_keeps_client c c2 (ds2 ++ ds1)%list (t1 ++ t2)%list.
Proof.
  intros (Hn1 & Hd1 & Hk1 & Hg1) (Hn2 & Hd2 & Hk2 & Hg2).
  unfold iteration_keeps_client. repeat split.
  - apply no_calls_app; auto.
  - apply Forall_app; auto.
  - auto.
  - rewrite answers_app in H.
    destruct (answers get_crypto_key t1) eqn:E1.
    + destruct (Hg2 H) as [Hne _]. destruct ds2; [congruence | discriminate].
    + destruct Hg1 as [Hne _]; [discriminate |].
      destruct ds1; [congruence |]. destruct ds2; discriminate.
  - rewrite answers_app in H.
    destruct (answers get_crypto_key t1) eqn:E1.
    + apply Hg2, H.
    + apply Hk2, Hg1. discriminate.
Qed.

Lemma keeps_client_refl c : iteration_keeps_client c c [] [].
Proof.
  unfold iteration_keeps_client. repeat split; try constructor; auto;
    intros H; cbn in H; congruence.
Qed.

Lemma wrapShares_loop_keeps_client kekInfos keys shares :
  forall i c defers ws uris (s : S),
    match run h (Streaming.wrapShares_loop kekInfos keys i shares c defers ws uris) s with
    | (Returned (c', defers', _), _, t) =>
        exists ds, defers' = (ds ++ defers)%list /\ iteration_keeps_client c c' ds t
    | _ => True
    end.
Proof.
  induction shares as [| share rest IH]; intros; cbn [Streaming.wrapShares_loop].
  - cbn. exists []. split; [reflexivity | apply keeps_client_refl].
  - destruct (nth_error kekInfos i) as [kek |]; [| exact I].
    rewrite run_bind.
    pose proof (wrapShares_body_keeps_client c keys share kek s) as Hbody.
    destruct (run h (Streaming.wrapShares_body c keys share kek) s)
      as [[[[[c1 ds] r] | m] s1] t1]; [| exact I].
    destruct r as [[w us] | err]; cbn.
    + specialize (IH (Datatypes.S i) c1 (ds ++ defers)%list (ws ++ [w])%list
                     (uris ++ us)%list s1).
      destruct (run h _ s1) as [[[[[c2 d2] r2] | m] s2] t2]; [| exact I].
      destruct IH as (ds2 & -> & Hk). exists (ds2 ++ ds)%list.
      split; [rewrite app_assoc; reflexivity |].
      eapply keeps_client_compose; eassumption.
    + exists ds. rewrite app_nil_r. split; [reflexivity | exact Hbody].
Qed.

Lemma unwrap_loop_keeps_client kekInfos keys wrappedShares :
  forall i c defers us (s : S),
    match run h (Streaming.unwrapAndValidateShares_loop kekInfos keys i wrappedShares
                   c defers us) s with
    | (Returned (c', defers', _), _, t) =>
        exists ds, defers' = (ds ++ defers)%list /\ iteration_keeps_client c c' ds t
    | _ => True
    end.
Proof.
  induction wrappedShares as [| wrapped rest IH]; intros;
    cbn [Streaming.unwrapAndValidateShares_loop].
  - cbn. exists []. split; [reflexivity | apply keeps_client_refl].
  - destruct (nth_error kekInfos i) as [kek |]; [| exact I].
    rewrite run_bind.
    pose proof (unwrap_body_keeps_client c keys i wrapped kek s) as Hbody.
    destruct (run h (Streaming.unwrapAndValidateShares_body c keys i wrapped kek) s)
      as [[[[[c1 ds] st] | m] s1] t1]; [| exact I].
    destruct st as [| u | err]; cbn.
    + specialize (IH (Datatypes.S i) c1 (ds ++ defers)%list us s1).
      destruct (run h _ s1) as [[[[[c2 d2] r2] | m] s2] t2]; [| exact I].
      destruct IH as (ds2 & -> & Hk). exists (ds2 ++ ds)%list.
      split; [rewrite app_assoc; reflexivity |].
      eapply keeps_client_compose; eassumption.
    + specialize (IH (Datatypes.S i) c1 (ds ++ defers)%list (us ++ [u])%list s1).
      destruct (run h _ s1) as [[[[[c2 d2] r2] | m] s2] t2]; [| exact I].
      destruct IH as (ds2 & -> & Hk). exists (ds2 ++ ds)%list.
      split; [rewrite app_assoc; reflexivity |].
      eapply keeps_client_compose; eassumption.
    + exists ds. rewrite app_nil_r. split; [reflexivity | exact Hbody].
Qed.

Lemma run_deferred_closes defers : forall (s : S),
  Forall (fun d => d <> None) defers ->
  exists s' closes,
    run h (run_deferred defers) s = (Returned tt, s', closes)
    /\ Forall (fun c => is_KmsClose (call_event c) = true) closes
    /\ List.length closes = List.length defers.
Proof.
  induction defers as [| d rest IH]; intros s Hd; cbn [run_deferred].
  - exists s, []. repeat split; constructor.
  - inversion Hd as [| d0 rest0 Hd0 Hrest]; subst.
    destruct d as [cl |]; [| congruence]. cbn [kms_method bind call run].
    destruct (h _ (KmsClose cl) s) as [x s1].
    destruct (IH s1 Hrest) as (s' & closes & Hrun & Hall & Hlen).
    rewrite Hrun. eexists s', _. split; [reflexivity |].
    split; [constructor; [reflexivity | exact Hall] | cbn; lia].
Qed.

Lemma loop_then_close {A} (loop : prog (Streaming.StetClient
                                         * list (option cloudKMSClient) * result A))
      c (s : S) c' r s' tr :
  (match run h loop s with
   | (Returned (c1, defers', _), _, t) =>
       exists ds, defers' = (ds ++ [])%list /\ iteration_keeps_client c c1 ds t
   | _ => True
   end) ->
  run h (bind loop (fun x => let '(c1, defers, r) := x in
                             bind (run_deferred defers) (fun _ => Ret (c1, r)))) s
  = (Returned (c', r), s', tr) ->
  closes_at_return (Streaming.kmsClient c') tr.
Proof.
  intros Hloop H. apply run_bind_Returned in H.
  destruct H as ([[c1 defers] r1] & s1 & t1 & t2 & Hrun & H & ->).
  rewrite Hrun in Hloop. destruct Hloop as (ds & -> & Hn & Hd & Hk & Hg).
  rewrite app_nil_r in H.
  destruct (run_deferred_closes ds s1 Hd) as (s2 & closes & Hclose & Hall & Hlen).
  rewrite run_bind, Hclose in H. cbn in H. inversion H; subst.
  exists t1, closes. rewrite app_nil_r.
  repeat split; auto.
  - destruct (Hg H0) as [Hne _]. destruct ds; [congruence |].
    destruct closes; [discriminate | discriminate].
  - apply Hg, H0.
Qed.

End Closing.

(** X5.  [wrapShares] and [unwrapAndValidateShares] release the Cloud KMS
    client only on their way out: in every run that returns, all [Close]
    calls come after every other call; and when Cloud KMS was asked for a
    key, the client is closed at least once while the StetClient keeps it
    in its [kmsClient] field, where [initializeKMSClient] finds it set. *)
Theorem kms_client_closed_at_return
  {lib : GoLib} {S : Type} (h : Handler S) (s : S)
  (c : Streaming.StetClient) (kekInfos : list KekInfo) (keys : AsymmetricKeys) :
  (forall shares c' r s' tr,
      run h (Streaming.wrapShares c shares kekInfos keys) s = (Returned (c', r), s', tr) ->
      closes_at_return (Streaming.kmsClient c') tr)
  /\ (forall wrappedShares c' r s' tr,
        run h (Streaming.unwrapAndValidateShares c wrappedShares kekInfos keys) s
        = (Returned (c', r), s', tr) ->
        closes_at_return (Streaming.kmsClient c') tr).
Proof.
  split.
  - intros shares c' r s' tr. unfold Streaming.wrapShares.
    destruct (negb _).
    + intros H. inversion H; subst. exists [], [].
      split; [reflexivity |]. split; [constructor |]. split; [constructor |].
      intros Hc; cbn in Hc; congruence.
    + apply (loop_then_close h _ c).
      pose proof (wrapShares_loop_keeps_client h kekInfos keys shares 0 c [] [] [] s) as Hl.
      destruct (run h _ s) as [[[[[c1 d1] r1] | m] s1] t1]; [exact Hl | exact I].
  - intros wrappedShares c' r s' tr. unfold Streaming.unwrapAndValidateShares.
    destruct (negb _).
    + intros H. inversion H; subst. exists [], [].
      split; [reflexivity |]. split; [constructor |]. split; [constructor |].
      intros Hc; cbn in Hc; congruence.
    + apply (loop_then_close h _ c).
      pose proof (unwrap_loop_keeps_client h kekInfos keys wrappedShares 0 c [] [] s) as Hl.
      destruct (run h _ s) as [[[[[c1 d1] r1] | m] s1] t1]; [exact Hl | exact I].
Qed.

Lemma kms_client_closed_at_return_witness :
  closes_at_return (Streaming.kmsClient Demo.kms_client)
    (trace_of (Demo.scripted Demo.honest)
       (Streaming.wrapShares (lib := Demo.lib) Demo.client
          [[x0a]; [x0b]; [x0c]] (KekInfos Demo.cfg_mixed) Demo.keys) tt).
Proof.
  apply (proj1 (kms_client_closed_at_return (lib := Demo.lib)
                  (Demo.scripted Demo.honest) tt Demo.client
                  (KekInfos Demo.cfg_mixed) Demo.keys)
           [[x0a]; [x0b]; [x0c]] Demo.kms_client
           (Ok (Demo.three_shares,
                ["gcp-kms://projects/p/keys/software";
                 "https://ekm.example.com/v0/key1"])) tt).
  vm_compute. reflexivity.
Defined.

(** ** The order of the unwrapped shares *)

Section InOrderFacts.
Context {lib : GoLib} {S : Type} (h : Handler S).

Lemma increasing_from_weaken lo lo' positions :
  lo' <= lo -> increasing_from lo positions -> increasing_from lo' positions.
Proof. destruct positions as [| i rest]; simpl; [auto |]. intros ? [? ?]. split; [lia | auto]. Qed.

Lemma retained_at_mono pre tr post kekInfos wrappedShares i u :
  retained_at tr kekInfos wrappedShares i u ->
  retained_at (pre ++ tr ++ post)%list kekInfos wrappedShares i u.
Proof.
  intros (kek & wrapped & Hk & Hw & Hr). exists kek, wrapped.
  auto using retained_from_mono.
Qed.

Lemma loop_in_order kekInfos keys all :
  forall rest i c defers acc (s : S),
    skipn i all = rest ->
    match run h (Streaming.unwrapAndValidateShares_loop kekInfos keys i rest c defers acc) s with
    | (Returned (_, _, Ok us), _, tr) =>
        exists new positions,
          us = (acc ++ new)%list
          /\ increasing_from i positions
          /\ Forall2 (retained_at tr kekInfos all) positions new
    | _ => True
    end.
Proof.
  induction rest as [| wrapped rest IH]; intros i c defers acc s Hskip;
    cbn [Streaming.unwrapAndValidateShares_loop].
  - cbn. exists [], []. rewrite app_nil_r. repeat split; constructor.
  - destruct (nth_error kekInfos i) as [kek |] eqn:Hkek; [| exact I].
    apply skipn_cons_nth in Hskip. destruct Hskip as [Hnth Hskip].
    rewrite run_bind.
    pose proof (body_retained h c keys i wrapped kek s) as Hbody.
    destruct (run h (Streaming.unwrapAndValidateShares_body c keys i wrapped kek) s)
      as [[[[[c1 ds] st] | m] s1] t1]; [| exact I].
    destruct st as [| u | err]; cbn.
    + specialize (IH (Datatypes.S i) c1 (ds ++ defers)%list acc s1 Hskip).
      destruct (run h _ s1) as [[[[[c2 d2] [us | e]] | m] s2] t2]; try exact I.
      destruct IH as (new & positions & Hus & Hinc & Hall).
      exists new, positions. split; [exact Hus |].
      split; [apply (increasing_from_weaken (Datatypes.S i)); [lia | exact Hinc] |].
      eapply Forall2_impl; [| exact Hall].
      intros j u Hu. apply (retained_at_mono t1 t2 []) in Hu.
      rewrite app_nil_r in Hu. exact Hu.
    + specialize (IH (Datatypes.S i) c1 (ds ++ defers)%list (acc ++ [u])%list s1 Hskip).
      destruct (run h _ s1) as [[[[[c2 d2] [us | e]] | m] s2] t2]; try exact I.
      destruct IH as (new & positions & Hus & Hinc & Hall).
      exists (u :: new), (i :: positions).
      split; [rewrite Hus, <- app_assoc; reflexivity |].
      split; [split; [lia | exact Hinc] |].
      constructor.
      * apply (retained_at_mono [] t1 t2). exists kek, wrapped. auto.
      * eapply Forall2_impl; [| exact Hall].
        intros j u' Hu. apply (retained_at_mono t1 t2 []) in Hu.
        rewrite app_nil_r in Hu. exact Hu.
    + exact I.
Qed.

End InOrderFacts.

(** X6.  The shares returned by [unwrapAndValidateShares] come from
    strictly increasing positions of the blob: each one was unwrapped from
    the wrapped share at its position under the KekInfo at the same
    position, passed [ValidateShare] against the hash stored at that
    position, and no position contributes twice or out of order. *)
Theorem unwrapAndValidateShares_keeps_positional_order
  {lib : GoLib} {S : Type} (h : Handler S) (s : S)
  (c : Streaming.StetClient) (wrappedShares : list WrappedShare)
  (kekInfos : list KekInfo) (keys : AsymmetricKeys) c' us s' tr :
  run h (Streaming.unwrapAndValidateShares c wrappedShares kekInfos keys) s
  = (Returned (c', Ok us), s', tr) ->
  retained_in_order tr kekInfos wrappedShares us
  /\ List.length us <= List.length wrappedShares.
Proof.
  unfold Streaming.unwrapAndValidateShares.
  destruct (negb _); [discriminate |].
  intros H. apply run_bind_Returned in H.
  destruct H as ([[c1 ds] r] & s1 & t1 & t2 & Hloop & H & ->).
  apply run_bind_Returned in H.
  destruct H as (u & s2 & t3 & t4 & _ & H & ->).
  inversion H; subst.
  pose proof (loop_in_order h kekInfos keys wrappedShares wrappedShares 0 c [] [] s eq_refl)
    as Hl.
  rewrite Hloop in Hl. destruct Hl as (new & positions & Hus & Hinc & Hall).
  cbn in Hus. subst new.
  assert (Hbound : forall lo ps (l : list UnwrappedShare),
             increasing_from lo ps ->
             Forall2 (retained_at t1 kekInfos wrappedShares) ps l ->
             lo + List.length l <= List.length wrappedShares \/ l = []).
  { intros lo ps l Hi Hf. revert lo Hi.
    induction Hf as [| j u0 ps0 l0 Hu Hf IH]; intros lo Hi; [right; reflexivity |].
    left. destruct Hi as [Hlo Hi]. cbn [List.length].
    destruct (IH _ Hi) as [Hb | ->].
    - lia.
    - destruct Hu as (kek & wrapped & _ & Hw & _).
      assert (j < List.length wrappedShares)
        by (apply nth_error_Some; congruence).
      cbn. lia. }
  split.
  - exists positions. split; [exact Hinc |].
    eapply Forall2_impl; [| exact Hall].
    intros j u0 Hu. apply (retained_at_mono [] t1 (t3 ++ [])) in Hu. exact Hu.
  - destruct (Hbound 0 positions us Hinc Hall) as [Hb | ->]; cbn; lia.
Qed.

Lemma unwrapAndValidateShares_keeps_positional_order_witness :
  retained_in_order (lib := Demo.lib)
    (trace_of (Demo.scripted Demo.honest)
       (Streaming.unwrapAndValidateShares (lib := Demo.lib) Demo.client
          Demo.three_shares (KekInfos Demo.cfg_mixed) Demo.keys) tt)
    (KekInfos Demo.cfg_mixed) Demo.three_shares
    [ {| UnwrappedShare_Share := [x0a]; URI := "gcp-kms://projects/p/keys/software" |};
      {| UnwrappedShare_Share := [x0b]; URI := "https://ekm.example.com/v0/key1" |};
      {| UnwrappedShare_Share := [x0c]; URI := "" |} ]
  /\ 3 <= List.length Demo.three_shares.
Proof.
  apply (unwrapAndValidateShares_keeps_positional_order (lib := Demo.lib)
           (Demo.scripted Demo.honest) tt Demo.client Demo.three_shares
           (KekInfos Demo.cfg_mixed) Demo.keys Demo.kms_client
           [ {| UnwrappedShare_Share := [x0a];
                URI := "gcp-kms://projects/p/keys/software" |};
             {| UnwrappedShare_Share := [x0b];
                URI := "https://ekm.example.com/v0/key1" |};
             {| UnwrappedShare_Share := [x0c]; URI := "" |} ] tt
           (trace_of (Demo.scripted Demo.honest)
              (Streaming.unwrapAndValidateShares (lib := Demo.lib) Demo.client
                 Demo.three_shares (KekInfos Demo.cfg_mixed) Demo.keys) tt)).
  vm_compute. reflexivity.
Defined.

(** ** The failures of the unwrap loop *)

Section UnwrapFailures.
Context {lib : GoLib} {S : Type} (h : Handler S).

Lemma unwrap_body_abort c keys i wrapped kek (s : S) :
  match run h (Streaming.unwrapAndValidateShares_body c keys i wrapped kek) s with
  | (Returned (_, _, Abort e), _, t) =>
      is_KekUri kek = true
      /\ answers warning t = []
      /\ exists e0, e = Errorf "Error retrieving KEK Metadata: %v" [AError e0]
  | _ => True
  end.
Proof.
  unfold is_KekUri. unfold_streaming.
  destruct (KekType_ kek) as [| fp | kmsURI] eqn:Hkek.
  - trek h; exact I.
  - trek h; exact I.
  - destruct c as [kc fc skip ver]; cbn [Streaming.kmsClient].
    trek h; try exact I.
    all: split; [reflexivity | split; [reflexivity | eexists; reflexivity]].
Qed.

Lemma unwrap_loop_abort kekInfos keys wrappedShares :
  forall i c defers us (s : S) c' defers' e s' tr,
    run h (Streaming.unwrapAndValidateShares_loop kekInfos keys i wrappedShares
             c defers us) s
    = (Returned (c', defers', Err e), s', tr) ->
    (exists kek, In kek kekInfos /\ is_KekUri kek = true)
    /\ exists e0, e = Errorf "Error retrieving KEK Metadata: %v" [AError e0].
Proof.
  induction wrappedShares as [| wrapped rest IH]; intros * H;
    cbn [Streaming.unwrapAndValidateShares_loop] in H.
  - discriminate.
  - destruct (nth_error kekInfos i) as [kek |] eqn:Hkek; [| discriminate].
    apply run_bind_Returned in H.
    destruct H as ([[c1 ds] st] & s1 & t1 & t2 & Hbody & H & _).
    pose proof (unwrap_body_abort c keys i wrapped kek s) as Hab.
    rewrite Hbody in Hab.
    destruct st as [| u | err].
    + eapply IH; exact H.
    + eapply IH; exact H.
    + inversion H; subst. destruct Hab as (Hk & _ & He).
      split; [| exact He]. exists kek. split; [| exact Hk].
      eapply nth_error_In; exact Hkek.
Qed.

Lemma unwrap_body_local c keys i wrapped kek (s : S) :
  is_KekUri kek = false ->
  match run h (Streaming.unwrapAndValidateShares_body c keys i wrapped kek) s with
  | (Returned (c1, ds, st), _, t) =>
      c1 = c /\ ds = [] /\ (forall e, st <> Abort e) /\ no_calls (@is_remote) t
  | (Panicked _, _, _) => False
  end.
Proof.
  unfold is_KekUri. unfold_streaming.
  destruct (KekType_ kek) as [| fp | kmsURI] eqn:Hkek; [| | discriminate]; intros _.
  - trek h. repeat split; try discriminate. repeat constructor.
  - trek h.
    all: split; [reflexivity |]; split; [reflexivity |];
      split; [discriminate | repeat constructor].
Qed.

Lemma unwrap_loop_local kekInfos keys wrappedShares :
  Forall (fun kek => is_KekUri kek = false) kekInfos ->
  forall i c defers acc (s : S),
    i + List.length wrappedShares <= List.length kekInfos ->
    exists us s' t,
      run h (Streaming.unwrapAndValidateShares_loop kekInfos keys i wrappedShares
               c defers acc) s
      = (Returned (c, defers, Ok us), s', t)
      /\ no_calls (@is_remote) t.
Proof.
  intros Hrsa.
  induction wrappedShares as [| wrapped rest IH]; intros i c defers acc s Hlen;
    cbn [Streaming.unwrapAndValidateShares_loop].
  - exists acc, s, []. split; [reflexivity | constructor].
  - cbn [List.length] in Hlen.
    destruct (nth_error kekInfos i) as [kek |] eqn:Hkek.
    2:{ apply nth_error_None in Hkek. lia. }
    assert (Hk : is_KekUri kek = false).
    { rewrite Forall_forall in Hrsa. apply Hrsa. eapply nth_error_In; exact Hkek. }
    rewrite run_bind.
    pose proof (unwrap_body_local c keys i wrapped kek s Hk) as Hbody.
    destruct (run h (Streaming.unwrapAndValidateShares_body c keys i wrapped kek) s)
      as [[[[[c1 ds] st] | m] s1] t1]; [| contradiction].
    destruct Hbody as (-> & -> & Hst & Hq). cbn [app].
    destruct st as [| u | err]; [| | exfalso; eapply Hst; reflexivity].
    + destruct (IH (Datatypes.S i) c defers acc s1 ltac:(lia)) as (us & s' & t & Hrun & Ht).
      rewrite Hrun. exists us, s', (t1 ++ t)%list.
      split; [reflexivity | apply no_calls_app; auto].
    + destruct (IH (Datatypes.S i) c defers (acc ++ [u])%list s1 ltac:(lia))
        as (us & s' & t & Hrun & Ht).
      rewrite Hrun. exists us, s', (t1 ++ t)%list.
      split; [reflexivity | apply no_calls_app; auto].
Qed.

End UnwrapFailures.

(** X7.  [unwrapAndValidateShares] returns an error in two cases only:
    the numbers of wrapped shares and of KekInfos differ, and then no call
    was made; or the metadata of a KEK URI could not be retrieved, and
    then the error is "Error retrieving KEK Metadata" around the cause.
    No failure of an RSA key, of a Cloud KMS decryption, of the external
    key manager or of a hash check makes it return an error. *)
Theorem unwrapAndValidateShares_errors
  {lib : GoLib} {S : Type} (h : Handler S) (s : S)
  (c : Streaming.StetClient) (wrappedShares : list WrappedShare)
  (kekInfos : list KekInfo) (keys : AsymmetricKeys) c' e s' tr :
  run h (Streaming.unwrapAndValidateShares c wrappedShares kekInfos keys) s
  = (Returned (c', Err e), s', tr) ->
  (List.length wrappedShares <> List.length kekInfos
   /\ tr = [] /\ c' = c /\ s' = s
   /\ e = Errorf "number of shares to unwrap (%d) does not match number of KEKs (%d)"
            [AInt (Z.of_nat (List.length wrappedShares));
             AInt (Z.of_nat (List.length kekInfos))])
  \/ (List.length wrappedShares = List.length kekInfos
      /\ (exists kek, In kek kekInfos /\ is_KekUri kek = true)
      /\ exists e0, e = Errorf "Error retrieving KEK Metadata: %v" [AError e0]).
Proof.
  unfold Streaming.unwrapAndValidateShares.
  destruct (Nat.eqb_spec (List.length wrappedShares) (List.length kekInfos)) as [Hl | Hl];
    cbn [negb].
  - intros H. right. split; [exact Hl |].
    apply run_bind_Returned in H.
    destruct H as ([[c1 ds] r] & s1 & t1 & t2 & Hloop & H & _).
    apply run_bind_Returned in H.
    destruct H as (u & s2 & t3 & t4 & _ & H & _).
    inversion H; subst.
    eapply unwrap_loop_abort; exact Hloop.
  - intros H. inversion H; subst. left. auto.
Qed.

Lemma unwrapAndValidateShares_errors_witness :
  exists kek, In kek (KekInfos Demo.cfg_disabled_first) /\ is_KekUri kek = true.
Proof.
  destruct (unwrapAndValidateShares_errors (lib := Demo.lib)
              (Demo.scripted Demo.honest) tt Demo.client Demo.three_shares
              (KekInfos Demo.cfg_disabled_first) Demo.keys Demo.kms_client
              (Errorf "Error retrieving KEK Metadata: %v"
                 [AError (Errorf "CryptoKeyVersion for %v is not enabled"
                            [AString "gcp-kms://projects/p/keys/disabled"])])
              tt
              (trace_of (Demo.scripted Demo.honest)
                 (Streaming.unwrapAndValidateShares (lib := Demo.lib) Demo.client
                    Demo.three_shares (KekInfos Demo.cfg_disabled_first) Demo.keys) tt))
    as [(Hne & _) | (_ & Hkek & _)].
  - vm_compute. reflexivity.
  - exfalso. apply Hne. reflexivity.
  - exact Hkek.
Defined.

(** X8.  When no KekInfo names a KEK URI and there is one KekInfo per
    wrapped share, [unwrapAndValidateShares] never fails and never leaves
    the machine: it returns the shares it could unwrap and validate, leaves
    the StetClient as it was, and makes no call to Cloud KMS, to the token
    issuer or to the external key manager. *)
Theorem unwrapAndValidateShares_without_KEK_URI_is_local
  {lib : GoLib} {S : Type} (h : Handler S) (s : S)
  (c : Streaming.StetClient) (wrappedShares : list WrappedShare)
  (kekInfos : list KekInfo) (keys : AsymmetricKeys) :
  Forall (fun kek => is_KekUri kek = false) kekInfos ->
  List.length wrappedShares = List.length kekInfos ->
  exists us s' tr,
    run h (Streaming.unwrapAndValidateShares c wrappedShares kekInfos keys) s
    = (Returned (c, Ok us), s', tr)
    /\ no_calls (@is_remote) tr.
Proof.
  intros Hrsa Hlen. unfold Streaming.unwrapAndValidateShares.
  rewrite Hlen, Nat.eqb_refl. cbn [negb].
  destruct (unwrap_loop_local h kekInfos keys wrappedShares Hrsa 0 c [] [] s)
    as (us & s' & t & Hrun & Ht); [lia |].
  rewrite run_bind, Hrun. cbn. exists us, s', (t ++ [])%list.
  split; [reflexivity |]. rewrite app_nil_r. exact Ht.
Qed.

Lemma unwrapAndValidateShares_without_KEK_URI_is_local_witness :
  exists us s' tr,
    run (Demo.scripted Demo.honest)
      (Streaming.unwrapAndValidateShares (lib := Demo.lib) Demo.client
         Demo.three_shares [Demo.kek_rsaA; Demo.kek_rsaB; Demo.kek_rsaA] Demo.keys) tt
    = (Returned (Demo.client, Ok us), s', tr)
    /\ no_calls (@is_remote) tr.
Proof.
  apply (unwrapAndValidateShares_without_KEK_URI_is_local (lib := Demo.lib)).
  - repeat constructor.
  - reflexivity.
Defined.

(** ** A successful Encrypt *)

Section EncryptSuccess.
Context {lib : GoLib} {S : Type} (h : Handler S).

Lemma Encrypt_after_prologue c config keys dek shares bid (s1 : S) c' md s' t :
  run h
    (bind (Streaming.wrapShares c shares (GetKekInfos (EncryptConfig_KeyConfig config)) keys)
       (fun x => let '(c0, w) := x in
          match w with
          | Ok (wrappedShares, keyURIs) =>
              match MetadataToAAD {| BlobId := bid;
                      Metadata_KeyConfig := EncryptConfig_KeyConfig config;
                      Metadata_Shares := wrappedShares |} with
              | Ok aad =>
                  match proto_Marshal {| BlobId := bid;
                          Metadata_KeyConfig := EncryptConfig_KeyConfig config;
                          Metadata_Shares := wrappedShares |} with
                  | Ok metadataBytes =>
                      Vis (WriteSTETHeader (List.length metadataBytes))
                        (fun x0 =>
                           match x0 with
                           | Some err =>
                               Ret (c0, Err (Errorf "failed to write encrypted file header: %v" [AError err]))
                           | None =>
                               Vis (output_Write metadataBytes)
                                 (fun x1 =>
                                    match x1 with
                                    | Some err =>
                                        Ret (c0, Err (Errorf "failed to write metadata: %v" [AError err]))
                                    | None =>
                                        Vis (AeadEncrypt dek aad)
                                          (fun x2 =>
                                             match x2 with
                                             | Some err =>
                                                 Ret (c0, Err (Errorf "error encrypting data: %v" [AError err]))
                                             | None =>
                                                 Ret (c0, Ok {| Streaming.KeyUris := keyURIs;
                                                                Streaming.BlobID := bid |})
                                             end)
                                    end)
                           end)
                  | Err err =>
                      Ret (c0, Err (Errorf "failed to serialize metadata: %v" [AError err]))
                  end
              | Err err =>
                  Ret (c0, Err (Errorf "error serializing metadata: %v" [AError err]))
              end
          | Err err =>
              Ret (c0, Err (Errorf "error wrapping shares: %v" [AError err]))
          end)) s1
  = (Returned (c', Ok md), s', t) ->
  Streaming.BlobID md = bid
  /\ exists ws s2 wtr aad metadataBytes,
       run h (Streaming.wrapShares c shares
                (GetKekInfos (EncryptConfig_KeyConfig config)) keys) s1
       = (Returned (c', Ok (ws, Streaming.KeyUris md)), s2, wtr)
       /\ MetadataToAAD {| BlobId := bid;
                           Metadata_KeyConfig := EncryptConfig_KeyConfig config;
                           Metadata_Shares := ws |} = Ok aad
       /\ proto_Marshal {| BlobId := bid;
                           Metadata_KeyConfig := EncryptConfig_KeyConfig config;
                           Metadata_Shares := ws |} = Ok metadataBytes
       /\ t = (wtr ++ [mkCall (WriteSTETHeader (List.length metadataBytes)) None;
                       mkCall (output_Write metadataBytes) None;
                       mkCall (AeadEncrypt dek aad) None])%list.
Proof.
  intros H. apply run_bind_Returned in H.
  destruct H as ([c0 w] & s2 & wtr & t2 & Hwrap & H & ->).
  destruct w as [[ws uris] | err]; [| discriminate].
  destruct (MetadataToAAD _) as [aad | err] eqn:Haad; [| discriminate].
  destruct (proto_Marshal _) as [metadataBytes | err] eqn:Hm; [| discriminate].
  cbn [run] in H.
  destruct (h _ (WriteSTETHeader _) s2) as [[e |] s3]; [discriminate |].
  cbn [run] in H.
  destruct (h _ (output_Write _) s3) as [[e |] s4]; [discriminate |].
  cbn [run] in H.
  destruct (h _ (AeadEncrypt _ _) s4) as [[e |] s5]; [discriminate |].
  inversion H; subst. cbn. split; [reflexivity |].
  exists ws, s2, wtr, aad, metadataBytes. auto.
Qed.

End EncryptSuccess.

(** X9.  A successful [Encrypt] is the prologue (a fresh DEK, its shares,
    and a fresh UUID only when the caller gave no blob ID), then
    [wrapShares], then exactly three writes that all succeeded: the header
    announcing the length of the marshalled metadata, the marshalled
    metadata, and the AEAD stream under the DEK with the metadata as
    associated data.  The metadata marshalled and authenticated is the one
    holding the returned blob ID, the configured KeyConfig and the wrapped
    shares; the key URIs returned are those of [wrapShares]; a blob ID
    given by the caller is returned unchanged. *)
Theorem Encrypt_success_shape
  {lib : GoLib} {S : Type} (h : Handler S) (s : S)
  (c : Streaming.StetClient) (config : EncryptConfig) (keys : AsymmetricKeys)
  (blobID : string) c' md s' tr :
  run h (Streaming.Encrypt c (Some config) keys blobID) s = (Returned (c', Ok md), s', tr) ->
  successful_Encrypt_shape h s c config keys blobID c' md tr.
Proof.
  unfold successful_Encrypt_shape.
  cbv zeta. unfold Streaming.Encrypt, Encrypt_prologue. cbn [bind call run].
  destruct (h _ NewDEK s) as [dek sa].
  destruct (h _ (CreateDEKShares dek _) sa) as [[shares | e0] sb]; cbn [run];
    [| discriminate].
  destruct (String.eqb_spec blobID "") as [Hb | Hb].
  - cbn [bind call run]. destruct (h _ uuid_NewString sb) as [bid sc]. cbn [run].
    intros H.
    match type of H with
    | context [run h ?p sc] => destruct (run h p sc) as [[o s2] t] eqn:Hrun
    end.
    inversion H; subst.
    destruct (Encrypt_after_prologue h _ _ _ _ _ _ _ _ _ _ _ Hrun)
      as (Hbid & ws & s2 & wtr & aad & mb & Hw & Ha & Hm & ->).
    subst bid. split; [congruence |].
    eexists dek, shares, sc, _, ws, s2, wtr, aad, mb.
    split; [reflexivity |]. auto.
  - cbn [bind run]. intros H.
    match type of H with
    | context [run h ?p sb] => destruct (run h p sb) as [[o s2] t] eqn:Hrun
    end.
    inversion H; subst.
    destruct (Encrypt_after_prologue h _ _ _ _ _ _ _ _ _ _ _ Hrun)
      as (Hbid & ws & s2 & wtr & aad & mb & Hw & Ha & Hm & ->).
    split; [intros _; exact Hbid |].
    rewrite Hbid.
    eexists dek, shares, sb, _, ws, s2, wtr, aad, mb.
    split; [reflexivity |]. auto.
Qed.

Lemma Encrypt_success_shape_witness :
  successful_Encrypt_shape (lib := Demo.lib) (Demo.scripted Demo.honest) tt
    Demo.client {| EncryptConfig_KeyConfig := Some Demo.cfg_mixed |} Demo.keys
    "blob-7" Demo.kms_client
    {| Streaming.KeyUris := ["gcp-kms://projects/p/keys/software";
                             "https://ekm.example.com/v0/key1"];
       Streaming.BlobID := "blob-7" |}
    (trace_of (Demo.scripted Demo.honest)
       (Streaming.Encrypt (lib := Demo.lib) Demo.client
          (Some {| EncryptConfig_KeyConfig := Some Demo.cfg_mixed |}) Demo.keys
          "blob-7") tt).
Proof.
  apply (Encrypt_success_shape (lib := Demo.lib) (Demo.scripted Demo.honest) tt
           Demo.client {| EncryptConfig_KeyConfig := Some Demo.cfg_mixed |} Demo.keys
           "blob-7" Demo.kms_client _ tt).
  vm_compute. reflexivity.
Defined.

(** ** Decrypt and the output stream *)

Section DecryptOutput.
Context {lib : GoLib} {S : Type} (h : Handler S).

Ltac output_free :=
  repeat (cbn [never bind call];
          match goal with
          | |- True => exact I
          | |- _ = false /\ _ => split; [reflexivity |]
          | |- forall _, _ => intros
          | |- never _ (bind _ _) => apply never_bind
          | |- never _ (match ?x with _ => _ end) => destruct x
          | |- never _ (if ?b then _ else _) => destruct b
          end).

Lemma unwrap_body_writes_nothing c keys i wrapped kek :
  never (@writes_output) (Streaming.unwrapAndValidateShares_body c keys i wrapped kek).
Proof.
  unfold Streaming.unwrapAndValidateShares_body, Streaming.validate_and_retain,
    Streaming.warn_and_continue.
  destruct (KekType_ kek); output_free;
    try apply Streaming_initializeKMSClient_quiet;
    try apply Streaming_getKekURIMetadata_quiet;
    try apply Streaming_unwrapKMSShare_quiet;
    try apply Streaming_ekmSecureSessionUnwrap_quiet;
    try apply writes_output_streams; output_free;
    try apply Streaming_unwrapKMSShare_quiet;
    try apply Streaming_ekmSecureSessionUnwrap_quiet;
    try apply writes_output_streams; output_free.
Qed.

Lemma unwrap_loop_writes_nothing kekInfos keys wrappedShares :
  forall i c defers us,
    never (@writes_output)
      (Streaming.unwrapAndValidateShares_loop kekInfos keys i wrappedShares c defers us).
Proof.
  induction wrappedShares as [| wrapped rest IH]; intros;
    cbn [Streaming.unwrapAndValidateShares_loop]; [exact I |].
  destruct (nth_error kekInfos i); [| exact I].
  apply never_bind; [apply unwrap_body_writes_nothing |].
  intros [[c1 ds] [| u | err]]; [apply IH | apply IH | exact I].
Qed.

Lemma unwrapAndValidateShares_writes_nothing c wrappedShares kekInfos keys (s : S) :
  no_calls (@writes_output)
    (trace_of h (Streaming.unwrapAndValidateShares c wrappedShares kekInfos keys) s).
Proof.
  apply never_run. unfold Streaming.unwrapAndValidateShares.
  destruct (negb _); [exact I |].
  apply never_bind; [apply unwrap_loop_writes_nothing |].
  intros [[c1 ds] r]. apply never_bind.
  - apply run_deferred_quiet. exact writes_output_streams.
  - intros; exact I.
Qed.

End DecryptOutput.

(** X10.  [Decrypt] writes to the output stream through one call only, the
    AEAD decryption, which is its last call.  A run that fails before it
    (unreadable metadata, no matching KeyConfig, a failed unwrap loop,
    too few shares to combine, metadata that does not serialise) has
    written nothing.  The AEAD decryption runs under the 32-byte copy of
    the combined shares with the serialised metadata as associated data,
    and [Decrypt] succeeds exactly when it does, returning the blob ID of
    the metadata read. *)
Theorem Decrypt_writes_only_through_AEAD
  {lib : GoLib} {S : Type} (h : Handler S) (s : S)
  (c : Streaming.StetClient) (config : DecryptConfig) (keys : AsymmetricKeys) :
  let tr := trace_of h (Streaming.Decrypt c (Some config) keys) s in
  let out := outcome_of h (Streaming.Decrypt c (Some config) keys) s in
  (no_calls (@writes_output) tr /\ forall c' md, out <> Returned (c', Ok md))
  \/ exists pre metadata matching us combined aad ans c',
       tr = (pre ++ [mkCall (AeadDecrypt (copy_DEK combined) aad) ans])%list
       /\ no_calls (@writes_output) pre
       /\ fst (h _ ReadMetadata s) = Ok metadata
       /\ In matching (KeyConfigs config)
       /\ CombineUnwrappedShares matching us = Ok combined
       /\ MetadataToAAD metadata = Ok aad
       /\ out = Returned
                  (c', match ans with
                       | None => Ok {| Streaming.KeyUris := Streaming.collect_keyURIs us;
                                       Streaming.BlobID := BlobId metadata |}
                       | Some err => Err (Errorf "error decrypting data: %v" [AError err])
                       end).
Proof.
  cbv zeta. unfold trace_of, outcome_of, Streaming.Decrypt. cbn [bind call run].
  destruct (h _ ReadMetadata s) as [[metadata | e] s1]; cbn [fst snd].
  2:{ left. cbn. split; [repeat constructor | discriminate]. }
  destruct (find _ (KeyConfigs config)) as [matching |] eqn:Hfind.
  2:{ left. cbn. split; [repeat constructor | discriminate]. }
  apply find_some in Hfind. destruct Hfind as [Hin _].
  rewrite run_bind.
  pose proof (unwrapAndValidateShares_writes_nothing h c (Metadata_Shares metadata)
                (KekInfos matching) keys s1) as Hq.
  unfold trace_of in Hq.
  destruct (run h (Streaming.unwrapAndValidateShares c (Metadata_Shares metadata)
                     (KekInfos matching) keys) s1)
    as [[[[c1 [us | e]] | m] s2] t1]; cbn in Hq |- *.
  - destruct (CombineUnwrappedShares matching us) as [combined | e] eqn:Hc; cbn.
    2:{ left. rewrite app_nil_r. split; [| discriminate].
        constructor; [reflexivity | exact Hq]. }
    destruct (MetadataToAAD metadata) as [aad | e] eqn:Ha; cbn.
    2:{ left. rewrite app_nil_r. split; [| discriminate].
        constructor; [reflexivity | exact Hq]. }
    destruct (h _ (AeadDecrypt _ _) s2) as [ans s3]. right.
    exists (mkCall ReadMetadata (Ok metadata) :: t1), metadata, matching, us,
      combined, aad, ans, c1.
    split; [destruct ans; reflexivity |].
    split; [constructor; [reflexivity | exact Hq] |].
    repeat (split; [solve [auto] |]).
    destruct ans; reflexivity.
  - left. rewrite app_nil_r. split; [| discriminate].
    constructor; [reflexivity | exact Hq].
  - left. split; [| discriminate]. constructor; [reflexivity | exact Hq].
Qed.

(** ** The calls of a secure session *)

(** X11.  A secure-session wrap or unwrap of the streaming client that
    succeeds made these calls and no other, in this order: unless a
    secure-session client was injected, a token request whose audience is
    the scheme and host name of the key URI, and the establishment of a
    session with the whole key URI, that token and the TLS option of the
    client; then the confidential operation on that session, with the
    last path element of the key URI, the Cloud KMS resource name and the
    payload; then [EndSession] on the same session.  With an injected
    client no token is requested and no session is established. *)
Theorem secure_session_success_calls
  {lib : GoLib} {S : Type} (h : Handler S) (s s' : S) (unwrapping : bool)
  (c : Streaming.StetClient) (payload blob : bytes) (md : kekMetadata)
  (tr : Trace) :
  run h (secure_session unwrapping c payload md) s = (Returned (Ok blob), s', tr) ->
  exists u sess setup,
    url_Parse (uri md) = Ok u
    /\ tr = (setup
             ++ [mkCall (confidential_op unwrapping sess (path_Base (uri md))
                           (resourceName md) payload) (Ok blob);
                 mkCall (EndSession sess) None])%list
    /\ match Streaming.fakeSecureSessionClient c with
       | Some fake => sess = fake /\ setup = []
       | None =>
           exists token,
             setup = [mkCall (GenerateTokenWithAudience
                                (Scheme u ++ "://" ++ Hostname u)) (Ok token);
                      mkCall (EstablishSecureSession (uri md) token
                                [SkipTLSVerify (Streaming.InsecureSkipVerify c)])
                             (Ok sess)]
       end.
Proof.
  unfold secure_session, confidential_op, Streaming.ekmSecureSessionWrap,
    Streaming.ekmSecureSessionUnwrap, Streaming.obtain_ekmClient,
    Streaming.parseEKMKeyURI.
  destruct (url_Parse (uri md)) as [u | e] eqn:Hu;
    [| destruct unwrapping; cbn; discriminate].
  destruct (Streaming.fakeSecureSessionClient c) as [fake |].
  - intros H. exists u, fake, [].
    destruct unwrapping; cbn in H;
      repeat match type of H with
             | context [h ?X ?e ?st] =>
                 let a := fresh "a" in let st' := fresh "st" in
                 destruct (h X e st) as [a st'] eqn:?; cbn in H;
                 try (destruct a; cbn in H; try discriminate)
             end;
      inversion H; subst; auto.
  - intros H.
    destruct unwrapping; cbn in H;
      repeat match type of H with
             | context [h ?X ?e ?st] =>
                 let a := fresh "a" in let st' := fresh "st" in
                 destruct (h X e st) as [a st'] eqn:?; cbn in H;
                 try (destruct a; cbn in H; try discriminate)
             end;
      inversion H; subst; eexists u, _, _; (split; [reflexivity |]);
      (split; [| eexists; reflexivity]); reflexivity.
Qed.

Lemma secure_session_success_calls_witness :
  exists u sess setup,
    url_Parse (GoLib := Demo.lib) (uri Demo.external_kmd) = Ok u
    /\ trace_of (Demo.scripted Demo.honest)
         (secure_session (lib := Demo.lib) true Demo.client Demo.share1
            Demo.external_kmd) tt
       = (setup
          ++ [mkCall (confidential_op true sess
                        (path_Base (GoLib := Demo.lib) (uri Demo.external_kmd))
                        (resourceName Demo.external_kmd) Demo.share1) (Ok Demo.share1);
              mkCall (EndSession sess) None])%list
    /\ match Streaming.fakeSecureSessionClient Demo.client with
       | Some fake => sess = fake /\ setup = []
       | None =>
           exists token,
             setup = [mkCall (GenerateTokenWithAudience
                                (Scheme u ++ "://" ++ Hostname u)) (Ok token);
                      mkCall (EstablishSecureSession (uri Demo.external_kmd) token
                                [SkipTLSVerify
                                   (Streaming.InsecureSkipVerify Demo.client)])
                             (Ok sess)]
       end.
Proof.
  apply (secure_session_success_calls (lib := Demo.lib) (Demo.scripted Demo.honest)
           tt tt true Demo.client Demo.share1 Demo.share1 Demo.external_kmd).
  vm_compute. reflexivity.
Defined.

(** X12.  A secure-session wrap or unwrap of the whole-buffer client that
    succeeds made these calls and no other, in this order: unless a
    secure-session client was injected, a JWT request and the
    establishment of a session; then the confidential operation on that
    session, with the last path element of the key URI, the Cloud KMS
    resource name and the payload; then [EndSession] on the same session.
    The address of the key manager is the scheme and host name of the key
    URI with port 8842; the audience of the JWT is the scheme and host
    name of that address, without the port, and the session is established
    with the host and port of that address, without the scheme, and with
    no option. *)
Theorem legacy_secure_session_success_calls
  {lib : GoLib} {S : Type} (h : Handler S) (s s' : S) (unwrapping : bool)
  (c : Legacy.StetClient) (payload blob : bytes) (md : kekMetadata)
  (tr : Trace) :
  run h (legacy_secure_session unwrapping c payload md) s
  = (Returned (Ok blob), s', tr) ->
  exists u sess setup,
    url_Parse (uri md) = Ok u
    /\ tr = (setup
             ++ [mkCall (confidential_op unwrapping sess (path_Base (uri md))
                           (resourceName md) payload) (Ok blob);
                 mkCall (EndSession sess) None])%list
    /\ match Legacy.fakeSecureSessionClient c with
       | Some fake => sess = fake /\ setup = []
       | None =>
           exists a token,
             url_Parse (Scheme u ++ "://" ++ Hostname u ++ ":" ++ "8842") = Ok a
             /\ setup = [mkCall (GenerateJWT (Scheme a ++ "://" ++ Hostname a))
                                (Ok token);
                         mkCall (EstablishSecureSession (Host a) token []) (Ok sess)]
       end.
Proof.
  unfold legacy_secure_session, confidential_op, Legacy.ekmSecureSessionWrap,
    Legacy.ekmSecureSessionUnwrap, Legacy.obtain_ekmClient,
    Legacy.generateTokenFromEKMAddress, Legacy.removeSchemeFromURL,
    Legacy.parseEKMKeyURI, Legacy.proxyPort.
  destruct (url_Parse (uri md)) as [u | e] eqn:Hu;
    [| destruct unwrapping; cbn; discriminate].
  destruct (Legacy.fakeSecureSessionClient c) as [fake |].
  - intros H. exists u, fake, [].
    destruct unwrapping; cbn in H;
      repeat match type of H with
             | context [h ?X ?e ?st] =>
                 let a := fresh "a" in let st' := fresh "st" in
                 destruct (h X e st) as [a st'] eqn:?; cbn in H;
                 try (destruct a; cbn in H; try discriminate)
             end;
      inversion H; subst; auto.
  - intros H.
    destruct (url_Parse (Scheme u ++ "://" ++ Hostname u ++ ":" ++ "8842"))
      as [a | e] eqn:Ha; [| destruct unwrapping; cbn in H; discriminate].
    destruct unwrapping; cbn in H;
      repeat match type of H with
             | context [h ?X ?e ?st] =>
                 let a := fresh "a" in let st' := fresh "st" in
                 destruct (h X e st) as [a st'] eqn:?; cbn in H;
                 try (destruct a; cbn in H; try discriminate)
             end;
      inversion H; subst; eexists u, _, _; (split; [reflexivity |]);
      (split; [| eexists a, _; split; [exact Ha | reflexivity]]); reflexivity.
Qed.

Lemma legacy_secure_session_success_calls_witness :
  exists u sess setup,
    url_Parse (GoLib := Demo.lib) (uri Demo.external_kmd) = Ok u
    /\ trace_of (Demo.scripted Demo.honest)
         (legacy_secure_session (lib := Demo.lib) false Demo.legacy_client Demo.share1
            Demo.external_kmd) tt
       = (setup
          ++ [mkCall (confidential_op false sess
                        (path_Base (GoLib := Demo.lib) (uri Demo.external_kmd))
                        (resourceName Demo.external_kmd) Demo.share1) (Ok Demo.share1);
              mkCall (EndSession sess) None])%list
    /\ match Legacy.fakeSecureSessionClient Demo.legacy_client with
       | Some fake => sess = fake /\ setup = []
       | None =>
           exists a token,
             url_Parse (GoLib := Demo.lib)
               (Scheme u ++ "://" ++ Hostname u ++ ":" ++ "8842") = Ok a
             /\ setup = [mkCall (GenerateJWT (Scheme a ++ "://" ++ Hostname a))
                                (Ok token);
                         mkCall (EstablishSecureSession (Host a) token []) (Ok sess)]
       end.
Proof.
  apply (legacy_secure_session_success_calls (lib := Demo.lib)
           (Demo.scripted Demo.honest) tt tt false Demo.legacy_client Demo.share1
           Demo.share1 Demo.external_kmd).
  vm_compute. reflexivity.
Defined.

(** ** The metadata of the KEKs in the whole-buffer client *)

Section ProtectionLevels.
Context {lib : GoLib} {S : Type} (h : Handler S).

Lemma protection_body_aligned cl kek (s : S) :
  match run h (Legacy.protectionLevelsAndUris_body cl kek) s with
  | (Returned (Ok kmd), _, tr) =>
      metadata_of kek kmd
      /\ map fst (answers get_crypto_key tr) = kms_resources [kek]
      /\ List.length tr = List.length (kms_resources [kek])
  | _ => True
  end.
Proof.
  unfold Legacy.protectionLevelsAndUris_body, metadata_of, kms_resources, is_KekUri,
    GetKekUri, kms_method.
  destruct kek as [[| f | u]]; cbn -[TrimPrefix HasPrefix gcpKeyPrefix]; auto.
  destruct cl as [cl |]; trek h; cbn -[TrimPrefix HasPrefix gcpKeyPrefix]; auto;
    (split; [split; [reflexivity | split; [reflexivity | discriminate]] | auto]).
Qed.

Lemma protection_loop_aligned cl : forall kekInfos acc (s : S) kmds s' tr,
  run h (Legacy.protectionLevelsAndUris_loop cl kekInfos acc) s
  = (Returned (Ok kmds), s', tr) ->
  exists new,
    kmds = (acc ++ new)%list
    /\ Forall2 metadata_of kekInfos new
    /\ map fst (answers get_crypto_key tr) = kms_resources kekInfos
    /\ List.length tr = List.length (kms_resources kekInfos).
Proof.
  induction kekInfos as [| kek rest IH]; intros acc s kmds s' tr H.
  - cbn in H. inversion H; subst. exists []. rewrite app_nil_r. auto.
  - cbn [Legacy.protectionLevelsAndUris_loop] in H.
    apply run_bind_Returned in H.
    destruct H as (m & s1 & t1 & t2 & Hbody & H & ->).
    pose proof (protection_body_aligned cl kek s) as Hb. rewrite Hbody in Hb.
    destruct m as [kmd | e]; [| discriminate].
    destruct Hb as (Hm & Hcalls & Hlen).
    apply IH in H. destruct H as (new & -> & Hall & Hcalls' & Hlen').
    exists (kmd :: new). rewrite <- app_assoc.
    split; [reflexivity |]. split; [constructor; assumption |].
    rewrite answers_app, map_app, length_app, Hcalls, Hcalls', Hlen, Hlen'.
    unfold kms_resources. cbn [filter].
    destruct (is_KekUri kek); cbn; auto.
Qed.

End ProtectionLevels.

(** X13.  When [protectionLevelsAndUris] of the whole-buffer client
    succeeds, it returns one metadata entry per KekInfo, at the position
    of the KekInfo: for a KEK URI, which then begins with [gcp-kms://],
    the resource name is the URI without the prefix and the protection
    level is specified; for any other KekInfo the entry is the zero
    value.  Its calls are one [GetCryptoKey] per KEK URI, in the order of
    the KekInfos, and nothing else. *)
Theorem protectionLevelsAndUris_is_positional
  {S : Type} (h : Handler S) (s s' : S)
  (cl : option cloudKMSClient) (kekInfos : list KekInfo)
  (kmds : list kekMetadata) (tr : Trace) :
  run h (Legacy.protectionLevelsAndUris cl kekInfos) s = (Returned (Ok kmds), s', tr) ->
  Forall2 metadata_of kekInfos kmds
  /\ map fst (answers get_crypto_key tr) = kms_resources kekInfos
  /\ List.length tr = List.length (kms_resources kekInfos).
Proof.
  intros H. apply protection_loop_aligned in H.
  destruct H as (new & -> & H). exact H.
Qed.

Lemma protectionLevelsAndUris_is_positional_witness :
  Forall2 (metadata_of)
    [Demo.kek_software; Demo.kek_rsaA; Demo.kek_external]
    [ {| protectionLevel := SOFTWARE;
         uri := "gcp-kms://projects/p/keys/software";
         resourceName := "projects/p/keys/software" |};
      {| protectionLevel := PROTECTION_LEVEL_UNSPECIFIED; uri := ""; resourceName := "" |};
      Demo.external_kmd ]
  /\ map fst (answers get_crypto_key
                (trace_of (Demo.scripted Demo.honest)
                   (Legacy.protectionLevelsAndUris (Some (KMSClient 0))
                      [Demo.kek_software; Demo.kek_rsaA; Demo.kek_external]) tt))
     = kms_resources [Demo.kek_software; Demo.kek_rsaA; Demo.kek_external]
  /\ List.length
       (trace_of (Demo.scripted Demo.honest)
          (Legacy.protectionLevelsAndUris (Some (KMSClient 0))
             [Demo.kek_software; Demo.kek_rsaA; Demo.kek_external]) tt)
     = List.length (kms_resources [Demo.kek_software; Demo.kek_rsaA; Demo.kek_external]).
Proof.
  apply (protectionLevelsAndUris_is_positional (Demo.scripted Demo.honest) tt tt
           (Some (KMSClient 0))).
  vm_compute. reflexivity.
Defined.

(** ** The search of the key files in the whole-buffer client *)

Section KeySearch.
Context {lib : GoLib} {S : Type} (h : Handler S).

Lemma key_search_skip {K} (holds : bytes -> K -> string -> Prop) wanted not_found
  path keyBytes key fp rest skipped final r :
  holds keyBytes key fp -> fp <> wanted ->
  key_search holds wanted not_found rest skipped final r ->
  key_search holds wanted not_found (path :: rest)
    ((path, Ok keyBytes) :: skipped) final r.
Proof.
  intros Hholds Hfp (Hprefix & Hskipped & Hr). split; [| split].
  - cbn. rewrite Hprefix. reflexivity.
  - constructor; [| exact Hskipped]. exists keyBytes, key, fp. auto.
  - destruct r as [k | e]; [exact Hr |].
    destruct Hr as [(Hf & Hlen & He) | Hr]; [left | right; exact Hr].
    cbn. auto.
Qed.

Lemma key_search_stop {K} (holds : bytes -> K -> string -> Prop) wanted not_found
  path answer rest e :
  (forall keyBytes key fp, answer = Ok keyBytes -> ~ holds keyBytes key fp) ->
  key_search holds wanted not_found (path :: rest) [] [(path, answer)] (Err e).
Proof.
  intros Hno. split; [reflexivity | split; [constructor |]].
  right. exists path, answer. auto.
Qed.

Lemma publicKey_loop kek : forall paths (s : S),
  exists r s' skipped final,
    run h (Legacy.publicKeyForRSAFingerprint_loop kek paths) s
    = (Returned r, s', map file_read (skipped ++ final)%list)
    /\ key_search public_key_in (GetRsaFingerprint kek)
         (Errorf "no RSA public key found for fingerprint: %s"
            [AString (GetRsaFingerprint kek)])
         paths skipped final r.
Proof.
  induction paths as [| path rest IH]; intros s.
  - eexists _, s, [], []. split; [reflexivity |].
    split; [reflexivity | split; [constructor |]]. left. auto.
  - cbn [Legacy.publicKeyForRSAFingerprint_loop bind call run].
    destruct (h _ (os_ReadFile path) s) as [[keyBytes | err] s1] eqn:Hread.
    2:{ eexists _, s1, [], [(path, Err err)]. split; [reflexivity |].
        apply key_search_stop. discriminate. }
    destruct (pem_Decode keyBytes) as [block |] eqn:Hpem.
    2:{ eexists _, s1, [], [(path, Ok keyBytes)]. split; [reflexivity |].
        apply key_search_stop. intros kb key fp Hkb (b & Hb & _).
        inversion Hkb; subst. congruence. }
    destruct (String.eqb_spec (pem_Type block) "PUBLIC KEY") as [Hty | Hty]; cbn [negb].
    2:{ eexists _, s1, [], [(path, Ok keyBytes)]. split; [reflexivity |].
        apply key_search_stop. intros kb key fp Hkb (b & Hb & Hb' & _).
        inversion Hkb; subst. congruence. }
    destruct (x509_ParsePKIXPublicKey (pem_Bytes block)) as [[key |] | err] eqn:Hparse.
    2,3: eexists _, s1, [], [(path, Ok keyBytes)]; (split; [reflexivity |]);
         apply key_search_stop; intros kb key fp Hkb (b & Hb & _ & Hb' & _);
         inversion Hkb; subst; congruence.
    cbv zeta.
    destruct (String.eqb_spec
                (base64_EncodeToString (sha256_Sum256 (pem_Bytes block)))
                (GetRsaFingerprint kek)) as [Hfp | Hfp].
    + eexists _, s1, [], [(path, Ok keyBytes)]. split; [reflexivity |].
      split; [reflexivity | split; [constructor |]].
      exists path, keyBytes. split; [reflexivity |]. exists block. auto.
    + destruct (IH s1) as (r & s' & skipped & final & Hrun & Hsearch).
      rewrite Hrun. exists r, s', ((path, Ok keyBytes) :: skipped), final.
      split; [reflexivity |].
      eapply key_search_skip; [| exact Hfp | exact Hsearch].
      exists block. repeat (split; [eassumption |]). reflexivity.
Qed.

Lemma privateKey_loop kek : forall paths (s : S),
  exists r s' skipped final,
    run h (Legacy.privateKeyForRSAFingerprint_loop kek paths) s
    = (Returned r, s', map file_read (skipped ++ final)%list)
    /\ key_search private_key_in (GetRsaFingerprint kek)
         (Errorf "no RSA private key found for fingerprint: %s"
            [AString (GetRsaFingerprint kek)])
         paths skipped final r.
Proof.
  induction paths as [| path rest IH]; intros s.
  - eexists _, s, [], []. split; [reflexivity |].
    split; [reflexivity | split; [constructor |]]. left. auto.
  - cbn [Legacy.privateKeyForRSAFingerprint_loop bind call run].
    destruct (h _ (os_ReadFile path) s) as [[keyBytes | err] s1] eqn:Hread.
    2:{ eexists _, s1, [], [(path, Err err)]. split; [reflexivity |].
        apply key_search_stop. discriminate. }
    destruct (pem_Decode keyBytes) as [block |] eqn:Hpem.
    2:{ eexists _, s1, [], [(path, Ok keyBytes)]. split; [reflexivity |].
        apply key_search_stop. intros kb key fp Hkb (b & d & Hb & _).
        inversion Hkb; subst. congruence. }
    destruct (String.eqb_spec (pem_Type block) "RSA PRIVATE KEY") as [Hty | Hty];
      cbn [negb].
    2:{ eexists _, s1, [], [(path, Ok keyBytes)]. split; [reflexivity |].
        apply key_search_stop. intros kb key fp Hkb (b & d & Hb & Hb' & _).
        inversion Hkb; subst. congruence. }
    destruct (x509_ParsePKCS1PrivateKey (pem_Bytes block)) as [key | err] eqn:Hparse.
    2:{ eexists _, s1, [], [(path, Ok keyBytes)]. split; [reflexivity |].
        apply key_search_stop. intros kb key fp Hkb (b & d & Hb & _ & Hb' & _).
        inversion Hkb; subst. congruence. }
    destruct (x509_MarshalPKIXPublicKey key) as [der | err] eqn:Hder.
    2:{ eexists _, s1, [], [(path, Ok keyBytes)]. split; [reflexivity |].
        apply key_search_stop. intros kb key' fp Hkb (b & d & Hb & _ & Hb' & Hd & _).
        inversion Hkb; subst. congruence. }
    cbv zeta.
    destruct (String.eqb_spec (base64_EncodeToString (sha256_Sum256 der))
                (GetRsaFingerprint kek)) as [Hfp | Hfp].
    + eexists _, s1, [], [(path, Ok keyBytes)]. split; [reflexivity |].
      split; [reflexivity | split; [constructor |]].
      exists path, keyBytes. split; [reflexivity |]. exists block, der. auto.
    + destruct (IH s1) as (r & s' & skipped & final & Hrun & Hsearch).
      rewrite Hrun. exists r, s', ((path, Ok keyBytes) :: skipped), final.
      split; [reflexivity |].
      eapply key_search_skip; [| exact Hfp | exact Hsearch].
      exists block, der. repeat (split; [eassumption |]). reflexivity.
Qed.

End KeySearch.

(** X14.  [publicKeyForRSAFingerprint] of the whole-buffer client always
    returns, and its only calls are reads of a prefix of the public key
    files, in their order.  It skips the files that hold an RSA public
    key of another fingerprint and returns the key of the first file
    whose fingerprint, the base64 of the SHA-256 of the bytes of its PEM
    block, is the wanted one.  A file that cannot be read, or that holds
    no PEM block of type PUBLIC KEY that parses as an RSA public key,
    ends the search with an error, whatever the files after it hold; when
    every file was skipped the error is "no RSA public key found". *)
Theorem publicKeyForRSAFingerprint_search
  {lib : GoLib} {S : Type} (h : Handler S) (s : S) (kek : KekInfo)
  (keys : AsymmetricKeys) :
  exists r s' skipped final,
    run h (Legacy.publicKeyForRSAFingerprint kek keys) s
    = (Returned r, s', map file_read (skipped ++ final)%list)
    /\ key_search public_key_in (GetRsaFingerprint kek)
         (Errorf "no RSA public key found for fingerprint: %s"
            [AString (GetRsaFingerprint kek)])
         (PublicKeyFiles keys) skipped final r.
Proof. apply publicKey_loop. Qed.

(** X15.  [privateKeyForRSAFingerprint] of the whole-buffer client always
    returns, and its only calls are reads of a prefix of the private key
    files, in their order.  It skips the files that hold an RSA private
    key of another fingerprint and returns the key of the first file
    whose fingerprint is the wanted one; the fingerprint of a private key
    is the base64 of the SHA-256 of the PKIX encoding of its public key.
    A file that cannot be read, or that holds no PEM block of type RSA
    PRIVATE KEY that parses as a PKCS #1 key whose public key can be
    encoded, ends the search with an error, whatever the files after it
    hold; when every file was skipped the error is "no RSA private key
    found". *)
Theorem privateKeyForRSAFingerprint_search
  {lib : GoLib} {S : Type} (h : Handler S) (s : S) (kek : KekInfo)
  (keys : AsymmetricKeys) :
  exists r s' skipped final,
    run h (Legacy.privateKeyForRSAFingerprint kek keys) s
    = (Returned r, s', map file_read (skipped ++ final)%list)
    /\ key_search private_key_in (GetRsaFingerprint kek)
         (Errorf "no RSA private key found for fingerprint: %s"
            [AString (GetRsaFingerprint kek)])
         (PrivateKeyFiles keys) skipped final r.
Proof. apply privateKey_loop. Qed.

(** ** Unwrapping in the whole-buffer client *)

(** Follow a program of the whole-buffer client through every answer of
    the environment and every outcome of the loops it calls. *)
Ltac trek_run h :=
  repeat (cbn -[crc32c TrimPrefix HasPrefix gcpKeyPrefix];
          match goal with
          | |- context [h ?X ?e ?s] => destruct (h X e s) as [? ?]
          | |- context [match ?x with _ => _ end] => is_var x; destruct x
          | |- context [negb ?x] => is_var x; destruct x
          | |- context [DecryptResponse_PlaintextCrc32C ?a] => is_var a; destruct a
          | |- context [EncryptResponse_VerifiedPlaintextCrc32C ?a] =>
              is_var a; destruct a
          | |- context [protectionLevel ?a] => is_var a; destruct a
          | |- context [Z.eqb ?a ?b] => destruct (Z.eqb a b) eqn:?
          | |- context [ValidateShare ?a ?b] => destruct (ValidateShare a b) eqn:?
          | |- context [url_Parse ?a] => destruct (url_Parse a) eqn:?
          | |- context [nth_error ?l ?i] => destruct (nth_error l i) eqn:?
          | |- context [run h (bind _ _) _] => rewrite run_bind
          | |- context [run h (Legacy.privateKeyForRSAFingerprint_loop ?a ?b) ?s] =>
              destruct (run h (Legacy.privateKeyForRSAFingerprint_loop a b) s)
                as [[[[? | ?] | ?] ?] ?]
          | |- context [run h (Legacy.publicKeyForRSAFingerprint_loop ?a ?b) ?s] =>
              destruct (run h (Legacy.publicKeyForRSAFingerprint_loop a b) s)
                as [[[[? | ?] | ?] ?] ?]
          | |- context [run h (Legacy.protectionLevelsAndUris_loop ?a ?b ?c) ?s] =>
              destruct (run h (Legacy.protectionLevelsAndUris_loop a b c) s)
                as [[[[? | ?] | ?] ?] ?]
          end).

Ltac unfold_legacy :=
  unfold Legacy.wrapShares_body, Legacy.unwrapAndValidateShares_body,
    Legacy.initializeKMSClient, Legacy.populate_kekMetadatas,
    Legacy.protectionLevelsAndUris, Legacy.publicKeyForRSAFingerprint,
    Legacy.privateKeyForRSAFingerprint,
    Legacy.wrapKMSShare, Legacy.unwrapKMSShare,
    Legacy.ekmSecureSessionWrap, Legacy.ekmSecureSessionUnwrap,
    Legacy.obtain_ekmClient, Legacy.generateTokenFromEKMAddress,
    Legacy.removeSchemeFromURL, Legacy.parseEKMKeyURI, kms_method.

Section LegacyUnwrap.
Context {lib : GoLib} {S : Type} (h : Handler S).

Lemma legacy_unwrap_body_valid c keys kekInfos kmds i wrapped kek (s : S) :
  match run h (Legacy.unwrapAndValidateShares_body c keys kekInfos kmds i wrapped kek) s
  with
  | (Returned (_, _, _, Ok u), _, _) => ValidateShare u (Hash wrapped) = true
  | _ => True
  end.
Proof.
  unfold_legacy.
  destruct kek as [[| f | u]]; destruct c as [[cl |] [fk |] fs]; destruct kmds;
    trek_run h; cbn; auto.
Qed.

Lemma legacy_unwrap_loop_valid kekInfos keys :
  forall wrappedShares i c defers kmds acc (s : S) c' ds us s' tr,
    run h (Legacy.unwrapAndValidateShares_loop kekInfos keys i wrappedShares c defers
             kmds acc) s
    = (Returned (c', ds, Ok us), s', tr) ->
    exists new,
      us = (acc ++ new)%list
      /\ Forall2 (fun wrapped u => ValidateShare u (Hash wrapped) = true)
           wrappedShares new.
Proof.
  induction wrappedShares as [| wrapped rest IH];
    intros i c defers kmds acc s c' ds us s' tr H.
  - cbn in H. inversion H; subst. exists []. rewrite app_nil_r. auto.
  - cbn [Legacy.unwrapAndValidateShares_loop] in H.
    destruct (nth_error kekInfos i) as [kek |]; [| discriminate].
    apply run_bind_Returned in H.
    destruct H as ([[[c1 ds1] kmds1] r] & s1 & t1 & t2 & Hbody & H & ->).
    pose proof (legacy_unwrap_body_valid c keys kekInfos kmds i wrapped kek s) as Hb.
    rewrite Hbody in Hb.
    destruct r as [u | e]; [| discriminate].
    apply IH in H. destruct H as (new & -> & Hall).
    exists (u :: new). rewrite <- app_assoc. split; [reflexivity |].
    constructor; assumption.
Qed.

Lemma legacy_unwrap_valid c wrappedShares kekInfos keys (s : S) c' us s' tr :
  run h (Legacy.unwrapAndValidateShares c wrappedShares kekInfos keys) s
  = (Returned (c', Ok us), s', tr) ->
  List.length wrappedShares = List.length kekInfos
  /\ Forall2 (fun wrapped u => ValidateShare u (Hash wrapped) = true) wrappedShares us.
Proof.
  unfold Legacy.unwrapAndValidateShares.
  destruct (Nat.eqb_spec (List.length wrappedShares) (List.length kekInfos)) as [Hl | Hl];
    cbn [negb]; [| discriminate].
  intros H. split; [exact Hl |].
  apply run_bind_Returned in H.
  destruct H as ([[c1 ds] r] & s1 & t1 & t2 & Hloop & H & _).
  apply run_bind_Returned in H.
  destruct H as (x & s2 & t3 & t4 & _ & H & _).
  inversion H; subst.
  apply legacy_unwrap_loop_valid in Hloop.
  destruct Hloop as (new & -> & Hall). exact Hall.
Qed.

End LegacyUnwrap.

(** X16.  [unwrapAndValidateShares] of the whole-buffer client is all or
    nothing: when it succeeds there is one KekInfo per wrapped share and
    it returns one unwrapped share per wrapped share, at the position of
    the wrapped share, each validated against the hash recorded with that
    wrapped share.  No share is skipped. *)
Theorem legacy_unwrapAndValidateShares_unwraps_every_share
  {lib : GoLib} {S : Type} (h : Handler S) (s s' : S)
  (c c' : Legacy.StetClient) (wrappedShares : list WrappedShare)
  (kekInfos : list KekInfo) (keys : AsymmetricKeys) (us : list bytes) (tr : Trace) :
  run h (Legacy.unwrapAndValidateShares c wrappedShares kekInfos keys) s
  = (Returned (c', Ok us), s', tr) ->
  List.length wrappedShares = List.length kekInfos
  /\ Forall2 (fun wrapped u => ValidateShare u (Hash wrapped) = true) wrappedShares us.
Proof. apply legacy_unwrap_valid. Qed.

Lemma legacy_unwrapAndValidateShares_unwraps_every_share_witness :
  List.length Demo.three_shares = List.length (KekInfos Demo.cfg_kms_only)
  /\ Forall2 (fun wrapped u => ValidateShare (GoLib := Demo.lib) u (Hash wrapped) = true)
       Demo.three_shares [[x0a]; [x0b]; [x0c]].
Proof.
  apply (legacy_unwrapAndValidateShares_unwraps_every_share (lib := Demo.lib)
           (Demo.scripted Demo.honest) tt tt Demo.legacy_client
           (Legacy.set_kmsClient Demo.legacy_client (Some (KMSClient 0)))
           Demo.three_shares (KekInfos Demo.cfg_kms_only) Demo.keys
           [[x0a]; [x0b]; [x0c]]
           (trace_of (Demo.scripted Demo.honest)
              (Legacy.unwrapAndValidateShares (lib := Demo.lib) Demo.legacy_client
                 Demo.three_shares (KekInfos Demo.cfg_kms_only) Demo.keys) tt)).
  vm_compute. reflexivity.
Defined.

(** ** Decrypt of the whole-buffer client *)

Lemma copy_DEK_exact (combined : bytes) :
  List.length combined = DEKBytes -> copy_DEK combined = combined.
Proof.
  intros Hl. unfold copy_DEK. rewrite Hl, Nat.sub_diag. cbn [repeat].
  rewrite app_nil_r. rewrite <- Hl. apply firstn_all.
Qed.

(** X17.  When [Decrypt] of the whole-buffer client succeeds: the
    KeyConfig of the blob is one of the configured KeyConfigs; every
    wrapped share of the blob was unwrapped and validated against its
    hash; the key reconstituted from all of them has exactly 32 bytes; the
    plaintext returned is the AEAD decryption of the ciphertext under that
    key, with the serialised metadata as associated data; the blob ID
    returned is that of the metadata; and the key URIs returned are the
    KEK URIs of every configured KeyConfig, matching or not. *)
Theorem legacy_Decrypt_success
  {lib : GoLib} {S : Type} (h : Handler S) (s s' : S)
  (c c' : Legacy.StetClient) (data : EncryptedData) (config : option DecryptConfig)
  (keys : AsymmetricKeys) (d : Legacy.DecryptedData) (tr : Trace) :
  run h (Legacy.Decrypt c data config keys) s = (Returned (c', Ok d), s', tr) ->
  exists matching us dek aad,
    In matching (Legacy.GetKeyConfigs config)
    /\ Legacy.GetKeyConfig (EncryptedData_Metadata data) = Some matching
    /\ Forall2 (fun wrapped u => ValidateShare u (Hash wrapped) = true)
         (Legacy.GetShares (EncryptedData_Metadata data)) us
    /\ reconstitutes matching us dek
    /\ List.length dek = DEKBytes
    /\ Legacy.metadataToAAD (EncryptedData_Metadata data) = Ok aad
    /\ aeadDecrypt dek (EncryptedData_Ciphertext data) aad = Ok (Legacy.Plaintext d)
    /\ Legacy.KeyUris d = Legacy.extract_keyURIs config
    /\ Legacy.BlobID d = Legacy.GetBlobId (EncryptedData_Metadata data).
Proof.
  unfold Legacy.Decrypt.
  destruct (find _ _) as [matching |] eqn:Hfind; [| discriminate].
  apply find_some in Hfind. destruct Hfind as [Hin Heq].
  apply proto_Equal_true in Heq.
  intros H. apply run_bind_Returned in H.
  destruct H as ([c1 u] & s1 & t1 & t2 & Hunwrap & H & _).
  destruct u as [us | e]; [| discriminate].
  apply legacy_unwrap_valid in Hunwrap. destruct Hunwrap as [_ Hvalid].
  cbv zeta in H.
  destruct (match KeySplittingAlgorithm_ matching with
            | KeySplitting_unset => _ | KeyConfig_NoSplit _ => _
            | KeyConfig_Shamir _ => _ end) as [dek | e] eqn:Hdek; [| discriminate].
  destruct (Nat.eqb_spec (List.length dek) DEKBytes) as [Hlen | Hlen];
    cbn [negb] in H; [| discriminate].
  rewrite (copy_DEK_exact dek Hlen) in H.
  destruct (Legacy.metadataToAAD _) as [aad | e] eqn:Haad; [| discriminate].
  destruct (aeadDecrypt _ _ _) as [pt | e] eqn:Hpt; [| discriminate].
  inversion H; subst. exists matching, us, dek, aad.
  split; [exact Hin |]. split; [exact Heq |]. split; [exact Hvalid |].
  split.
  { unfold reconstitutes.
    destruct (KeySplittingAlgorithm_ matching) as [| b | sh].
    - discriminate.
    - destruct us as [| sole [| ? ?]]; try discriminate. congruence.
    - destruct (CombineShares us); [congruence | discriminate]. }
  cbn. auto.
Qed.

Lemma legacy_Decrypt_success_witness :
  exists matching us dek aad,
    In matching (Legacy.GetKeyConfigs (Some {| KeyConfigs := [Demo.cfg_kms_only;
                                                              Examples.no_split_software] |}))
    /\ Legacy.GetKeyConfig (EncryptedData_Metadata Examples.sealed) = Some matching
    /\ Forall2 (fun wrapped u => ValidateShare (GoLib := Demo.lib) u (Hash wrapped) = true)
         (Legacy.GetShares (EncryptedData_Metadata Examples.sealed)) us
    /\ reconstitutes (lib := Demo.lib) matching us dek
    /\ List.length dek = DEKBytes
    /\ Legacy.metadataToAAD (lib := Demo.lib) (EncryptedData_Metadata Examples.sealed)
       = Ok aad
    /\ aeadDecrypt (GoLib := Demo.lib) dek (EncryptedData_Ciphertext Examples.sealed) aad
       = Ok [x68; x69]
    /\ [ "gcp-kms://projects/p/keys/software"; "gcp-kms://projects/p/keys/external";
         "gcp-kms://projects/p/keys/software"; "gcp-kms://projects/p/keys/software" ]
       = Legacy.extract_keyURIs (Some {| KeyConfigs := [Demo.cfg_kms_only;
                                                        Examples.no_split_software] |})
    /\ "blob-2" = Legacy.GetBlobId (EncryptedData_Metadata Examples.sealed).
Proof.
  apply (legacy_Decrypt_success (lib := Demo.lib) (Demo.scripted Demo.honest) tt tt
           Demo.legacy_client
           (Legacy.set_kmsClient Demo.legacy_client (Some (KMSClient 0)))
           Examples.sealed
           (Some {| KeyConfigs := [Demo.cfg_kms_only; Examples.no_split_software] |})
           Demo.keys
           {| Legacy.Plaintext := [x68; x69];
              Legacy.KeyUris :=
                [ "gcp-kms://projects/p/keys/software";
                  "gcp-kms://projects/p/keys/external";
                  "gcp-kms://projects/p/keys/software";
                  "gcp-kms://projects/p/keys/software" ];
              Legacy.BlobID := "blob-2" |}
           (trace_of (Demo.scripted Demo.honest)
              (Legacy.Decrypt (lib := Demo.lib) Demo.legacy_client Examples.sealed
                 (Some {| KeyConfigs := [Demo.cfg_kms_only;
                                         Examples.no_split_software] |})
                 Demo.keys) tt)).
  vm_compute. reflexivity.
Defined.

(** ** Encrypt of the whole-buffer client *)

Section LegacyWrap.
Context {lib : GoLib} {S : Type} (h : Handler S).




End LegacyWrap.



(** X19.  [Encrypt] of the whole-buffer client does not check its
    configuration for nil: with a nil EncryptConfig, or one without a
    KeyConfig, it draws the blob ID when none is given, draws a DEK, and
    then panics on the nil KeyConfig.  Nothing is returned, and no key is
    asked for, wrapped or used. *)
Theorem legacy_Encrypt_without_KeyConfig_panics
  {lib : GoLib} {S : Type} (h : Handler S) (s : S)
  (c : Legacy.StetClient) (plaintext : bytes) (config : option EncryptConfig)
  (keys : AsymmetricKeys) (blobID : string) :
  match config with
  | Some config => EncryptConfig_KeyConfig config
  | None => None
  end = None ->
  outcome_of h (Legacy.Encrypt c plaintext config keys blobID) s
  = Panicked nil_dereference
  /\ exists blob dek,
       trace_of h (Legacy.Encrypt c plaintext config keys blobID) s
       = ((if String.eqb blobID "" then [mkCall uuid_NewString blob] else [])
          ++ [mkCall NewDEK dek])%list.
Proof.
  intros Hnil. unfold outcome_of, trace_of, Legacy.Encrypt. rewrite Hnil.
  destruct (String.eqb blobID ""); cbn.
  - destruct (h _ uuid_NewString s) as [blob s1].
    destruct (h _ NewDEK s1) as [dek s2]. cbn.
    split; [reflexivity |]. exists blob, dek. reflexivity.
  - destruct (h _ NewDEK s) as [dek s2]. cbn.
    split; [reflexivity |]. exists blobID, dek. reflexivity.
Qed.

Lemma legacy_Encrypt_without_KeyConfig_panics_witness :
  outcome_of (Demo.scripted Demo.honest)
    (Legacy.Encrypt (lib := Demo.lib) Demo.legacy_client [x68; x69] None Demo.keys
       "blob-3") tt
  = Panicked nil_dereference
  /\ exists blob dek,
       trace_of (Demo.scripted Demo.honest)
         (Legacy.Encrypt (lib := Demo.lib) Demo.legacy_client [x68; x69] None
            Demo.keys "blob-3") tt
       = ((if String.eqb "blob-3" "" then [mkCall uuid_NewString blob] else [])
          ++ [mkCall NewDEK dek])%list.
Proof.
  apply (legacy_Encrypt_without_KeyConfig_panics (lib := Demo.lib)
           (Demo.scripted Demo.honest) tt Demo.legacy_client [x68; x69] None
           Demo.keys "blob-3").
  reflexivity.
Defined.

(** ** The metadata of the KEKs are retrieved once *)

Ltac trek_eq h :=
  repeat (cbn -[crc32c TrimPrefix HasPrefix gcpKeyPrefix kms_resources];
          match goal with
          | |- context [h ?X ?e ?s] => destruct (h X e s) as [? ?]
          | |- context [match ?x with _ => _ end] => is_var x; destruct x
          | |- context [negb ?x] => is_var x; destruct x
          | |- context [DecryptResponse_PlaintextCrc32C ?a] => is_var a; destruct a
          | |- context [EncryptResponse_VerifiedPlaintextCrc32C ?a] =>
              is_var a; destruct a
          | |- context [protectionLevel ?a] => is_var a; destruct a
          | |- context [Z.eqb ?a ?b] => destruct (Z.eqb a b) eqn:?
          | |- context [ValidateShare ?a ?b] => destruct (ValidateShare a b) eqn:?
          | |- context [url_Parse ?a] => destruct (url_Parse a) eqn:?
          | |- context [nth_error ?l ?i] => destruct (nth_error l i) eqn:?
          | |- context [run h (bind _ _) _] => rewrite run_bind
          | |- context [run h (Legacy.privateKeyForRSAFingerprint_loop ?a ?b) ?s] =>
              destruct (run h (Legacy.privateKeyForRSAFingerprint_loop a b) s)
                as [[[[? | ?] | ?] ?] ?] eqn:?
          | |- context [run h (Legacy.publicKeyForRSAFingerprint_loop ?a ?b) ?s] =>
              destruct (run h (Legacy.publicKeyForRSAFingerprint_loop a b) s)
                as [[[[? | ?] | ?] ?] ?] eqn:?
          | |- context [run h (Legacy.protectionLevelsAndUris_loop ?a ?b ?c) ?s] =>
              destruct (run h (Legacy.protectionLevelsAndUris_loop a b c) s)
                as [[[[? | ?] | ?] ?] ?] eqn:?
          end).

Section ResolvedOnce.
Context {lib : GoLib} {S : Type} (h : Handler S).

Lemma file_reads_no_kms reads : answers get_crypto_key (map file_read reads) = [].
Proof. induction reads as [| r reads IH]; [reflexivity | exact IH]. Qed.

Lemma publicKey_loop_silent kek paths (s : S) o s' t :
  run h (Legacy.publicKeyForRSAFingerprint_loop kek paths) s = (o, s', t) ->
  answers get_crypto_key t = [].
Proof.
  destruct (publicKey_loop h kek paths s) as (r & s1 & skipped & final & Hrun & _).
  rewrite Hrun. intros H. inversion H; subst. apply file_reads_no_kms.
Qed.

Lemma legacy_wrap_body_resolves c keys kekInfos kmds i share kek (s : S) :
  match run h (Legacy.wrapShares_body c keys kekInfos kmds i share kek) s with
  | (Returned (_, _, kmds1, Ok _), _, t) =>
      if is_KekUri kek
      then match kmds with
           | [] => kmds1 <> []
                   /\ map fst (answers get_crypto_key t) = kms_resources kekInfos
           | _ => kmds1 = kmds /\ answers get_crypto_key t = []
           end
      else kmds1 = kmds /\ answers get_crypto_key t = []
  | _ => True
  end.
Proof.
  unfold_legacy. unfold is_KekUri.
  destruct kek as [[| f | u]]; destruct c as [[cl |] [fk |] fs]; destruct kmds;
    trek_eq h; cbn -[kms_resources]; auto.
  all: repeat match goal with
         | E : run h (Legacy.publicKeyForRSAFingerprint_loop _ _) _ = _ |- _ =>
             apply publicKey_loop_silent in E
         | E : run h (Legacy.protectionLevelsAndUris_loop _ _ _) _ = _ |- _ =>
             apply protection_loop_aligned in E;
             destruct E as (? & ? & _ & ? & _)
         | E : nth_error (_ ++ _)%list _ = Some _ |- _ =>
             cbn in E
         end.
  all: rewrite ?answers_app, ?map_app; cbn -[kms_resources];
       rewrite ?app_nil_r.
  all: try (split; [| assumption || reflexivity]).
  all: try reflexivity.
  all: try (subst; intros Hnil;
            match goal with
            | E : nth_error _ _ = Some _ |- _ => rewrite Hnil in E; destruct i; discriminate
            end).
Qed.

Lemma run_deferred_no_kms_lookup defers : forall (s : S) o s' t,
  run h (run_deferred defers) s = (o, s', t) -> answers get_crypto_key t = [].
Proof.
  induction defers as [| d rest IH]; intros s o s' t H; cbn [run_deferred] in H.
  - inversion H; reflexivity.
  - destruct d as [cl |]; cbn [kms_method bind call run] in H.
    + destruct (h _ (KmsClose cl) s) as [x s1].
      destruct (run h (run_deferred rest) s1) as [[o1 s2] t1] eqn:Hrest.
      inversion H; subst. cbn. eapply IH. exact Hrest.
    + inversion H; reflexivity.
Qed.

Lemma legacy_wrap_loop_resolves kekInfos keys :
  forall shares i c defers kmds acc (s : S) c' ds ws s' tr,
    run h (Legacy.wrapShares_loop kekInfos keys i shares c defers kmds acc) s
    = (Returned (c', ds, Ok ws), s', tr) ->
    map fst (answers get_crypto_key tr)
    = match kmds with
      | [] => if existsb is_KekUri (firstn (List.length shares) (skipn i kekInfos))
              then kms_resources kekInfos
              else []
      | _ => []
      end.
Proof.
  induction shares as [| share rest IH];
    intros i c defers kmds acc s c' ds ws s' tr H.
  - cbn in H. inversion H; subst. destruct kmds; reflexivity.
  - cbn [Legacy.wrapShares_loop] in H.
    destruct (nth_error kekInfos i) as [kek |] eqn:Hkek; [| discriminate].
    apply run_bind_Returned in H.
    destruct H as ([[[c1 ds1] kmds1] r] & s1 & t1 & t2 & Hbody & H & ->).
    pose proof (legacy_wrap_body_resolves c keys kekInfos kmds i share kek s) as Hb.
    rewrite Hbody in Hb.
    destruct r as [w | e]; [| discriminate].
    apply IH in H. rewrite answers_app, map_app, H.
    rewrite (skipn_nth_cons _ _ _ Hkek). cbn [List.length firstn existsb].
    destruct (is_KekUri kek); cbn [orb].
    + destruct kmds as [| k0 kmds].
      * destruct Hb as [Hne ->]. destruct kmds1; [congruence |].
        apply app_nil_r.
      * destruct Hb as [-> ->]. reflexivity.
    + destruct Hb as [-> ->]. reflexivity.
Qed.

End ResolvedOnce.

(** X20.  In a successful run of [wrapShares] of the whole-buffer client,
    Cloud KMS is asked for the key of each KEK URI exactly once, in the
    order of the KekInfos: the metadata of all the KEKs are retrieved
    together, when the first share under a KEK URI is wrapped, and are
    not retrieved again for the shares after it. *)
Theorem legacy_wrapShares_resolves_each_KEK_once
  {lib : GoLib} {S : Type} (h : Handler S) (s s' : S)
  (c c' : Legacy.StetClient) (shares : list bytes) (kekInfos : list KekInfo)
  (keys : AsymmetricKeys) (ws : list WrappedShare) (tr : Trace) :
  run h (Legacy.wrapShares c shares kekInfos keys) s = (Returned (c', Ok ws), s', tr) ->
  map fst (answers get_crypto_key tr) = kms_resources kekInfos.
Proof.
  unfold Legacy.wrapShares.
  destruct (Nat.eqb_spec (List.length shares) (List.length kekInfos)) as [Hl | Hl];
    cbn [negb]; [| discriminate].
  intros H. apply run_bind_Returned in H.
  destruct H as ([[c1 ds] r] & s1 & t1 & t2 & Hloop & H & ->).
  apply run_bind_Returned in H.
  destruct H as (x & s2 & t3 & t4 & Hclose & H & ->).
  inversion H; subst.
  apply legacy_wrap_loop_resolves in Hloop.
  rewrite !answers_app, !map_app.
  apply run_deferred_no_kms_lookup in Hclose.
  rewrite Hclose, Hloop. cbn [skipn answers map]. rewrite !app_nil_r.
  rewrite Hl, firstn_all. unfold kms_resources.
  destruct (existsb is_KekUri kekInfos) eqn:He; [reflexivity |].
  clear - He. induction kekInfos as [| kek rest IH]; [reflexivity |].
  cbn in He |- *. destruct (is_KekUri kek); [discriminate |]. apply IH. exact He.
Qed.

Lemma legacy_wrapShares_resolves_each_KEK_once_witness :
  map fst (answers get_crypto_key
             (trace_of (Demo.scripted Demo.honest)
                (Legacy.wrapShares (lib := Demo.lib) Demo.legacy_client
                   [[x0a]; [x0b]; [x0c]] (KekInfos Demo.cfg_kms_only) Demo.keys) tt))
  = kms_resources (KekInfos Demo.cfg_kms_only).
Proof.
  apply (legacy_wrapShares_resolves_each_KEK_once (lib := Demo.lib)
           (Demo.scripted Demo.honest) tt tt Demo.legacy_client
           (Legacy.set_kmsClient Demo.legacy_client (Some (KMSClient 0)))
           [[x0a]; [x0b]; [x0c]] (KekInfos Demo.cfg_kms_only) Demo.keys
           [ {| Share := [x0a]; Hash := [x0a] |};
             {| Share := [x0b]; Hash := [x0b] |};
             {| Share := [x0c]; Hash := [x0c] |} ]).
  vm_compute. reflexivity.
Defined.
